(** * SleepAgent: the processing pipeline and its two-tier memory

    A shallow embedding of the Python sources of the sleep optimizer agent
    (services/analyzer.py, services/scorer.py, services/recommender.py,
    memory/stm.py, memory/ltm.py, utils/validators.py, agent/nodes.py,
    agent/workflow.py) together with the properties stated about them.

    Modelling conventions.
    - Python numbers (int and float alike) are exact rationals [Q]; results
      are compared with [==].  Divisions in the sources are all guarded by a
      non-emptiness test, so [ZeroDivisionError] never arises.
    - A dict with a fixed set of optional keys is a record of [option]
      fields; [None] is an absent key.
    - A Python exception that a caller catches is an [option] result:
      [None] is "raised".  Values carry the types of the data model (a
      duration is a number, a time label a string), so the exceptions left
      are the ones typed data can still raise: comparing a time-zone aware
      date with a naive one, and using [None] where a list or a dict is
      expected.
    - The document store answers every call; the two memories reach it
      only through their methods, whose calls a trace records.
    - Library functions whose exact behaviour is outside the repository
      (ISO date parsing, float formatting, [str()]) and the values read from
      the process environment are the fields of the class [Platform]. *)

From Stdlib Require Import QArith Qround Qminmax ZArith Lia Lqa.
From Stdlib Require Import Ascii String DecimalString.
From stdpp Require Import base option list strings gmap.

Set Warnings "-register-all".
Open Scope Z_scope.

(* ===================================================================== *)
(** * Python values and helpers *)
(* ===================================================================== *)

(** JSON values, for the places where the sources keep an open value. *)
Inductive json :=
| JNull
| JBool (b : bool)
| JNum (q : Q)
| JStr (s : string)
| JArr (l : list json)
| JObj (m : list (string * json)).

(** [datetime] objects: microseconds since 0001-01-01T00:00:00, either
    without a time zone (naive) or as a UTC instant (aware). *)
Inductive datetime :=
| Naive (us : Z)
| Aware (us : Z).

Module Py.

(** Truthiness of a JSON value ([bool(x)]). *)
Definition truthy (j : json) : bool :=
  match j with
  | JNull => false
  | JBool b => b
  | JNum q => negb (Qeq_bool q 0)
  | JStr s => negb (String.eqb s "")
  | JArr l => match l with [] => false | _ => true end
  | JObj m => match m with [] => false | _ => true end
  end.

(** [round(x)]: nearest integer, ties to the even one. *)
Definition round (x : Q) : Z :=
  let f := Qfloor x in
  match (x - inject_Z f ?= 1 # 2)%Q with
  | Lt => f
  | Gt => f + 1
  | Eq => if Z.even f then f else f + 1
  end.

(** [round(x, n)]. *)
Definition round_n (n : nat) (x : Q) : Q :=
  (inject_Z (round (x * inject_Z (10 ^ Z.of_nat n))) / inject_Z (10 ^ Z.of_nat n))%Q.

(** [sum(l)]: starts from 0 and adds from the left. *)
Definition sum (l : list Q) : Q := fold_left Qplus l 0%Q.

(** [len(l)] as a number. *)
Definition len {A} (l : list A) : Q := inject_Z (Z.of_nat (length l)).

(** [min(l)] and [max(l)] of a non-empty list (every caller tests for
    emptiness first; on [[]] Python raises and the model gives 0). *)
Definition min (l : list Q) : Q :=
  match l with [] => 0%Q | x :: l' => fold_left Qmin l' x end.
Definition max (l : list Q) : Q :=
  match l with [] => 0%Q | x :: l' => fold_left Qmax l' x end.

(** [x < y], [x <= y], [x == y] on numbers, as booleans. *)
Definition lt (x y : Q) : bool := negb (Qle_bool y x).
Definition le (x y : Q) : bool := Qle_bool x y.
Definition eq (x y : Q) : bool := Qeq_bool x y.

(** [bool(x)] for an optional number and an optional string:
    [s.get(k)] used as a condition. *)
Definition truthy_num (o : option Q) : bool :=
  match o with Some q => negb (Qeq_bool q 0) | None => false end.
Definition truthy_str (o : option string) : bool :=
  match o with Some s => negb (String.eqb s "") | None => false end.

(** [k in d] for an optional key. *)
Definition present {A} (o : option A) : bool :=
  match o with Some _ => true | None => false end.

(** [len(set(l))] for a list of strings. *)
Definition len_set (l : list string) : nat := length (remove_dups l).

(** [" ".strip()]-style test: [not s.strip()].  Whitespace is the ASCII
    set of [str.isspace]. *)
Definition isspace (c : ascii) : bool :=
  let n := nat_of_ascii c in
  ((9 <=? n)%nat && (n <=? 13)%nat) || ((28 <=? n)%nat && (n <=? 32)%nat).
Fixpoint all_space (s : string) : bool :=
  match s with
  | EmptyString => true
  | String c s' => isspace c && all_space s'
  end.

(** [s.replace(c, by)] for a one-character pattern. *)
Fixpoint replace_char (c : ascii) (by_ : string) (s : string) : string :=
  match s with
  | EmptyString => EmptyString
  | String a s' =>
      if Ascii.eqb a c then by_ +:+ replace_char c by_ s'
      else String a (replace_char c by_ s')
  end.

(** [sep.join(l)]. *)
Fixpoint join (sep : string) (l : list string) : string :=
  match l with
  | [] => ""
  | [x] => x
  | x :: l' => x +:+ sep +:+ join sep l'
  end.

(** [s.lower()] on ASCII letters. *)
Definition lower_char (c : ascii) : ascii :=
  let n := nat_of_ascii c in
  if ((65 <=? n)%nat && (n <=? 90)%nat) then ascii_of_nat (n + 32) else c.
Fixpoint lower (s : string) : string :=
  match s with
  | EmptyString => EmptyString
  | String c s' => String (lower_char c) (lower s')
  end.

(** [sub in s] for strings. *)
Fixpoint contains (sub s : string) : bool :=
  String.prefix sub s
  || match s with
     | EmptyString => false
     | String _ s' => contains sub s'
     end.

(** [f"{n:02d}"] for a natural number. *)
Definition two_digits (n : nat) : string :=
  let d := NilEmpty.string_of_uint (Nat.to_uint n) in
  if (n <? 10)%nat then "0" +:+ d else d.

(** [int(x)]: truncation towards zero. *)
Definition int (x : Q) : Z := if Qle_bool 0 x then Qfloor x else Qceiling x.

(** [str(n)] of an integer. *)
Definition str_int (z : Z) : string := NilZero.string_of_int (Z.to_int z).

(** [dict.get(k, 0)] on a map of numbers and [bool(d)] of a map. *)
Definition get_num (m : gmap string Q) (k : string) : Q := default 0%Q (m !! k).
Definition dict_truthy {A} (m : gmap string A) : bool := negb (Nat.eqb (size m) 0).

End Py.

(** The platform: library functions and environment-configured values. *)
Class Platform := {
  (** [datetime.fromisoformat(s)]; [None] is [ValueError]. *)
  fromisoformat : string → option datetime;
  (** [datetime.strptime(s, '%Y-%m-%d')], always naive; [None] is
      [ValueError]. *)
  strptime_ymd : string → option Z;
  (** [str(x)] of a JSON value and of a [datetime]. *)
  py_str : json → string;
  str_datetime : datetime → string;
  (** [format(x, '.nf')]. *)
  format_f : nat → Q → string;
  (** [Config.STM_RETENTION_DAYS] and [Config.MAX_SLEEP_SESSIONS_PER_TASK],
      read from the environment (defaults 7 and 1000). *)
  STM_RETENTION_DAYS : Z;
  MAX_SLEEP_SESSIONS_PER_TASK : Z
}.

(* ===================================================================== *)
(** * config.py *)
(* ===================================================================== *)

Module Config.
Definition OPTIMAL_SLEEP_DURATION_MIN : Q := 7.
Definition OPTIMAL_SLEEP_DURATION_MAX : Q := 9.
Definition MIN_SLEEP_DURATION : Q := 1 # 2.
Definition MAX_SLEEP_DURATION : Q := 16.
Definition CAFFEINE_CUTOFF_HOURS : Z := 8.
Definition SCREEN_TIME_WARNING_HOURS : Q := 2.
Definition EXERCISE_CUTOFF_HOURS : Z := 3.
End Config.

(* ===================================================================== *)
(** * Data model: sessions and profiles *)
(* ===================================================================== *)

(** The value under a session's ['session_date'] key: any JSON value, or a
    [datetime] object (as the document store returns for stored dates). *)
Inductive date_value :=
| DateJson (j : json)
| DateObj (d : datetime).

(** A sleep session dict.  Fields carry the types of the data model:
    time labels are strings, durations and scores numbers, interruptions a
    list. *)
Record session := {
  session_id : option string;
  bedtime : option string;
  waketime : option string;
  duration_hours : option Q;
  efficiency_score : option Q;
  interruptions : option (list string);
  morning_mood : option Q;
  session_date : option date_value
}.

(** The user profile dict; [empty_profile] is [{}], which the sources treat
    like a missing profile ([if not profile]).  [profile_extra] lists
    further keys a caller may have sent; they only make the dict
    non-empty. *)
Record profile := {
  age : option Q;
  work_schedule : option string;
  caffeine_intake : option string;
  caffeine_after_8pm : option bool;
  screen_time : option Q;
  exercise : option string;
  stress_level : option Q;
  avg_sleep_duration : option Q;
  preferred_duration : option json;
  preferred_bedtime : option json;
  profile_extra : list string
}.

Definition empty_profile : profile :=
  {| age := None; work_schedule := None; caffeine_intake := None;
     caffeine_after_8pm := None; screen_time := None; exercise := None;
     stress_level := None; avg_sleep_duration := None;
     preferred_duration := None; preferred_bedtime := None;
     profile_extra := [] |}.

(** [bool(profile)]: the dict has at least one key. *)
Definition profile_truthy (p : profile) : bool :=
  Py.present (age p) || Py.present (work_schedule p) || Py.present (caffeine_intake p)
  || Py.present (caffeine_after_8pm p) || Py.present (screen_time p)
  || Py.present (exercise p) || Py.present (stress_level p)
  || Py.present (avg_sleep_duration p) || Py.present (preferred_duration p)
  || Py.present (preferred_bedtime p)
  || match profile_extra p with [] => false | _ => true end.

(** The list comprehensions [[s.get(k, 0) for s in sessions if s.get(k)]]. *)
Definition truthy_nums (f : session → option Q) (sessions : list session) : list Q :=
  omap (λ s, match f s with
             | Some q => if negb (Qeq_bool q 0) then Some q else None
             | None => None
             end) sessions.
Definition truthy_strs (f : session → option string) (sessions : list session) : list string :=
  omap (λ s, match f s with
             | Some x => if negb (String.eqb x "") then Some x else None
             | None => None
             end) sessions.

(** [session.get('interruptions', [])]. *)
Definition get_interruptions (s : session) : list string :=
  default [] (interruptions s).

(* ===================================================================== *)
(** * services/analyzer.py *)
(* ===================================================================== *)

(** A sub-dict that is either [{}] or carries all the keys of [A]. *)
Inductive pydict (A : Type) :=
| EmptyDict
| Dict (a : A).
Arguments EmptyDict {A}.
Arguments Dict {A} a.

(** [analysis.get(k, {})]: an absent key reads as [{}]. *)
Definition get_dict {A} (o : option (pydict A)) : pydict A :=
  default EmptyDict o.

(** Keys: average, minimum, maximum, optimal_count, too_short_count,
    too_long_count, total_sessions, is_optimal. *)
Record duration_stats := {
  dur_average : Q;
  dur_minimum : Q;
  dur_maximum : Q;
  optimal_count : nat;
  too_short_count : nat;
  too_long_count : nat;
  total_sessions : nat;
  is_optimal : bool
}.

(** Keys: bedtime_consistency, waketime_consistency, overall_consistency,
    unique_bedtimes, unique_waketimes. *)
Record consistency_stats := {
  bedtime_consistency : Q;
  waketime_consistency : Q;
  overall_consistency : Q;
  unique_bedtimes : nat;
  unique_waketimes : nat
}.

(** Keys: average, minimum, maximum, excellent_count, good_count,
    fair_count, poor_count, is_efficient. *)
Record efficiency_stats := {
  eff_average : Q;
  eff_minimum : Q;
  eff_maximum : Q;
  excellent_count : nat;
  good_count : nat;
  fair_count : nat;
  poor_count : nat;
  is_efficient : bool
}.

(** Keys: total_interruptions, sessions_with_interruptions,
    average_per_session, interruption_rate. *)
Record interruption_stats := {
  total_interruptions : nat;
  sessions_with_interruptions : nat;
  average_per_session : Q;
  interruption_rate : Q
}.

(** Keys: caffeine_intake, caffeine_after_8pm, avg_sleep_efficiency
    (optional), potential_impact. *)
Record caffeine_stats := {
  caf_intake : string;
  caf_after_8pm : bool;
  caf_avg_sleep_efficiency : option Q;
  caf_potential_impact : bool
}.

(** Keys: screen_time_hours, avg_sleep_efficiency (optional),
    potential_impact, recommendation (optional). *)
Record screen_time_stats := {
  screen_time_hours : Q;
  scr_avg_sleep_efficiency : option Q;
  scr_potential_impact : bool;
  scr_recommendation : option string
}.

(** Keys: exercise_frequency, has_regular_exercise, recommendation. *)
Record exercise_stats := {
  exercise_frequency : string;
  has_regular_exercise : bool;
  exe_recommendation : string
}.

(** A detected pattern of the long-term memory (memory/ltm.py). *)
Record pattern := {
  pattern_type : string;
  pattern_description : string;
  pattern_confidence : Q
}.

(** The analysis dict.  The four statistics keys are optional so that a
    caller-supplied analysis lacking one can be told from one holding
    [{}].  [dur_ltm_average], [eff_ltm_average] and [ltm_patterns] are the
    keys the reasoning stage adds; the two averages live inside the
    sub-dicts in the source and are kept beside them here (no reader of a
    sub-dict's truthiness comes after that stage without also asking for
    its ['average']). *)
Record analysis := {
  duration_analysis : option (pydict duration_stats);
  consistency_analysis : option (pydict consistency_stats);
  efficiency_analysis : option (pydict efficiency_stats);
  interruption_analysis : option (pydict interruption_stats);
  caffeine_analysis : option (pydict caffeine_stats);
  screen_time_analysis : option (pydict screen_time_stats);
  exercise_analysis : option (pydict exercise_stats);
  issues : list string;
  summary : string;
  dur_ltm_average : option Q;
  eff_ltm_average : option Q;
  ltm_patterns : option (list pattern)
}.

(** [sum(1 for x in l if P x)]. *)
Definition count_if {A} (P : A → bool) (l : list A) : nat :=
  length (List.filter P l).

Module SleepAnalyzer.
Section with_platform.
Context `{Platform}.

Definition _analyze_duration (sessions : list session) : pydict duration_stats :=
  let durations := truthy_nums duration_hours sessions in
  match durations with
  | [] => EmptyDict
  | _ =>
    let avg_duration := (Py.sum durations / Py.len durations)%Q in
    let min_duration := Py.min durations in
    let max_duration := Py.max durations in
    let optimal_count :=
      count_if (λ d, Py.le Config.OPTIMAL_SLEEP_DURATION_MIN d
                     && Py.le d Config.OPTIMAL_SLEEP_DURATION_MAX) durations in
    let too_short := count_if (λ d, Py.lt d Config.OPTIMAL_SLEEP_DURATION_MIN) durations in
    let too_long := count_if (λ d, Py.lt Config.OPTIMAL_SLEEP_DURATION_MAX d) durations in
    Dict {| dur_average := Py.round_n 2 avg_duration;
            dur_minimum := Py.round_n 2 min_duration;
            dur_maximum := Py.round_n 2 max_duration;
            optimal_count := optimal_count;
            too_short_count := too_short;
            too_long_count := too_long;
            total_sessions := length durations;
            is_optimal := Py.le Config.OPTIMAL_SLEEP_DURATION_MIN avg_duration
                          && Py.le avg_duration Config.OPTIMAL_SLEEP_DURATION_MAX |}
  end.

(** [1.0 - (unique - 1) / len(l) if len(l) > 1 else 1.0], then
    [max(0.0, .)]; 0.0 when the list is empty. *)
Definition label_consistency (labels : list string) : Q :=
  match labels with
  | [] => 0%Q
  | _ =>
    let unique := Py.len_set labels in
    let c := if (1 <? length labels)%nat
             then (1 - (inject_Z (Z.of_nat unique) - 1) / Py.len labels)%Q
             else 1%Q in
    Qmax 0 c
  end.

Definition _analyze_consistency (sessions : list session) : pydict consistency_stats :=
  let bedtimes := truthy_strs bedtime sessions in
  let waketimes := truthy_strs waketime sessions in
  let bedtime_consistency := label_consistency bedtimes in
  let waketime_consistency := label_consistency waketimes in
  Dict {| bedtime_consistency := Py.round_n 2 bedtime_consistency;
          waketime_consistency := Py.round_n 2 waketime_consistency;
          overall_consistency :=
            match bedtimes, waketimes with
            | _ :: _, _ :: _ =>
                Py.round_n 2 ((bedtime_consistency + waketime_consistency) / 2)%Q
            | _, _ => 0%Q
            end;
          unique_bedtimes := match bedtimes with [] => 0%nat | _ => Py.len_set bedtimes end;
          unique_waketimes := match waketimes with [] => 0%nat | _ => Py.len_set waketimes end |}.

Definition _analyze_efficiency (sessions : list session) : pydict efficiency_stats :=
  let efficiency_scores := truthy_nums efficiency_score sessions in
  match efficiency_scores with
  | [] => EmptyDict
  | _ =>
    let avg_efficiency := (Py.sum efficiency_scores / Py.len efficiency_scores)%Q in
    Dict {| eff_average := Py.round_n 2 avg_efficiency;
            eff_minimum := Py.round_n 2 (Py.min efficiency_scores);
            eff_maximum := Py.round_n 2 (Py.max efficiency_scores);
            excellent_count := count_if (λ e, Py.le 85 e) efficiency_scores;
            good_count := count_if (λ e, Py.le 70 e && Py.lt e 85) efficiency_scores;
            fair_count := count_if (λ e, Py.le 50 e && Py.lt e 70) efficiency_scores;
            poor_count := count_if (λ e, Py.lt e 50) efficiency_scores;
            is_efficient := Py.le 70 avg_efficiency |}
  end.

Definition _analyze_interruptions (sessions : list session) : pydict interruption_stats :=
  let total := sum_list (map (λ s, length (get_interruptions s)) sessions) in
  let with_int := count_if (λ s, (0 <? length (get_interruptions s))%nat) sessions in
  let avg_interruptions :=
    match sessions with
    | [] => 0%Q
    | _ => (inject_Z (Z.of_nat total) / Py.len sessions)%Q
    end in
  Dict {| total_interruptions := total;
          sessions_with_interruptions := with_int;
          average_per_session := Py.round_n 2 avg_interruptions;
          interruption_rate :=
            match sessions with
            | [] => 0%Q
            | _ => Py.round_n 2 (inject_Z (Z.of_nat with_int) / Py.len sessions)%Q
            end |}.

(** [x in ['medium', 'high']] and the like. *)
Definition str_in (x : string) (l : list string) : bool :=
  existsb (String.eqb x) l.

Definition _analyze_caffeine_timing (sessions : list session) (p : profile)
  : pydict caffeine_stats :=
    if negb (profile_truthy p) then EmptyDict else
    let intake := default "none" (caffeine_intake p) in
    let after_8pm := default false (caffeine_after_8pm p) in
    let plain := Dict {| caf_intake := intake; caf_after_8pm := after_8pm;
                         caf_avg_sleep_efficiency := None;
                         caf_potential_impact := false |} in
    if after_8pm || str_in intake ["medium"; "high"] then
      match truthy_nums efficiency_score sessions with
      | [] => plain
      | efficiency_scores =>
        let avg_efficiency := (Py.sum efficiency_scores / Py.len efficiency_scores)%Q in
        Dict {| caf_intake := intake; caf_after_8pm := after_8pm;
                caf_avg_sleep_efficiency := Some (Py.round_n 2 avg_efficiency);
                caf_potential_impact := Py.lt avg_efficiency 75 |}
      end
    else plain.

Definition _analyze_screen_time (sessions : list session) (p : profile)
  : pydict screen_time_stats :=
    if negb (profile_truthy p) then EmptyDict else
    let st := default 0%Q (screen_time p) in
    let plain := Dict {| screen_time_hours := st; scr_avg_sleep_efficiency := None;
                         scr_potential_impact := false;
                         scr_recommendation := None |} in
    if Py.lt Config.SCREEN_TIME_WARNING_HOURS st then
      match truthy_nums efficiency_score sessions with
      | [] => plain
      | efficiency_scores =>
        let avg_efficiency := (Py.sum efficiency_scores / Py.len efficiency_scores)%Q in
        Dict {| screen_time_hours := st;
                scr_avg_sleep_efficiency := Some (Py.round_n 2 avg_efficiency);
                scr_potential_impact := Py.lt avg_efficiency 75;
                scr_recommendation :=
                  Some ("Reduce screen time before bed (currently "
                        +:+ py_str (JNum st) +:+ " hours)") |}
      end
    else plain.

Definition _analyze_exercise_timing (sessions : list session) (p : profile)
  : pydict exercise_stats :=
    if negb (profile_truthy p) then EmptyDict else
    let ex := default "rarely" (exercise p) in
    Dict {| exercise_frequency := ex;
            has_regular_exercise := str_in ex ["daily"; "3-4-times"];
            exe_recommendation :=
              if String.eqb ex "rarely" then "Incorporate regular exercise"
              else "Maintain exercise routine" |}.

Definition _identify_issues (a : analysis) (p : profile) : list string :=
  (* Duration issues *)
  (match get_dict (duration_analysis a) with
   | Dict d =>
     let avg := dur_average d in
     if Py.lt avg Config.OPTIMAL_SLEEP_DURATION_MIN then
       ["Average sleep duration is too short (" +:+ format_f 1 avg
        +:+ " hours). Aim for 7-9 hours."]
     else if Py.lt Config.OPTIMAL_SLEEP_DURATION_MAX avg then
       ["Average sleep duration is too long (" +:+ format_f 1 avg
        +:+ " hours). Consider if you need this much sleep."]
     else []
   | EmptyDict => []
   end)
  (* Consistency issues *)
  ++ (let c := match get_dict (consistency_analysis a) with
               | Dict c => overall_consistency c | EmptyDict => 1%Q end in
      if Py.lt c (6 # 10) then
        ["Sleep schedule is inconsistent. Try maintaining the same bedtime and wake time."]
      else [])
  (* Efficiency issues *)
  ++ (match get_dict (efficiency_analysis a) with
      | Dict e =>
        if Py.lt (eff_average e) 70 then
          ["Sleep efficiency is low (" +:+ format_f 0 (eff_average e)
           +:+ "%). Focus on improving sleep quality."]
        else []
      | EmptyDict => []
      end)
  (* Interruption issues *)
  ++ (let r := match get_dict (interruption_analysis a) with
               | Dict i => interruption_rate i | EmptyDict => 0%Q end in
      if Py.lt (1 # 2) r then
        ["Frequent sleep interruptions detected. Consider optimizing your sleep environment."]
      else [])
  (* Caffeine issues *)
  ++ (match get_dict (caffeine_analysis a) with
      | Dict c =>
        if caf_potential_impact c then
          ["Caffeine intake may be affecting sleep quality. Avoid caffeine after 8 PM."]
        else []
      | EmptyDict => []
      end)
  (* Screen time issues *)
  ++ (match get_dict (screen_time_analysis a) with
      | Dict s =>
        if scr_potential_impact s then
          [default "Reduce screen time before bed." (scr_recommendation s)]
        else []
      | EmptyDict => []
      end).

Definition _generate_summary (a : analysis) : string :=
  let summary_parts :=
    (match get_dict (duration_analysis a) with
     | Dict d =>
       if negb (Py.eq (dur_average d) 0) then
         ["Average sleep duration: " +:+ format_f 1 (dur_average d) +:+ " hours"]
       else []
     | EmptyDict => []
     end)
    ++ (match get_dict (efficiency_analysis a) with
        | Dict e =>
          if negb (Py.eq (eff_average e) 0) then
            ["Average efficiency: " +:+ format_f 0 (eff_average e) +:+ "%"]
          else []
        | EmptyDict => []
        end)
    ++ (match get_dict (consistency_analysis a) with
        | Dict c =>
          if negb (Py.eq (overall_consistency c) 0) then
            ["Schedule consistency: " +:+ format_f 0 (overall_consistency c * 100)%Q +:+ "%"]
          else []
        | EmptyDict => []
        end) in
  match summary_parts with
  | [] => "Sleep analysis completed."
  | _ => Py.join ". " summary_parts +:+ "."
  end.

Definition analyze (sessions : list session) (p : profile) : analysis :=
  match sessions with
  | [] =>
    {| duration_analysis := Some EmptyDict;
       consistency_analysis := Some EmptyDict;
       efficiency_analysis := Some EmptyDict;
       interruption_analysis := Some EmptyDict;
       caffeine_analysis := None;
       screen_time_analysis := None;
       exercise_analysis := None;
       issues := ["No sleep data available"];
       summary := "No sleep sessions found for analysis";
       dur_ltm_average := None; eff_ltm_average := None; ltm_patterns := None |}
  | _ =>
    let analysis0 :=
      {| duration_analysis := Some (_analyze_duration sessions);
         consistency_analysis := Some (_analyze_consistency sessions);
         efficiency_analysis := Some (_analyze_efficiency sessions);
         interruption_analysis := Some (_analyze_interruptions sessions);
         caffeine_analysis := Some (_analyze_caffeine_timing sessions p);
         screen_time_analysis := Some (_analyze_screen_time sessions p);
         exercise_analysis := Some (_analyze_exercise_timing sessions p);
         issues := [];
         summary := "";
         dur_ltm_average := None; eff_ltm_average := None; ltm_patterns := None |} in
    let issues1 := _identify_issues analysis0 p in
    let analysis1 :=
      {| duration_analysis := duration_analysis analysis0;
         consistency_analysis := consistency_analysis analysis0;
         efficiency_analysis := efficiency_analysis analysis0;
         interruption_analysis := interruption_analysis analysis0;
         caffeine_analysis := caffeine_analysis analysis0;
         screen_time_analysis := screen_time_analysis analysis0;
         exercise_analysis := exercise_analysis analysis0;
         issues := issues1;
         summary := "";
         dur_ltm_average := None; eff_ltm_average := None; ltm_patterns := None |} in
    {| duration_analysis := duration_analysis analysis1;
       consistency_analysis := consistency_analysis analysis1;
       efficiency_analysis := efficiency_analysis analysis1;
       interruption_analysis := interruption_analysis analysis1;
       caffeine_analysis := caffeine_analysis analysis1;
       screen_time_analysis := screen_time_analysis analysis1;
       exercise_analysis := exercise_analysis analysis1;
       issues := issues1;
       summary := _generate_summary analysis1;
       dur_ltm_average := None; eff_ltm_average := None; ltm_patterns := None |}
  end.

End with_platform.
End SleepAnalyzer.

(* ===================================================================== *)
(** * services/scorer.py *)
(* ===================================================================== *)

(** The ['breakdown'] dict of a score. *)
Record breakdown := {
  duration_score : Q;
  consistency_score : Q;
  efficiency_score_part : Q;
  interruption_score : Q
}.

(** The dict [calculate_score] returns; [breakdown] is [{}] (here [None])
    for an empty session list. *)
Record score_result := {
  sleep_score : Z;
  confidence : Q;
  score_breakdown : option breakdown
}.

Module SleepScorer.

(** [if analysis and k in analysis]: the sub-dict under [k] of a non-empty
    analysis dict.  An analysis record always has its ['issues'] and
    ['summary'] keys, so it is non-empty. *)
Definition analysis_key {A} (an : option analysis) (k : analysis → option (pydict A))
  : option (pydict A) :=
  match an with
  | Some a => k a
  | None => None
  end.

(** The tail of [_score_duration]: the points for an average duration. *)
Definition duration_points (avg_duration : Q) : Q :=
  if Py.le Config.OPTIMAL_SLEEP_DURATION_MIN avg_duration
     && Py.le avg_duration Config.OPTIMAL_SLEEP_DURATION_MAX then 100%Q
  else if Py.lt avg_duration Config.OPTIMAL_SLEEP_DURATION_MIN then
    let ratio := (avg_duration / Config.OPTIMAL_SLEEP_DURATION_MIN)%Q in
    Qmax 0 (ratio * 100)
  else
    let excess := (avg_duration - Config.OPTIMAL_SLEEP_DURATION_MAX)%Q in
    let max_excess := (Config.MAX_SLEEP_DURATION - Config.OPTIMAL_SLEEP_DURATION_MAX)%Q in
    let ratio := if Py.lt 0 max_excess then (1 - excess / max_excess)%Q else 0%Q in
    Qmax 0 (ratio * 100).

Definition _score_duration (sessions : list session) (an : option analysis) : Q :=
  match analysis_key an duration_analysis with
  | Some d =>
    let avg_duration := match d with Dict d => dur_average d | EmptyDict => 0%Q end in
    duration_points avg_duration
  | None =>
    let durations := truthy_nums duration_hours sessions in
    match durations with
    | [] => 0%Q
    | _ => duration_points (Py.sum durations / Py.len durations)%Q
    end
  end.

Definition _score_consistency (sessions : list session) (an : option analysis) : Q :=
  match analysis_key an consistency_analysis with
  | Some c =>
    let consistency := match c with Dict c => overall_consistency c | EmptyDict => 0%Q end in
    (consistency * 100)%Q
  | None =>
    let bedtimes := truthy_strs bedtime sessions in
    let waketimes := truthy_strs waketime sessions in
    match bedtimes, waketimes with
    | _ :: _, _ :: _ =>
      let unique_bedtimes := Py.len_set bedtimes in
      let unique_waketimes := Py.len_set waketimes in
      let bedtime_consistency :=
        if (1 <? length bedtimes)%nat
        then (1 - (inject_Z (Z.of_nat unique_bedtimes) - 1) / Py.len bedtimes)%Q else 1%Q in
      let waketime_consistency :=
        if (1 <? length waketimes)%nat
        then (1 - (inject_Z (Z.of_nat unique_waketimes) - 1) / Py.len waketimes)%Q else 1%Q in
      let consistency := ((bedtime_consistency + waketime_consistency) / 2)%Q in
      (consistency * 100)%Q
    | _, _ => 50%Q
    end
  end.

Definition _score_efficiency (sessions : list session) (an : option analysis) : Q :=
  match analysis_key an efficiency_analysis with
  | Some e =>
    match e with Dict e => eff_average e | EmptyDict => 0%Q end
  | None =>
    let efficiency_scores := truthy_nums efficiency_score sessions in
    match efficiency_scores with
    | [] => 50%Q  (* Default if no efficiency data *)
    | _ => (Py.sum efficiency_scores / Py.len efficiency_scores)%Q
    end
  end.

Definition _score_interruptions (sessions : list session) (an : option analysis) : Q :=
  let avg_interruptions :=
    match analysis_key an interruption_analysis with
    | Some i => match i with Dict i => average_per_session i | EmptyDict => 0%Q end
    | None =>
      let total_interruptions :=
        sum_list (map (λ s, length (get_interruptions s)) sessions) in
      match sessions with
      | [] => 0%Q
      | _ => (inject_Z (Z.of_nat total_interruptions) / Py.len sessions)%Q
      end
    end in
  if Py.eq avg_interruptions 0 then 100%Q
  else if Py.le avg_interruptions 1 then 80%Q
  else if Py.le avg_interruptions 2 then 60%Q
  else if Py.le avg_interruptions 3 then 40%Q
  else Qmax 0 (100 - avg_interruptions * 20).

Definition _calculate_confidence (sessions : list session) (an : option analysis) : Q :=
  match sessions with
  | [] => 0%Q
  | _ =>
    let session_count_confidence := Qmin 1 (Py.len sessions / 7) in
    let complete_sessions :=
      count_if (λ s, Py.truthy_num (duration_hours s) && Py.truthy_str (bedtime s)
                     && Py.truthy_str (waketime s)) sessions in
    let completeness_confidence :=
      (inject_Z (Z.of_nat complete_sessions) / Py.len sessions)%Q in
    let has_efficiency :=
      (inject_Z (Z.of_nat (count_if (λ s, Py.truthy_num (efficiency_score s)) sessions))
       / Py.len sessions)%Q in
    let confidence :=
      (session_count_confidence * (4 # 10) + completeness_confidence * (4 # 10)
       + has_efficiency * (2 # 10))%Q in
    Qmin 1 (Qmax 0 confidence)
  end.

Definition calculate_score (sessions : list session) (an : option analysis) : score_result :=
  match sessions with
  | [] => {| sleep_score := 0; confidence := 0; score_breakdown := None |}
  | _ =>
    let duration_score := _score_duration sessions an in
    let consistency_score := _score_consistency sessions an in
    let efficiency_score := _score_efficiency sessions an in
    let interruption_score := _score_interruptions sessions an in
    let overall_score :=
      (duration_score * (3 # 10) + consistency_score * (25 # 100)
       + efficiency_score * (3 # 10) + interruption_score * (15 # 100))%Q in
    let confidence := _calculate_confidence sessions an in
    {| sleep_score := Py.round overall_score;
       confidence := Py.round_n 2 confidence;
       score_breakdown :=
         Some {| duration_score := Py.round_n 1 duration_score;
                 consistency_score := Py.round_n 1 consistency_score;
                 efficiency_score_part := Py.round_n 1 efficiency_score;
                 interruption_score := Py.round_n 1 interruption_score |} |}
  end.

End SleepScorer.

(** Scenario A of the specification: seven nights of eight hours, the same
    bedtime and wake time, no interruption, no efficiency score. *)
Definition scenario_A_session : session :=
  {| session_id := None; bedtime := Some "22:30"; waketime := Some "06:30";
     duration_hours := Some 8%Q; efficiency_score := None;
     interruptions := Some []; morning_mood := None; session_date := None |}.
Definition scenario_A : list session := replicate 7 scenario_A_session.

(* ===================================================================== *)
(** * services/recommender.py *)
(* ===================================================================== *)

(** Keys: recommended_bedtime, recommended_waketime, target_duration_hours,
    rationale. *)
Record sleep_window := {
  recommended_bedtime : string;
  recommended_waketime : string;
  target_duration_hours : Q;
  rationale : string
}.

(** Keys: cutoff_time, recommendation, current_intake (absent when there is
    no profile). *)
Record caffeine_cutoff := {
  cutoff_time : string;
  cutoff_recommendation : string;
  current_intake : option string
}.

(** Keys: week_goal, daily_bedtime, daily_waketime, weekly_tasks. *)
Record weekly_plan := {
  week_goal : string;
  daily_bedtime : string;
  daily_waketime : string;
  weekly_tasks : list string
}.

(** The recommendations dict of [generate_recommendations]. *)
Record recommendations := {
  ideal_sleep_window : sleep_window;
  rec_caffeine_cutoff : caffeine_cutoff;
  light_exposure_management : list string;
  bedroom_environment : list string;
  wind_down_routine : list string;
  weekly_sleep_plan : weekly_plan;
  personalized_tips : list string
}.

Module SleepRecommender.
Section with_platform.
Context `{Platform}.

Definition US_PER_HOUR : Z := 3600000000.
Definition US_PER_DAY : Z := 86400000000.

(** Hour and minute of [(datetime.combine(today, time(h, m)) -
    timedelta(hours=avg)).time()]: [timedelta] rounds to the microsecond. *)
Definition bed_clock (wake_hour wake_minute : Z) (avg_sleep_duration : Q) : Z * Z :=
  let wake_us := wake_hour * US_PER_HOUR + wake_minute * 60000000 in
  let delta_us := Py.round (avg_sleep_duration * inject_Z US_PER_HOUR) in
  let tod := (wake_us - delta_us) `mod` US_PER_DAY in
  (tod `div` US_PER_HOUR, (tod `div` 60000000) `mod` 60).

(** [t.strftime('%H:%M')]. *)
Definition strftime_HM (h m : Z) : string :=
  Py.two_digits (Z.to_nat h) +:+ ":" +:+ Py.two_digits (Z.to_nat m).

(** The wake hour chosen from the schedule and the age. *)
Definition wake_clock (work_schedule : string) (age : Q) : Z * Z :=
  let '(wake_hour, wake_minute) :=
    if String.eqb work_schedule "9am-5pm" then (6, 30)
    else if String.eqb work_schedule "night-shift" then (16, 0)
    else if String.eqb work_schedule "flexible" then (7, 0)
    else (6, 0) in
  let wake_hour :=
    if Py.lt age 25 then wake_hour + 1
    else if Py.lt 50 age then wake_hour - 1
    else wake_hour in
  (wake_hour, wake_minute).

(** The duration the window aims at, and the bed hour (which the caffeine
    cut-off reads back from the formatted bedtime). *)
Definition window_inputs (an : option analysis) (p : profile) : string * Q * Q :=
  let work_schedule := if profile_truthy p then default "9am-5pm" (work_schedule p) else "9am-5pm" in
  let age := if profile_truthy p then default 30%Q (age p) else 30%Q in
  let avg_sleep_duration :=
    if profile_truthy p then default 8%Q (avg_sleep_duration p) else 8%Q in
  let avg_sleep_duration :=
    match an with
    | Some a =>
      match get_dict (duration_analysis a) with
      | Dict d => if negb (Py.eq (dur_average d) 0) then dur_average d else avg_sleep_duration
      | EmptyDict => avg_sleep_duration
      end
    | None => avg_sleep_duration
    end in
  (work_schedule, age, avg_sleep_duration).

(** [an] is the analysis dict, [None] standing for [{}]. *)
Definition _calculate_ideal_sleep_window (an : option analysis) (p : profile) : sleep_window :=
  let '(work_schedule, age, avg_sleep_duration) := window_inputs an p in
  let '(wake_hour, wake_minute) := wake_clock work_schedule age in
  let '(bed_hour, bed_minute) := bed_clock wake_hour wake_minute avg_sleep_duration in
  {| recommended_bedtime := strftime_HM bed_hour bed_minute;
     recommended_waketime := strftime_HM wake_hour wake_minute;
     target_duration_hours := Py.round_n 1 avg_sleep_duration;
     rationale := "Based on " +:+ work_schedule +:+ " schedule and "
                  +:+ py_str (JNum age) +:+ " years old" |}.

Definition _calculate_caffeine_cutoff (p : profile) : caffeine_cutoff :=
  if negb (profile_truthy p) then
    {| cutoff_time := "14:00";
       cutoff_recommendation := "Avoid caffeine after 2 PM for optimal sleep";
       current_intake := None |}
  else
    let caffeine_intake := default "none" (caffeine_intake p) in
    let '(work_schedule, age, avg_sleep_duration) := window_inputs None p in
    let '(wake_hour, wake_minute) := wake_clock work_schedule age in
    (* int(bedtime_str.split(':')[0]) *)
    let bedtime_hour := fst (bed_clock wake_hour wake_minute avg_sleep_duration) in
    let cutoff_hour := bedtime_hour - Config.CAFFEINE_CUTOFF_HOURS in
    let cutoff_hour := if cutoff_hour <? 0 then cutoff_hour + 24 else cutoff_hour in
    let cutoff_time := Py.two_digits (Z.to_nat cutoff_hour) +:+ ":00" in
    let recommendation :=
      if String.eqb caffeine_intake "none" then
        "Great job avoiding caffeine! Continue this habit."
      else if String.eqb caffeine_intake "low" then
        "Avoid caffeine after " +:+ cutoff_time +:+ " to improve sleep quality."
      else if String.eqb caffeine_intake "medium" then
        "Limit caffeine intake and avoid after " +:+ cutoff_time
        +:+ ". Consider reducing to 1-2 cups per day."
      else
        "Reduce caffeine intake significantly. Stop consuming caffeine after "
        +:+ cutoff_time +:+ "." in
    {| cutoff_time := cutoff_time;
       cutoff_recommendation := recommendation;
       current_intake := Some caffeine_intake |}.

Definition _generate_light_recommendations (p : profile) : list string :=
  let screen_time := if profile_truthy p then default 0%Q (screen_time p) else 0%Q in
  (if Py.lt Config.SCREEN_TIME_WARNING_HOURS screen_time then
     ["Reduce screen time before bed (currently " +:+ py_str (JNum screen_time)
      +:+ " hours). Use blue light filters or reading mode.";
      "Dim lights 1-2 hours before bedtime to signal your body for sleep."]
   else
     ["Maintain low light exposure before bed. Consider using dimmable lights."])
  ++ ["Get natural sunlight exposure in the morning to regulate circadian rhythm.";
      "Use blackout curtains or eye mask if your bedroom is not dark enough."].

Definition _generate_environment_recommendations (a : analysis) : list string :=
  let rate := match get_dict (interruption_analysis a) with
              | Dict i => interruption_rate i | EmptyDict => 0%Q end in
  (if Py.lt (3 # 10) rate then
     ["Keep bedroom temperature between 65-68°F (18-20°C) for optimal sleep.";
      "Use white noise machine or earplugs to block disruptive sounds.";
      "Ensure your mattress and pillows are comfortable and supportive.";
      "Remove electronic devices from bedroom or use airplane mode."]
   else
     ["Your sleep environment seems good. Maintain current conditions."])
  ++ ["Keep bedroom dark, quiet, and cool.";
      "Reserve bedroom only for sleep and intimacy (no work or screens)."].

Definition _generate_wind_down_routine (p : profile) (a : analysis) : list string :=
  let stress_level := if profile_truthy p then default 3%Q (stress_level p) else 3%Q in
  ["Start wind-down routine 1 hour before bedtime."]
  ++ (if Py.le 4 stress_level then
        ["Practice relaxation techniques: meditation, deep breathing, or progressive muscle relaxation.";
         "Try journaling to clear your mind before bed."]
      else
        ["Maintain a consistent pre-sleep routine (reading, light stretching, or calming music)."])
  ++ ["Take a warm bath or shower 1-2 hours before bed (body temperature drop promotes sleep).";
      "Avoid stimulating activities, work, or intense exercise close to bedtime."]
  ++ (let c := match get_dict (consistency_analysis a) with
               | Dict c => overall_consistency c | EmptyDict => 1%Q end in
      if Py.lt c (7 # 10) then
        ["Establish a fixed bedtime routine to signal your body it's time to sleep."]
      else []).

(** [any(word in issue.lower() for issue in issues)]. *)
Definition any_mentions (word : string) (issues : list string) : bool :=
  existsb (λ issue, Py.contains word (Py.lower issue)) issues.

Definition _generate_weekly_plan (a : analysis) (p : profile) : weekly_plan :=
  let ideal_window := _calculate_ideal_sleep_window (Some a) p in
  let issues := issues a in
  let tasks :=
    (if any_mentions "duration" issues
     then ["Gradually adjust sleep duration to reach 7-9 hours"] else [])
    ++ (if any_mentions "consistent" issues
        then ["Maintain same bedtime and wake time every day, including weekends"] else [])
    ++ (if any_mentions "caffeine" issues
        then ["Reduce caffeine intake and observe sleep quality improvements"] else [])
    ++ (if any_mentions "screen" issues
        then ["Reduce screen time 2 hours before bed"] else []) in
  {| week_goal := "Establish consistent sleep schedule";
     daily_bedtime := recommended_bedtime ideal_window;
     daily_waketime := recommended_waketime ideal_window;
     weekly_tasks :=
       match tasks with
       | [] => ["Maintain current sleep habits and track improvements"]
       | _ => tasks
       end |}.

Definition _generate_personalized_tips (a : analysis) (p : profile) (trends : gmap string Q)
  : list string :=
  (* Tips from analysis issues: issues[:3] *)
  let tips := take 3 (issues a) in
  (* Tips from profile *)
  let tips :=
    if profile_truthy p then
      let exercise := default "rarely" (exercise p) in
      if String.eqb exercise "rarely" then
        tips ++ ["Incorporate regular exercise into your routine (3-4 times per week) for better sleep."]
      else if String.eqb exercise "daily" then
        tips ++ ["Great job with daily exercise! Avoid intense workouts within 3 hours of bedtime."]
      else tips
    else tips in
  (* Tips from trends *)
  let tips :=
    if Py.dict_truthy trends then
      let avg_duration := Py.get_num trends "avg_duration" in
      if negb (Py.eq avg_duration 0) && Py.lt avg_duration Config.OPTIMAL_SLEEP_DURATION_MIN then
        tips ++ ["Your average sleep duration is " +:+ format_f 1 avg_duration
                 +:+ " hours. Gradually increase to 7-9 hours for optimal rest."]
      else tips
    else tips in
  (* General tips if not enough *)
  let tips :=
    if (length tips <? 3)%nat then
      tips ++ ["Maintain a consistent sleep schedule, even on weekends.";
               "Create a relaxing bedtime routine to signal your body for sleep.";
               "Avoid large meals and alcohol close to bedtime."]
    else tips in
  take 6 tips.

Definition generate_recommendations (a : analysis) (p : profile) (trends : gmap string Q)
  : recommendations :=
  {| ideal_sleep_window := _calculate_ideal_sleep_window (Some a) p;
     rec_caffeine_cutoff := _calculate_caffeine_cutoff p;
     light_exposure_management := _generate_light_recommendations p;
     bedroom_environment := _generate_environment_recommendations a;
     wind_down_routine := _generate_wind_down_routine p a;
     weekly_sleep_plan := _generate_weekly_plan a p;
     personalized_tips := _generate_personalized_tips a p trends |}.

End with_platform.
End SleepRecommender.

(* ===================================================================== *)
(** * memory/storage.py: the document store *)
(* ===================================================================== *)

(** The STM document: keys sessions, last_updated, count. *)
Record stm_data := {
  doc_sessions : list session;
  doc_last_updated : Z;
  doc_count : nat
}.

(** The LTM document: keys trends, patterns, preferences, recommendations,
    sleep_score, confidence, personalized_tips, issues, last_updated,
    total_sessions_analyzed; each may be absent. *)
Record ltm_data := {
  lt_trends : option (gmap string Q);
  lt_patterns : option (list pattern);
  lt_preferences : option (gmap string json);
  lt_recommendations : option (pydict recommendations);
  lt_sleep_score : option Z;
  lt_confidence : option Q;
  lt_personalized_tips : option (list string);
  lt_issues : option (list string);
  lt_last_updated : option Z;
  lt_total_sessions_analyzed : option nat
}.

(** [{}] as an LTM document. *)
Definition empty_ltm : ltm_data :=
  {| lt_trends := None; lt_patterns := None; lt_preferences := None;
     lt_recommendations := None; lt_sleep_score := None; lt_confidence := None;
     lt_personalized_tips := None; lt_issues := None; lt_last_updated := None;
     lt_total_sessions_analyzed := None |}.

(** [bool(ltm_data)]: the dict has at least one key. *)
Definition ltm_truthy (d : ltm_data) : bool :=
  Py.present (lt_trends d) || Py.present (lt_patterns d) || Py.present (lt_preferences d)
  || Py.present (lt_recommendations d) || Py.present (lt_sleep_score d)
  || Py.present (lt_confidence d) || Py.present (lt_personalized_tips d)
  || Py.present (lt_issues d) || Py.present (lt_last_updated d)
  || Py.present (lt_total_sessions_analyzed d).

(** The calls the pipeline makes on its two memories, in order; a ghost
    trace that lets a statement say which memory operations ran. *)
Inductive memory_call :=
| stm_get_sessions (user_id : string)
| stm_save_sessions (user_id : string) (sessions : list session)
| ltm_get_memory (user_id : string)
| ltm_update_trends (user_id : string) (sessions : list session)
| ltm_update_recommendations (user_id : string) (recs : pydict recommendations)
    (score : Z) (conf : Q) (tips : list string) (issues : option (list string)).

(** The store, keyed by [(user_id, memory_type)]: one map per memory type.
    An upsert replaces the document and succeeds (a reachable store that
    answers); [calls] is the trace. *)
Record world := {
  stm_docs : gmap string stm_data;
  ltm_docs : gmap string ltm_data;
  calls : list memory_call
}.

Definition empty_world : world :=
  {| stm_docs := ∅; ltm_docs := ∅; calls := [] |}.

Definition record_call (c : memory_call) (w : world) : world :=
  {| stm_docs := stm_docs w; ltm_docs := ltm_docs w; calls := calls w ++ [c] |}.

(** [storage.save_memory(user_id, 'stm', data)] and
    [storage.save_memory(user_id, 'ltm', data)]. *)
Definition save_stm (u : string) (d : stm_data) (w : world) : world :=
  {| stm_docs := <[u := d]> (stm_docs w); ltm_docs := ltm_docs w; calls := calls w |}.
Definition save_ltm (u : string) (d : ltm_data) (w : world) : world :=
  {| stm_docs := stm_docs w; ltm_docs := <[u := d]> (ltm_docs w); calls := calls w |}.

(* ===================================================================== *)
(** * memory/stm.py *)
(* ===================================================================== *)

(** A Python dict as the insertion-ordered list of its items:
    [d[k] = v] overwrites in place or appends. *)
Fixpoint dict_set {A} (k : string) (v : A) (d : list (string * A)) : list (string * A) :=
  match d with
  | [] => [(k, v)]
  | (k', v') :: d' =>
      if String.eqb k' k then (k, v) :: d' else (k', v') :: dict_set k v d'
  end.

Definition dict_values {A} (d : list (string * A)) : list A := map snd d.

(** [datetime.max], and [now - timedelta(days=n)], which raises
    [OverflowError] outside the representable range. *)
Definition DATETIME_MAX_US : Z := 315537897599999999.
Definition minus_days (now : Z) (days : Z) : option Z :=
  let r := now - days * 86400000000 in
  if (0 <=? r) && (r <=? DATETIME_MAX_US) then Some r else None.

(** [a < b] on datetimes: [TypeError] between a naive and an aware one. *)
Definition datetime_lt (a b : datetime) : option bool :=
  match a, b with
  | Naive x, Naive y => Some (x <? y)
  | Aware x, Aware y => Some (x <? y)
  | _, _ => None
  end.

Module ShortTermMemory.
Section with_platform.
Context `{Platform}.

Definition retention_days : Z := STM_RETENTION_DAYS.

Definition get_sessions (user_id : string) (w : world) : list session * world :=
  let w := record_call (stm_get_sessions user_id) w in
  (match stm_docs w !! user_id with
   | Some stm_data => doc_sessions stm_data
   | None => []
   end, w).

(** [f"{x}"] of a JSON value: a string prints as itself. *)
Definition fstr (j : json) : string :=
  match j with JStr s => s | _ => py_str j end.

Definition _generate_session_id (s : session) : string :=
  let bedtime := default "" (bedtime s) in
  let waketime := default "" (waketime s) in
  let session_date :=
    match session_date s with
    | None => ""
    | Some (DateJson j) => fstr j
    | Some (DateObj d) => str_datetime d
    end in
  session_date +:+ "_" +:+ bedtime +:+ "_" +:+ waketime.

(** [session.get('session_id') or self._generate_session_id(session)]. *)
Definition session_key (s : session) : string :=
  match session_id s with
  | Some id => if negb (String.eqb id "") then id else _generate_session_id s
  | None => _generate_session_id s
  end.

Definition _parse_session_date (s : session) : option datetime :=
  match session_date s with
  | None => None
  | Some (DateObj d) => Some d
  | Some (DateJson j) =>
    if negb (Py.truthy j) then None else
    match j with
    | JStr session_date =>
      match fromisoformat (Py.replace_char "Z" "+00:00" session_date) with
      | Some d => Some d
      | None =>
        match strptime_ymd session_date with
        | Some us => Some (Naive us)
        | None => None
        end
      end
    | _ => None
    end
  end.

(** The merge loop: [session_map[session_id] = session] for each session. *)
Definition merge_sessions (session_map : list (string * session)) (sessions : list session)
  : list (string * session) :=
  fold_left (λ m s, dict_set (session_key s) s m) sessions session_map.

(** The retention loop; [None] when a date comparison raises. *)
Fixpoint filter_retention (cutoff_date : Z) (sessions : list session)
  : option (list session) :=
  match sessions with
  | [] => Some []
  | s :: rest =>
    match _parse_session_date s with
    | None => filter_retention cutoff_date rest
    | Some (Naive d) =>
      filtered ← filter_retention cutoff_date rest;
      Some (if cutoff_date <=? d then s :: filtered else filtered)
    | Some (Aware _) => None
    end
  end.

(** [key=lambda s: self._parse_session_date(s) or datetime.min]. *)
Definition sort_key (s : session) : datetime :=
  default (Naive 0) (_parse_session_date s).

(** [list.sort(key=sort_key, reverse=True)]: a stable sort, newest first,
    as an insertion sort that compares with [<] only. *)
Fixpoint insert_newest_first (s : session) (sorted : list session)
  : option (list session) :=
  match sorted with
  | [] => Some [s]
  | t :: rest =>
    older ← datetime_lt (sort_key s) (sort_key t);
    if older : bool then
      rest' ← insert_newest_first s rest; Some (t :: rest')
    else Some (s :: t :: rest)
  end.

Fixpoint sort_newest_first (sessions : list session) : option (list session) :=
  match sessions with
  | [] => Some []
  | s :: rest =>
    sorted ← sort_newest_first rest;
    insert_newest_first s sorted
  end.

(** The body of [save_sessions] up to the document it stores; [None] when
    an exception reaches the [except] clause. *)
Definition build_stm_data (now : Z) (existing sessions : list session)
  : option stm_data :=
  let session_map := merge_sessions (merge_sessions [] existing) sessions in
  cutoff_date ← minus_days now retention_days;
  filtered_sessions ← filter_retention cutoff_date (dict_values session_map);
  filtered_sessions ← sort_newest_first filtered_sessions;
  Some {| doc_sessions := filtered_sessions;
          doc_last_updated := now;
          doc_count := length filtered_sessions |}.

Definition save_sessions (now : Z) (user_id : string) (sessions : list session) (w : world)
  : bool * world :=
  let w := record_call (stm_save_sessions user_id sessions) w in
  let '(existing, w) := get_sessions user_id w in
  match build_stm_data now existing sessions with
  | Some stm_data => (true, save_stm user_id stm_data w)
  | None => (false, w)
  end.

(** [None] is an exception that reaches the caller: the method has no
    [try] of its own. *)
Definition get_recent_sessions (now : Z) (user_id : string) (days : Z) (w : world)
  : option (list session) * world :=
  let '(sessions, w) := get_sessions user_id w in
  (cutoff_date ← minus_days now days; filter_retention cutoff_date sessions, w).

Definition clear_old_sessions (now : Z) (user_id : string) (w : world) : bool * world :=
  save_sessions now user_id [] w.

End with_platform.
End ShortTermMemory.

(* ===================================================================== *)
(** * memory/ltm.py *)
(* ===================================================================== *)

(** [Counter(l).most_common(1)[0][0]]: the most frequent element, the
    first-encountered one among equals. *)
Fixpoint first_seen (l : list string) : list string :=
  match l with
  | [] => []
  | x :: l' => x :: List.filter (λ y, negb (String.eqb y x)) (first_seen l')
  end.
Definition occurrences (x : string) (l : list string) : nat :=
  length (List.filter (String.eqb x) l).
Definition most_common (l : list string) : option string :=
  fold_left (λ best x,
               match best with
               | None => Some x
               | Some b => if (occurrences b l <? occurrences x l)%nat then Some x else Some b
               end) (first_seen l) None.

Module LongTermMemory.

Definition get_memory (user_id : string) (w : world) : option ltm_data * world :=
  let w := record_call (ltm_get_memory user_id) w in
  (ltm_docs w !! user_id, w).

Definition _calculate_trends (sessions : list session) : gmap string Q :=
  match sessions with
  | [] => ∅
  | _ =>
    let durations := truthy_nums duration_hours sessions in
    let efficiency_scores := truthy_nums efficiency_score sessions in
    let morning_moods := truthy_nums morning_mood sessions in
    let trends : gmap string Q := ∅ in
    let trends :=
      match durations with
      | [] => trends
      | _ =>
        <["duration_consistency" :=
            if Py.lt 0 (Py.max durations)
            then (1 - (Py.max durations - Py.min durations) / Py.max durations)%Q
            else 0%Q]>
        (<["max_duration" := Py.max durations]>
        (<["min_duration" := Py.min durations]>
        (<["avg_duration" := (Py.sum durations / Py.len durations)%Q]> trends)))
      end in
    let trends :=
      match efficiency_scores with
      | [] => trends
      | _ =>
        <["max_efficiency" := Py.max efficiency_scores]>
        (<["min_efficiency" := Py.min efficiency_scores]>
        (<["avg_efficiency" :=
            (Py.sum efficiency_scores / Py.len efficiency_scores)%Q]> trends))
      end in
    let trends :=
      match morning_moods with
      | [] => trends
      | _ => <["avg_morning_mood" := (Py.sum morning_moods / Py.len morning_moods)%Q]> trends
      end in
    (* Calculate weekly averages *)
    if (7 <=? length sessions)%nat then
      let recent_7 := take 7 sessions in
      let durations_7 := truthy_nums duration_hours recent_7 in
      match durations_7 with
      | [] => trends
      | _ => <["weekly_avg_duration" := (Py.sum durations_7 / Py.len durations_7)%Q]> trends
      end
    else trends
  end.

Definition _identify_patterns (sessions : list session) : list pattern :=
  if (length sessions <? 3)%nat then [] else
  let bedtimes := truthy_strs bedtime sessions in
  (match bedtimes with
   | [] => []
   | _ =>
     if (Py.len_set bedtimes <=? 2)%nat then
       [{| pattern_type := "consistent_bedtime";
           pattern_description := "Maintains consistent bedtime";
           pattern_confidence := 8 # 10 |}]
     else []
   end)
  ++ (if (7 <=? length sessions)%nat then
        [{| pattern_type := "sufficient_data";
            pattern_description := "Has sufficient data for pattern analysis";
            pattern_confidence := 7 # 10 |}]
      else []).

Definition _extract_preferences (sessions : list session) (existing : gmap string json)
  : gmap string json :=
  let preferences := existing in
  (* Extract preferred sleep duration *)
  let durations := truthy_nums duration_hours sessions in
  let preferences :=
    match durations with
    | [] => preferences
    | _ =>
      let avg_duration := (Py.sum durations / Py.len durations)%Q in
      <["preferred_duration" := JNum (Py.round_n 1 avg_duration)]> preferences
    end in
  (* Extract preferred bedtime range *)
  let bedtimes := truthy_strs bedtime sessions in
  match most_common bedtimes with
  | Some b => <["preferred_bedtime" := JStr b]> preferences
  | None => preferences
  end.

Definition update_trends (now : Z) (user_id : string) (sessions : list session) (w : world)
  : bool * world :=
  let w := record_call (ltm_update_trends user_id sessions) w in
  let '(found, w) := get_memory user_id w in
  let existing_ltm := default empty_ltm found in
  (* Calculate trends *)
  let trends := _calculate_trends sessions in
  (* existing_trends.update(trends): the new values win *)
  let existing_trends := trends ∪ default ∅ (lt_trends existing_ltm) in
  let patterns := _identify_patterns sessions in
  let preferences :=
    _extract_preferences sessions (default ∅ (lt_preferences existing_ltm)) in
  let ltm_data :=
    {| lt_trends := Some existing_trends;
       lt_patterns := Some patterns;
       lt_preferences := Some preferences;
       lt_recommendations := lt_recommendations existing_ltm;
       lt_sleep_score := lt_sleep_score existing_ltm;
       lt_confidence := lt_confidence existing_ltm;
       lt_personalized_tips := lt_personalized_tips existing_ltm;
       lt_issues := lt_issues existing_ltm;
       lt_last_updated := Some now;
       lt_total_sessions_analyzed :=
         Some (default 0%nat (lt_total_sessions_analyzed existing_ltm) + length sessions)%nat |} in
  (true, save_ltm user_id ltm_data w).

Definition update_recommendations (now : Z) (user_id : string)
    (recs : pydict recommendations) (sleep_score : Z) (confidence : Q)
    (personalized_tips : list string) (issues : option (list string)) (w : world)
  : bool * world :=
  let w := record_call (ltm_update_recommendations user_id recs sleep_score confidence
                          personalized_tips issues) w in
  let '(found, w) := get_memory user_id w in
  let existing_ltm := default empty_ltm found in
  let trends := default ∅ (lt_trends existing_ltm) in
  let trends := <["confidence" := confidence]>
                (<["avg_sleep_score" := inject_Z sleep_score]> trends) in
  let ltm_data :=
    {| lt_trends := Some trends;
       lt_patterns := lt_patterns existing_ltm;
       lt_preferences := lt_preferences existing_ltm;
       lt_recommendations := Some recs;
       lt_sleep_score := Some sleep_score;
       lt_confidence := Some confidence;
       lt_personalized_tips := Some personalized_tips;
       lt_issues := match issues with Some l => Some l | None => lt_issues existing_ltm end;
       lt_last_updated := Some now;
       lt_total_sessions_analyzed := lt_total_sessions_analyzed existing_ltm |} in
  (true, save_ltm user_id ltm_data w).

Definition get_trends (user_id : string) (w : world) : gmap string Q * world :=
  let '(found, w) := get_memory user_id w in
  (default ∅ (lt_trends (default empty_ltm found)), w).

Definition get_patterns (user_id : string) (w : world) : list pattern * world :=
  let '(found, w) := get_memory user_id w in
  (default [] (lt_patterns (default empty_ltm found)), w).

Definition get_preferences (user_id : string) (w : world) : gmap string json * world :=
  let '(found, w) := get_memory user_id w in
  (default ∅ (lt_preferences (default empty_ltm found)), w).

End LongTermMemory.

(* ===================================================================== *)
(** * utils/validators.py *)
(* ===================================================================== *)

(** The ['payload'] dict of a task. *)
Record payload := {
  sleep_sessions : option (list session);
  payload_profile : option profile
}.

(** A task request as received: each top-level key may be absent. *)
Record task_request := {
  req_task_id : option string;
  req_user_id : option string;
  req_payload : option payload
}.

Module Validators.
Section with_platform.
Context `{Platform}.

(** The per-session loop of [validate_task_request]; [None] is "no error". *)
Fixpoint validate_task_sessions (i : nat) (sessions : list session) : option string :=
  match sessions with
  | [] => None
  | s :: rest =>
    let at_i := "sleep_sessions[" +:+ Py.str_int (Z.of_nat i) +:+ "]" in
    match bedtime s, waketime s, duration_hours s with
    | None, _, _ => Some (at_i +:+ " missing required field: bedtime")
    | _, None, _ => Some (at_i +:+ " missing required field: waketime")
    | _, _, None => Some (at_i +:+ " missing required field: duration_hours")
    | Some _, Some _, Some duration =>
      if Py.lt duration Config.MIN_SLEEP_DURATION
         || Py.lt Config.MAX_SLEEP_DURATION duration then
        Some (at_i +:+ " has invalid duration: " +:+ py_str (JNum duration))
      else validate_task_sessions (S i) rest
    end
  end.

(** Returns the error message, [None] for [(True, None)]. *)
Definition validate_task_request (data : task_request) : option string :=
  match req_task_id data, req_user_id data, req_payload data with
  | None, _, _ => Some "Missing required field: task_id"
  | _, None, _ => Some "Missing required field: user_id"
  | _, _, None => Some "Missing required field: payload"
  | Some task_id, Some user_id, Some payload =>
    if Py.all_space task_id then Some "task_id must be a non-empty string"
    else if Py.all_space user_id then Some "user_id must be a non-empty string"
    else
      match sleep_sessions payload with
      | None => None
      | Some sessions =>
        if MAX_SLEEP_SESSIONS_PER_TASK <? Z.of_nat (length sessions) then
          Some ("Too many sleep sessions (max: "
                +:+ Py.str_int MAX_SLEEP_SESSIONS_PER_TASK +:+ ")")
        else validate_task_sessions 0 sessions
      end
  end.

Definition validate_sleep_session (s : session) : option string :=
  match bedtime s, waketime s, duration_hours s with
  | None, _, _ => Some "Missing required field: bedtime"
  | _, None, _ => Some "Missing required field: waketime"
  | _, _, None => Some "Missing required field: duration_hours"
  | Some _, Some _, Some duration =>
    if Py.lt duration Config.MIN_SLEEP_DURATION
       || Py.lt Config.MAX_SLEEP_DURATION duration then
      Some ("Invalid sleep duration: " +:+ py_str (JNum duration) +:+ " hours")
    else
      match efficiency_score s with
      | Some score =>
        if Py.lt score 0 || Py.lt 100 score then
          Some "efficiency_score must be between 0 and 100"
        else
          match morning_mood s with
          | Some mood =>
            if (Py.int mood <? 1) || (10 <? Py.int mood) then
              Some "morning_mood must be between 1 and 10"
            else None
          | None => None
          end
      | None =>
        match morning_mood s with
        | Some mood =>
          if (Py.int mood <? 1) || (10 <? Py.int mood) then
            Some "morning_mood must be between 1 and 10"
          else None
        | None => None
        end
      end
  end.

(** The profile is a dict whose ['age'] and ['stress_level'], when present,
    are numbers, so [int()] does not raise. *)
Definition validate_user_profile (p : profile) : option string :=
  let age_error :=
    match age p with
    | Some a =>
      if (Py.int a <? 1) || (120 <? Py.int a) then Some "age must be between 1 and 120"
      else None
    | None => None
    end in
  match age_error with
  | Some e => Some e
  | None =>
    match stress_level p with
    | Some x =>
      if (Py.int x <? 1) || (5 <? Py.int x) then Some "stress_level must be between 1 and 5"
      else None
    | None => None
    end
  end.

End with_platform.
End Validators.

(* ===================================================================== *)
(** * agent/state.py *)
(* ===================================================================== *)

(** The ['memory'] summary the fetch stage leaves in the state. *)
Record memory_info := {
  stm_count : nat;
  payload_count : nat;
  ltm_available : bool;
  mem_ltm_trends : gmap string Q;
  mem_ltm_patterns : list pattern;
  mem_ltm_preferences : gmap string json;
  mem_total_sessions : nat
}.

(** The ['result'] dict of a completed task. *)
Record task_output := {
  out_summary : string;
  out_issues : list string;
  out_recommendations : option (pydict recommendations);
  out_sleep_score : Z;
  out_confidence : Q;
  out_personalized_tips : list string
}.

(** [AgentState]; an [option] field is one the state may hold [None] in. *)
Record AgentState := {
  st_task_id : string;
  st_user_id : string;
  st_payload : payload;
  st_memory : option memory_info;
  st_stm_sessions : option (list session);
  st_ltm_data : option ltm_data;
  st_analysis : option analysis;
  st_sleep_score : Z;
  st_confidence : Q;
  st_recommendations : option (pydict recommendations);
  st_personalized_tips : list string;
  st_result : option task_output;
  st_summary : string;
  st_issues : list string;
  st_errors : list string;
  st_status : string
}.

(** What [process_task] returns: keys task_id, status, and error or
    result. *)
Record task_result := {
  res_task_id : string;
  res_status : string;
  res_error : option string;
  res_result : option task_output
}.

(** Field updates of the state ([state[k] = v]). *)
Definition set_errors (v : list string) (s : AgentState) : AgentState :=
  {| st_task_id := st_task_id s; st_user_id := st_user_id s; st_payload := st_payload s;
     st_memory := st_memory s; st_stm_sessions := st_stm_sessions s;
     st_ltm_data := st_ltm_data s; st_analysis := st_analysis s;
     st_sleep_score := st_sleep_score s; st_confidence := st_confidence s;
     st_recommendations := st_recommendations s;
     st_personalized_tips := st_personalized_tips s; st_result := st_result s;
     st_summary := st_summary s; st_issues := st_issues s;
     st_errors := v; st_status := st_status s |}.
Definition set_status (v : string) (s : AgentState) : AgentState :=
  {| st_task_id := st_task_id s; st_user_id := st_user_id s; st_payload := st_payload s;
     st_memory := st_memory s; st_stm_sessions := st_stm_sessions s;
     st_ltm_data := st_ltm_data s; st_analysis := st_analysis s;
     st_sleep_score := st_sleep_score s; st_confidence := st_confidence s;
     st_recommendations := st_recommendations s;
     st_personalized_tips := st_personalized_tips s; st_result := st_result s;
     st_summary := st_summary s; st_issues := st_issues s;
     st_errors := st_errors s; st_status := v |}.
Definition set_fetched (stm : list session) (ltm : ltm_data) (m : memory_info)
    (s : AgentState) : AgentState :=
  {| st_task_id := st_task_id s; st_user_id := st_user_id s; st_payload := st_payload s;
     st_memory := Some m; st_stm_sessions := Some stm;
     st_ltm_data := Some ltm; st_analysis := st_analysis s;
     st_sleep_score := st_sleep_score s; st_confidence := st_confidence s;
     st_recommendations := st_recommendations s;
     st_personalized_tips := st_personalized_tips s; st_result := st_result s;
     st_summary := st_summary s; st_issues := st_issues s;
     st_errors := st_errors s; st_status := st_status s |}.
Definition set_analysis (v : analysis) (s : AgentState) : AgentState :=
  {| st_task_id := st_task_id s; st_user_id := st_user_id s; st_payload := st_payload s;
     st_memory := st_memory s; st_stm_sessions := st_stm_sessions s;
     st_ltm_data := st_ltm_data s; st_analysis := Some v;
     st_sleep_score := st_sleep_score s; st_confidence := st_confidence s;
     st_recommendations := st_recommendations s;
     st_personalized_tips := st_personalized_tips s; st_result := st_result s;
     st_summary := st_summary s; st_issues := st_issues s;
     st_errors := st_errors s; st_status := st_status s |}.
Definition set_formatted (issues : list string) (summary : string) (r : task_output)
    (s : AgentState) : AgentState :=
  {| st_task_id := st_task_id s; st_user_id := st_user_id s; st_payload := st_payload s;
     st_memory := st_memory s; st_stm_sessions := st_stm_sessions s;
     st_ltm_data := st_ltm_data s; st_analysis := st_analysis s;
     st_sleep_score := st_sleep_score s; st_confidence := st_confidence s;
     st_recommendations := st_recommendations s;
     st_personalized_tips := st_personalized_tips s; st_result := Some r;
     st_summary := summary; st_issues := issues;
     st_errors := st_errors s; st_status := "completed" |}.

(** [state['errors'].append(msg)]. *)
Definition add_error (msg : string) (s : AgentState) : AgentState :=
  set_errors (st_errors s ++ [msg]) s.

(** The partial states the two parallel nodes return, and their merge into
    the shared state. *)
Record recommendation_patch := {
  patch_recommendations : option (pydict recommendations);
  patch_personalized_tips : list string
}.
Record score_patch := {
  patch_sleep_score : Z;
  patch_confidence : Q
}.
Definition merge_patches (r : recommendation_patch) (c : score_patch) (s : AgentState)
  : AgentState :=
  {| st_task_id := st_task_id s; st_user_id := st_user_id s; st_payload := st_payload s;
     st_memory := st_memory s; st_stm_sessions := st_stm_sessions s;
     st_ltm_data := st_ltm_data s; st_analysis := st_analysis s;
     st_sleep_score := patch_sleep_score c; st_confidence := patch_confidence c;
     st_recommendations := patch_recommendations r;
     st_personalized_tips := patch_personalized_tips r; st_result := st_result s;
     st_summary := st_summary s; st_issues := st_issues s;
     st_errors := st_errors s; st_status := st_status s |}.

(* ===================================================================== *)
(** * agent/nodes.py *)
(* ===================================================================== *)

(** Messages of the two exceptions the typed state can still raise. *)
Definition NONE_PLUS_LIST : string :=
  "unsupported operand type(s) for +: 'NoneType' and 'list'".
Definition NONE_HAS_NO_GET : string :=
  "'NoneType' object has no attribute 'get'".

Module Nodes.
Section with_platform.
Context `{Platform}.

(** [state['payload'].get('sleep_sessions', [])] and
    [state['payload'].get('profile', {})]. *)
Definition payload_sessions (s : AgentState) : list session :=
  default [] (sleep_sessions (st_payload s)).
Definition payload_profile_of (s : AgentState) : profile :=
  default empty_profile (payload_profile (st_payload s)).

(** The session loop of [validation_node]. *)
Fixpoint session_errors (i : nat) (sessions : list session) : list string :=
  match sessions with
  | [] => []
  | s :: rest =>
    match Validators.validate_sleep_session s with
    | Some error_msg =>
      ("Session " +:+ Py.str_int (Z.of_nat i) +:+ " validation error: " +:+ error_msg)
      :: session_errors (S i) rest
    | None => session_errors (S i) rest
    end
  end.

Definition validation_node (state : AgentState) : AgentState :=
  let task_data := {| req_task_id := Some (st_task_id state);
                      req_user_id := Some (st_user_id state);
                      req_payload := Some (st_payload state) |} in
  match Validators.validate_task_request task_data with
  | Some error_msg =>
    set_status "error" (add_error ("Validation error: " +:+ error_msg) state)
  | None =>
    let sessions := payload_sessions state in
    let state := set_errors (st_errors state ++ session_errors 0 sessions) state in
    match st_errors state with
    | [] => set_status "processing" state
    | _ => set_status "error" state
    end
  end.

(** [ltm_data.get(k, default) if ltm_data else default] on the state's
    LTM document. *)
Definition state_ltm_trends (s : AgentState) : gmap string Q :=
  default ∅ (lt_trends (default empty_ltm (st_ltm_data s))).
Definition state_ltm_patterns (s : AgentState) : list pattern :=
  default [] (lt_patterns (default empty_ltm (st_ltm_data s))).
Definition state_ltm_preferences (s : AgentState) : gmap string json :=
  default ∅ (lt_preferences (default empty_ltm (st_ltm_data s))).

Definition memory_fetch_node (state : AgentState) (w : world) : AgentState * world :=
  let user_id := st_user_id state in
  let '(stm_sessions, w) := ShortTermMemory.get_sessions user_id w in
  let '(ltm_found, w) := LongTermMemory.get_memory user_id w in
  let ltm_data := default empty_ltm ltm_found in
  let payload_sessions := payload_sessions state in
  let all_sessions := stm_sessions ++ payload_sessions in
  let memory :=
    {| stm_count := length stm_sessions;
       payload_count := length payload_sessions;
       ltm_available := match ltm_found with Some d => ltm_truthy d | None => false end;
       mem_ltm_trends := default ∅ (lt_trends ltm_data);
       mem_ltm_patterns := default [] (lt_patterns ltm_data);
       mem_ltm_preferences := default ∅ (lt_preferences ltm_data);
       mem_total_sessions := length all_sessions |} in
  (set_fetched stm_sessions ltm_data memory state, w).

(** The keys [reasoning_node] adds to the analysis from the LTM document. *)
Definition enhance_analysis (a : analysis) (ltm_trends : gmap string Q)
    (ltm_patterns : list pattern) : analysis :=
  {| duration_analysis := duration_analysis a;
     consistency_analysis := consistency_analysis a;
     efficiency_analysis := efficiency_analysis a;
     interruption_analysis := interruption_analysis a;
     caffeine_analysis := caffeine_analysis a;
     screen_time_analysis := screen_time_analysis a;
     exercise_analysis := exercise_analysis a;
     issues := issues a;
     summary := summary a;
     dur_ltm_average :=
       if Py.dict_truthy ltm_trends then ltm_trends !! "avg_duration" else None;
     eff_ltm_average :=
       if Py.dict_truthy ltm_trends then ltm_trends !! "avg_efficiency" else None;
     ltm_patterns := match ltm_patterns with [] => None | _ => Some ltm_patterns end |}.

(** [Config.USE_GEMINI] is off (its default): the optional LLM call, whose
    only effect is one more analysis key that nothing reads, is left out. *)
Definition reasoning_node (state : AgentState) : AgentState :=
  match st_stm_sessions state with
  | None => add_error ("Reasoning node error: " +:+ NONE_PLUS_LIST) state
  | Some stm_sessions =>
    let all_sessions := stm_sessions ++ payload_sessions state in
    let profile := payload_profile_of state in
    let analysis := SleepAnalyzer.analyze all_sessions profile in
    set_analysis (enhance_analysis analysis (state_ltm_trends state)
                    (state_ltm_patterns state)) state
  end.

(** [profile.copy()] with the two stored preferences added. *)
Definition enhance_profile (p : profile) (preferences : gmap string json) : profile :=
  if Py.dict_truthy preferences then
    {| age := age p; work_schedule := work_schedule p;
       caffeine_intake := caffeine_intake p;
       caffeine_after_8pm := caffeine_after_8pm p; screen_time := screen_time p;
       exercise := exercise p; stress_level := stress_level p;
       avg_sleep_duration := avg_sleep_duration p;
       preferred_duration :=
         match preferences !! "preferred_duration" with
         | Some v => Some v | None => preferred_duration p end;
       preferred_bedtime :=
         match preferences !! "preferred_bedtime" with
         | Some v => Some v | None => preferred_bedtime p end;
       profile_extra := profile_extra p |}
  else p.

(** The tips [recommendation_engine_node] derives from stored patterns. *)
Definition pattern_recommendations (patterns : list pattern) : list string :=
  flat_map (λ pattern,
              if String.eqb (pattern_type pattern) "consistent_bedtime" then
                ["Maintain your consistent bedtime routine"]
              else if String.eqb (pattern_type pattern) "sufficient_data" then
                ["Continue tracking for better insights"]
              else []) patterns.

Definition with_tips (r : recommendations) (tips : list string) : recommendations :=
  {| ideal_sleep_window := ideal_sleep_window r;
     rec_caffeine_cutoff := rec_caffeine_cutoff r;
     light_exposure_management := light_exposure_management r;
     bedroom_environment := bedroom_environment r;
     wind_down_routine := wind_down_routine r;
     weekly_sleep_plan := weekly_sleep_plan r;
     personalized_tips := tips |}.

Definition recommendation_engine_node (state : AgentState) : recommendation_patch :=
  match st_analysis state with
  | None =>
    (* generate_recommendations raises on a None analysis *)
    {| patch_recommendations := Some EmptyDict; patch_personalized_tips := [] |}
  | Some analysis =>
    let profile := payload_profile_of state in
    let trends := state_ltm_trends state in
    let patterns := state_ltm_patterns state in
    let preferences := state_ltm_preferences state in
    let profile := enhance_profile profile preferences in
    let recommendations :=
      SleepRecommender.generate_recommendations analysis profile trends in
    let pattern_recommendations := pattern_recommendations patterns in
    let recommendations :=
      match pattern_recommendations with
      | [] => recommendations
      | _ => with_tips recommendations
               (personalized_tips recommendations ++ pattern_recommendations)
      end in
    {| patch_recommendations := Some (Dict recommendations);
       patch_personalized_tips := personalized_tips recommendations |}
  end.

Definition scorer_node (state : AgentState) : score_patch :=
  match st_stm_sessions state with
  | None => {| patch_sleep_score := 0; patch_confidence := 0 |}
  | Some stm_sessions =>
    let all_sessions := payload_sessions state ++ stm_sessions in
    let score_result := SleepScorer.calculate_score all_sessions (st_analysis state) in
    {| patch_sleep_score := sleep_score score_result;
       patch_confidence := confidence score_result |}
  end.

(** The test guarding the LTM recommendations write. *)
Definition has_data_to_save (recommendations : option (pydict recommendations))
    (sleep_score : Z) (confidence : Q) (personalized_tips issues : list string) : bool :=
  let has_recommendations := Py.present recommendations in
  let has_score := (0 <? sleep_score) || Py.lt 0 confidence in
  let has_tips := (0 <? length personalized_tips)%nat in
  let has_issues := (0 <? length issues)%nat in
  has_recommendations || has_score || has_tips || has_issues.

Definition memory_write_node (now : Z) (state : AgentState) (w : world)
  : AgentState * world :=
  let user_id := st_user_id state in
  let payload_sessions := payload_sessions state in
  (* Update STM with new sessions only *)
  let w := match payload_sessions with
           | [] => w
           | _ => snd (ShortTermMemory.save_sessions now user_id payload_sessions w)
           end in
  let recommendations := st_recommendations state in
  let sleep_score := st_sleep_score state in
  let confidence := st_confidence state in
  let personalized_tips := st_personalized_tips state in
  match st_stm_sessions state with
  | None => (add_error ("Memory write error: " +:+ NONE_PLUS_LIST) state, w)
  | Some existing_stm_sessions =>
    (* Update LTM with all available sessions (existing + new) *)
    let all_sessions := existing_stm_sessions ++ payload_sessions in
    let w := match all_sessions with
             | [] => w
             | _ => snd (LongTermMemory.update_trends now user_id all_sessions w)
             end in
    (* issues = state.get('issues', []) or analysis.get('issues', []) *)
    let issues :=
      match st_issues state with
      | _ :: _ => Some (st_issues state)
      | [] => match st_analysis state with
              | Some analysis => Some (issues analysis)
              | None => None
              end
      end in
    match issues with
    | None => (add_error ("Memory write error: " +:+ NONE_HAS_NO_GET) state, w)
    | Some issues =>
      if has_data_to_save recommendations sleep_score confidence personalized_tips issues
      then
        let recommendations := default EmptyDict recommendations in
        (state, snd (LongTermMemory.update_recommendations now user_id recommendations
                       sleep_score confidence personalized_tips (Some issues) w))
      else (state, w)
    end
  end.

Definition formatter_node (state : AgentState) : AgentState :=
  match st_analysis state with
  | None =>
    set_status "error" (add_error ("Formatter node error: " +:+ NONE_HAS_NO_GET) state)
  | Some analysis =>
    let issues := issues analysis in
    let summary := summary analysis in
    let result :=
      {| out_summary := summary;
         out_issues := issues;
         out_recommendations := st_recommendations state;
         out_sleep_score := st_sleep_score state;
         out_confidence := st_confidence state;
         out_personalized_tips := st_personalized_tips state |} in
    set_formatted issues summary result state
  end.

End with_platform.
End Nodes.

(* ===================================================================== *)
(** * agent/workflow.py *)
(* ===================================================================== *)

Module Workflow.
Section with_platform.
Context `{Platform}.

Definition _should_continue (state : AgentState) : string :=
  if String.eqb (st_status state) "error"
     || match st_errors state with [] => false | _ => true end
  then "error" else "continue".

(** [workflow.invoke]: the compiled graph of [create_workflow].
    validation, then END on "error"; otherwise memory_fetch, reasoning, the
    two parallel nodes on the same state with their results merged,
    memory_write and formatter. *)
Definition invoke (now : Z) (state : AgentState) (w : world) : AgentState * world :=
  let state := Nodes.validation_node state in
  if String.eqb (_should_continue state) "error" then (state, w)
  else
    let '(state, w) := Nodes.memory_fetch_node state w in
    let state := Nodes.reasoning_node state in
    let recommended := Nodes.recommendation_engine_node state in
    let scored := Nodes.scorer_node state in
    let state := merge_patches recommended scored state in
    let '(state, w) := Nodes.memory_write_node now state w in
    (Nodes.formatter_node state, w).

Definition initial_state (task_data : task_request) : AgentState :=
  {| st_task_id := default "" (req_task_id task_data);
     st_user_id := default "" (req_user_id task_data);
     st_payload := default {| sleep_sessions := None; payload_profile := None |}
                     (req_payload task_data);
     st_memory := None;
     st_stm_sessions := None;
     st_ltm_data := None;
     st_analysis := None;
     st_sleep_score := 0;
     st_confidence := 0;
     st_recommendations := None;
     st_personalized_tips := [];
     st_result := None;
     st_summary := "";
     st_issues := [];
     st_errors := [];
     st_status := "processing" |}.

Definition process_task (now : Z) (task_data : task_request) (w : world)
  : task_result * world :=
  let '(final_state, w) := invoke now (initial_state task_data) w in
  if String.eqb (st_status final_state) "error"
     || match st_errors final_state with [] => false | _ => true end
  then
    ({| res_task_id := st_task_id final_state;
        res_status := "error";
        res_error := Some (Py.join "; " (st_errors final_state));
        res_result := None |}, w)
  else
    ({| res_task_id := st_task_id final_state;
        res_status := "completed";
        res_result := st_result final_state;
        res_error := None |}, w).

End with_platform.
End Workflow.

(* ===================================================================== *)
(** * A reference platform *)
(* ===================================================================== *)

(** An executable instance of [Platform], used to run the model on concrete
    inputs.  It covers the common cases of the library functions: ISO dates
    of the forms [YYYY-MM-DD] and [YYYY-MM-DD(T| )HH:MM:SS] with an optional
    [+HH:MM] or [-HH:MM] offset, fixed-point formatting of exact rationals,
    and the default configuration. *)
Module Reference.

Definition digit (c : ascii) : option Z :=
  let n := nat_of_ascii c in
  if ((48 <=? n)%nat && (n <=? 57)%nat) then Some (Z.of_nat (n - 48)) else None.

(** Reads exactly [n] digits; the number and the rest of the string. *)
Fixpoint digits (n : nat) (acc : Z) (s : string) : option (Z * string) :=
  match n with
  | O => Some (acc, s)
  | S n' =>
    match s with
    | String c s' => d ← digit c; digits n' (acc * 10 + d) s'
    | EmptyString => None
    end
  end.

(** Reads one given character. *)
Definition expect (c : ascii) (s : string) : option string :=
  match s with
  | String a s' => if Ascii.eqb a c then Some s' else None
  | EmptyString => None
  end.

Definition is_leap (y : Z) : bool :=
  ((y `mod` 4 =? 0) && negb (y `mod` 100 =? 0)) || (y `mod` 400 =? 0).

Definition days_in_month (y m : Z) : Z :=
  if m =? 2 then (if is_leap y then 29 else 28)
  else if (m =? 4) || (m =? 6) || (m =? 9) || (m =? 11) then 30 else 31.

(** Days from 0001-01-01 to the given civil date. *)
Definition days_from_civil (y m d : Z) : Z :=
  let y' := if m <=? 2 then y - 1 else y in
  let era := y' `div` 400 in
  let yoe := y' - era * 400 in
  let doy := (153 * (if 2 <? m then m - 3 else m + 9) + 2) `div` 5 + d - 1 in
  let doe := yoe * 365 + yoe `div` 4 - yoe `div` 100 + doy in
  era * 146097 + doe - 719468 + 719162.

Definition parse_date (s : string) : option (Z * string) :=
  '(y, s) ← digits 4 0 s;
  s ← expect "-" s;
  '(m, s) ← digits 2 0 s;
  s ← expect "-" s;
  '(d, s) ← digits 2 0 s;
  if (1 <=? y) && (1 <=? m) && (m <=? 12) && (1 <=? d) && (d <=? days_in_month y m)
  then Some (days_from_civil y m d * 86400000000, s) else None.

Definition parse_clock (s : string) : option (Z * string) :=
  '(h, s) ← digits 2 0 s;
  s ← expect ":" s;
  '(m, s) ← digits 2 0 s;
  s ← expect ":" s;
  '(sec, s) ← digits 2 0 s;
  if (h <? 24) && (m <? 60) && (sec <? 60)
  then Some ((h * 3600 + m * 60 + sec) * 1000000, s) else None.

Definition parse_offset (s : string) : option Z :=
  match s with
  | String sign s' =>
    '(h, s') ← digits 2 0 s';
    s' ← expect ":" s';
    '(m, s') ← digits 2 0 s';
    match s' with
    | EmptyString =>
      let off := (h * 3600 + m * 60) * 1000000 in
      if Ascii.eqb sign "+" then Some off
      else if Ascii.eqb sign "-" then Some (- off)
      else None
    | _ => None
    end
  | EmptyString => None
  end.

Definition ref_fromisoformat (s : string) : option datetime :=
  '(date_us, s) ← parse_date s;
  match s with
  | EmptyString => Some (Naive date_us)
  | String sep s' =>
    if Ascii.eqb sep "T" || Ascii.eqb sep " " then
      '(clock_us, s') ← parse_clock s';
      match s' with
      | EmptyString => Some (Naive (date_us + clock_us))
      | _ => off ← parse_offset s'; Some (Aware (date_us + clock_us - off))
      end
    else None
  end.

Definition ref_strptime_ymd (s : string) : option Z :=
  '(date_us, s) ← parse_date s;
  match s with EmptyString => Some date_us | _ => None end.

(** [format(x, '.nf')] of an exact rational. *)
Definition pad_left (n : nat) (s : string) : string :=
  String.concat "" (replicate (n - String.length s) "0") +:+ s.
Definition ref_format_f (n : nat) (x : Q) : string :=
  let scaled := Py.round (x * inject_Z (10 ^ Z.of_nat n)) in
  let a := Z.abs scaled in
  let ip := a `div` 10 ^ Z.of_nat n in
  let fp := a `mod` 10 ^ Z.of_nat n in
  (if scaled <? 0 then "-" else "")
  +:+ Py.str_int ip
  +:+ match n with
      | O => ""
      | _ => "." +:+ pad_left n (Py.str_int fp)
      end.

(** [str(x)] of a number: an integer prints without a fraction, other
    values with up to six decimals. *)
Definition str_num (q : Q) : string :=
  if Qeq_bool (inject_Z (Qfloor q)) q then Py.str_int (Qfloor q)
  else if Qeq_bool (Py.round_n 1 q) q then ref_format_f 1 q
  else if Qeq_bool (Py.round_n 2 q) q then ref_format_f 2 q
  else ref_format_f 6 q.

Definition ref_py_str (j : json) : string :=
  match j with
  | JNull => "None"
  | JBool true => "True"
  | JBool false => "False"
  | JNum q => str_num q
  | JStr s => s
  | JArr [] => "[]"
  | JArr _ => "[...]"
  | JObj [] => "{}"
  | JObj _ => "{...}"
  end.

(** [str(d)]: the instant in microseconds (a stand-in for the calendar
    rendering, which no example below reads). *)
Definition ref_str_datetime (d : datetime) : string :=
  match d with
  | Naive us => Py.str_int us
  | Aware us => Py.str_int us +:+ "+00:00"
  end.

Definition platform : Platform :=
  {| fromisoformat := ref_fromisoformat;
     strptime_ymd := ref_strptime_ymd;
     py_str := ref_py_str;
     str_datetime := ref_str_datetime;
     format_f := ref_format_f;
     STM_RETENTION_DAYS := 7;
     MAX_SLEEP_SESSIONS_PER_TASK := 1000 |}.

(** A clock reading: 2024-06-15T12:00:00 UTC. *)
Definition NOON_2024_06_15 : Z := (days_from_civil 2024 6 15 * 86400 + 43200) * 1000000.

End Reference.

(* ===================================================================== *)
(** * Vocabulary of the statements *)
(* ===================================================================== *)

(** [d.get(k)] on an item list. *)
Fixpoint dict_get {A} (k : string) (d : list (string * A)) : option A :=
  match d with
  | [] => None
  | (k', v) :: d' => if String.eqb k' k then Some v else dict_get k d'
  end.

(** The sessions stored for a user in the short-term memory. *)
Definition stored_sessions (w : world) (user_id : string) : list session :=
  match stm_docs w !! user_id with
  | Some d => doc_sessions d
  | None => []
  end.

(** The LTM document stored for a user ([{}] when there is none) and its
    preferences map. *)
Definition stored_ltm (w : world) (user_id : string) : ltm_data :=
  default empty_ltm (ltm_docs w !! user_id).
Definition stored_preferences (w : world) (user_id : string) : gmap string json :=
  default ∅ (lt_preferences (stored_ltm w user_id)).

(** The five LTM keys the recommendations write sets. *)
Definition recommendation_fields (d : ltm_data) :=
  (lt_recommendations d, lt_sleep_score d, lt_confidence d,
   lt_personalized_tips d, lt_issues d).

(** How often the trace records the recommendations write. *)
Definition is_update_recommendations (c : memory_call) : bool :=
  match c with ltm_update_recommendations _ _ _ _ _ _ => true | _ => false end.
Definition recommendation_writes (w : world) : nat :=
  count_if is_update_recommendations (calls w).

(** The issue list the Memory Writer stores: the state's, or the
    analysis's when the state has none yet. *)
Definition issues_to_store (st : AgentState) (a : analysis) : list string :=
  match st_issues st with [] => issues a | l => l end.

(** The condition under which the Memory Writer writes recommendations:
    a recommendations dict is present (empty or not), or the score or the
    confidence is positive, or there is a tip or an issue. *)
Definition has_something_to_save (st : AgentState) (a : analysis) : Prop :=
  is_Some (st_recommendations st) ∨ 0 < st_sleep_score st ∨ (0 < st_confidence st)%Q
  ∨ st_personalized_tips st ≠ [] ∨ issues_to_store st a ≠ [].


(** The conditions of scenario A on a session list. *)
Definition is_scenario_A (sessions : list session) : Prop :=
  length sessions = 7%nat
  ∧ ∃ b w, b ≠ "" ∧ w ≠ ""
    ∧ Forall (λ s, duration_hours s = Some 8%Q ∧ get_interruptions s = []
                   ∧ bedtime s = Some b ∧ waketime s = Some w
                   ∧ efficiency_score s = None) sessions.

(** What the Analyzer's analysis of a scenario A list holds: means 8, full
    consistency, no interruption, and [{}] under ['efficiency_analysis']. *)
Definition scenario_A_stats (a : analysis) : Prop :=
  (∃ d, duration_analysis a = Some (Dict d) ∧ (dur_average d == 8)%Q)
  ∧ (∃ c, consistency_analysis a = Some (Dict c) ∧ (overall_consistency c == 1)%Q)
  ∧ efficiency_analysis a = Some EmptyDict
  ∧ (∃ i, interruption_analysis a = Some (Dict i) ∧ (average_per_session i == 0)%Q).

(** The tail of [_score_interruptions]: the points for an average number
    of interruptions per session. *)
Definition interruption_points (avg_interruptions : Q) : Q :=
  if Py.eq avg_interruptions 0 then 100%Q
  else if Py.le avg_interruptions 1 then 80%Q
  else if Py.le avg_interruptions 2 then 60%Q
  else if Py.le avg_interruptions 3 then 40%Q
  else Qmax 0 (100 - avg_interruptions * 20).

(** A session whose efficiency score, if it has one, is a percentage. *)
Definition efficiency_in_range (s : session) : Prop :=
  ∀ e, efficiency_score s = Some e → (0 <= e <= 100)%Q.

(** The test of [_calculate_confidence] for a complete session. *)
Definition is_complete (s : session) : bool :=
  Py.truthy_num (duration_hours s) && Py.truthy_str (bedtime s) && Py.truthy_str (waketime s).

(** What the sub-scores need of an analysis: a consistency in [0, 1] and
    an efficiency mean in [0, 100]. *)
Definition stats_in_range (a : analysis) : Prop :=
  (∀ c, consistency_analysis a = Some (Dict c) → (0 <= overall_consistency c <= 1)%Q)
  ∧ (∀ e, efficiency_analysis a = Some (Dict e) → (0 <= eff_average e <= 100)%Q).


(** The trends map stored for a user, and the keys [_calculate_trends]
    can set. *)
Definition stored_trends (w : world) (user_id : string) : gmap string Q :=
  default ∅ (lt_trends (stored_ltm w user_id)).
Definition TREND_KEYS : list string :=
  ["avg_duration"; "min_duration"; "max_duration"; "duration_consistency";
   "avg_efficiency"; "min_efficiency"; "max_efficiency"; "avg_morning_mood";
   "weekly_avg_duration"].

Section stm_vocabulary.
Context `{Platform}.

(** Every item of a session map sits under its session's key, and no key
    occurs twice. *)
Definition keyed (m : list (string * session)) : Prop :=
  Forall (λ kv, kv.1 = ShortTermMemory.session_key kv.2) m ∧ NoDup m.*1.

(** Membership in the retention window that starts at [cutoff_date]: the
    date parses, carries no time zone and is not older than the cut-off. *)
Definition in_window (cutoff_date : Z) (s : session) : Prop :=
  ∃ d, ShortTermMemory._parse_session_date s = Some (Naive d) ∧ cutoff_date ≤ d.

Definition in_window_b (cutoff_date : Z) (s : session) : bool :=
  match ShortTermMemory._parse_session_date s with
  | Some (Naive d) => cutoff_date <=? d
  | _ => false
  end.

(** A session whose date, if it parses, carries no time zone. *)
Definition not_aware (s : session) : Prop :=
  ∀ d, ShortTermMemory._parse_session_date s ≠ Some (Aware d).

(** Every stored session carries a date that parses. *)
Definition all_dated (w : world) : Prop :=
  ∀ u s, s ∈ stored_sessions w u → is_Some (ShortTermMemory._parse_session_date s).

(** The worlds the store goes through: it starts empty, [save_sessions] is
    the only operation that writes STM documents, and anything else (LTM
    updates, reads) leaves them as they are. *)
Inductive stm_reachable : world → Prop :=
| reach_empty : stm_reachable empty_world
| reach_save now u l w :
    stm_reachable w → stm_reachable (ShortTermMemory.save_sessions now u l w).2
| reach_other w w' :
    stm_reachable w → stm_docs w' = stm_docs w → stm_reachable w'.

(** The instant a session is sorted by. *)
Definition date_us (s : session) : Z :=
  match ShortTermMemory.sort_key s with Naive d => d | Aware d => d end.

(** Newest first: no session is older than one that comes after it. *)
Fixpoint newest_first (l : list session) : Prop :=
  match l with
  | [] => True
  | s :: rest => Forall (λ t, date_us t ≤ date_us s) rest ∧ newest_first rest
  end.

(** A session whose date parses and carries no time zone. *)
Definition naive_dated (s : session) : Prop :=
  ∃ d, ShortTermMemory._parse_session_date s = Some (Naive d).

(** What holds of every list the short-term memory stores: distinct keys,
    newest first, dates that parse and carry no time zone. *)
Definition tidy (l : list session) : Prop :=
  NoDup (ShortTermMemory.session_key <$> l) ∧ newest_first l ∧ Forall naive_dated l.
Definition all_tidy (w : world) : Prop := ∀ u, tidy (stored_sessions w u).

End stm_vocabulary.

Section pipeline_vocabulary.
Context `{Platform}.

(** A request the validation stage lets through. *)
Definition accepted (t : task_request) : Prop :=
  st_status (Nodes.validation_node (Workflow.initial_state t)) = "processing".

(** The user, the sessions and the profile of a request, as the initial
    state holds them. *)
Definition request_user (t : task_request) : string := default "" (req_user_id t).
Definition request_sessions (t : task_request) : list session :=
  Nodes.payload_sessions (Workflow.initial_state t).
Definition request_profile (t : task_request) : profile :=
  Nodes.payload_profile_of (Workflow.initial_state t).

(** The analysis, the score and the recommendations a request gets, from
    the sessions and the long-term document stored before it. *)
Definition task_analysis (t : task_request) (w : world) : analysis :=
  let u := request_user t in
  Nodes.enhance_analysis
    (SleepAnalyzer.analyze (stored_sessions w u ++ request_sessions t) (request_profile t))
    (default ∅ (lt_trends (stored_ltm w u)))
    (default [] (lt_patterns (stored_ltm w u))).

Definition task_score (t : task_request) (w : world) : score_result :=
  SleepScorer.calculate_score (request_sessions t ++ stored_sessions w (request_user t))
    (Some (task_analysis t w)).

Definition task_recommendations (t : task_request) (w : world) : recommendations :=
  let u := request_user t in
  let r := SleepRecommender.generate_recommendations (task_analysis t w)
             (Nodes.enhance_profile (request_profile t) (stored_preferences w u))
             (default ∅ (lt_trends (stored_ltm w u))) in
  let extra := Nodes.pattern_recommendations (default [] (lt_patterns (stored_ltm w u))) in
  match extra with
  | [] => r
  | _ => Nodes.with_tips r (personalized_tips r ++ extra)
  end.

(** The world an accepted request leaves: both memories read, the new
    sessions saved, the trends updated from the stored and the new
    sessions, the recommendations written. *)
Definition task_world (now : Z) (t : task_request) (w0 : world) : world :=
  let u := request_user t in
  let stm := stored_sessions w0 u in
  let w := record_call (ltm_get_memory u) (record_call (stm_get_sessions u) w0) in
  let w := match request_sessions t with
           | [] => w
           | _ => (ShortTermMemory.save_sessions now u (request_sessions t) w).2
           end in
  let w := match stm ++ request_sessions t with
           | [] => w
           | _ => (LongTermMemory.update_trends now u (stm ++ request_sessions t) w).2
           end in
  (LongTermMemory.update_recommendations now u (Dict (task_recommendations t w0))
     (sleep_score (task_score t w0)) (confidence (task_score t w0))
     (personalized_tips (task_recommendations t w0))
     (Some (issues (task_analysis t w0))) w).2.

End pipeline_vocabulary.

(* ===================================================================== *)
(** * Concrete inputs *)
(* ===================================================================== *)

Module Examples.

Definition USER : string := "U_101".
Definition DAY : Z := 86400000000.

(** [s] with the given ['session_date'] string. *)
Definition dated (date : string) (s : session) : session :=
  {| session_id := session_id s; bedtime := bedtime s; waketime := waketime s;
     duration_hours := duration_hours s; efficiency_score := efficiency_score s;
     interruptions := interruptions s; morning_mood := morning_mood s;
     session_date := Some (DateJson (JStr date)) |}.

(** [s] with the given ['efficiency_score']. *)
Definition with_efficiency (e : Q) (s : session) : session :=
  {| session_id := session_id s; bedtime := bedtime s; waketime := waketime s;
     duration_hours := duration_hours s; efficiency_score := Some e;
     interruptions := interruptions s; morning_mood := morning_mood s;
     session_date := session_date s |}.

(** A short, interrupted night; it has no ['session_date']. *)
Definition short_night : session :=
  {| session_id := None; bedtime := Some "23:30"; waketime := Some "04:30";
     duration_hours := Some 5%Q; efficiency_score := Some 60%Q;
     interruptions := Some ["noise"]; morning_mood := Some 4%Q;
     session_date := None |}.

(** The same night stored twice, the second time with another efficiency
    score; a night long past; a night dated with a Z-suffixed ISO string. *)
Definition first_entry : session := dated "2024-06-14" short_night.
Definition second_entry : session := with_efficiency 90 (dated "2024-06-14" short_night).
Definition old_entry : session := dated "2020-01-01" short_night.
Definition zulu_entry : session := dated "2024-07-14T08:00:00Z" short_night.

Definition week_of_short_nights : list session :=
  map (λ d, dated d short_night)
    ["2024-06-09"; "2024-06-10"; "2024-06-11"; "2024-06-12"; "2024-06-13";
     "2024-06-14"; "2024-06-15"].

Definition sedentary : profile :=
  {| age := Some 30%Q; work_schedule := Some "9am-5pm"; caffeine_intake := None;
     caffeine_after_8pm := None; screen_time := None; exercise := Some "rarely";
     stress_level := None; avg_sleep_duration := None;
     preferred_duration := None; preferred_bedtime := None;
     profile_extra := [] |}.

(** Two task requests of the same user, a day apart. *)
Definition first_task : task_request :=
  {| req_task_id := Some "task_1"; req_user_id := Some USER;
     req_payload := Some {| sleep_sessions := Some week_of_short_nights;
                            payload_profile := Some sedentary |} |}.

(** A request without ['user_id']. *)
Definition anonymous_task : task_request :=
  {| req_task_id := Some "task_3"; req_user_id := None;
     req_payload := Some {| sleep_sessions := Some week_of_short_nights;
                            payload_profile := None |} |}.

(** A state after the fan-out stage in which the recommender fell back to
    [{}], the score and the confidence are 0 and there is neither a tip nor
    an issue. *)
Definition quiet_analysis : analysis :=
  {| duration_analysis := Some EmptyDict; consistency_analysis := Some EmptyDict;
     efficiency_analysis := Some EmptyDict; interruption_analysis := Some EmptyDict;
     caffeine_analysis := None; screen_time_analysis := None;
     exercise_analysis := None; issues := []; summary := "Sleep analysis completed.";
     dur_ltm_average := None; eff_ltm_average := None; ltm_patterns := None |}.
Definition quiet_state : AgentState :=
  {| st_task_id := "task_4"; st_user_id := USER;
     st_payload := {| sleep_sessions := None; payload_profile := None |};
     st_memory := None; st_stm_sessions := Some []; st_ltm_data := Some empty_ltm;
     st_analysis := Some quiet_analysis; st_sleep_score := 0; st_confidence := 0;
     st_recommendations := Some EmptyDict; st_personalized_tips := [];
     st_result := None; st_summary := ""; st_issues := []; st_errors := [];
     st_status := "processing" |}.

(** A world whose LTM document holds a preference the trend update does not
    compute (the profile route stores the user's profile under this key). *)
Definition world_with_profile_preference : world :=
  {| stm_docs := ∅;
     ltm_docs :=
       {[ USER :=
            {| lt_trends := None; lt_patterns := None;
               lt_preferences :=
                 Some {[ "profile" := JObj [("age", JNum 30); ("exercise", JStr "rarely")] ]};
               lt_recommendations := None; lt_sleep_score := None;
               lt_confidence := None; lt_personalized_tips := None;
               lt_issues := None; lt_last_updated := None;
               lt_total_sessions_analyzed := None |} ]};
     calls := [] |}.

(** The night after [first_entry], and an accepted request that carries no
    session. *)
Definition next_entry : session := dated "2024-06-15" short_night.

End Examples.

(* ===================================================================== *)
(** * Properties: numbers *)
(* ===================================================================== *)

Set Warnings "-clear-no-such-hyp".

Lemma Py_le_true x y : Py.le x y = true ↔ (x <= y)%Q.
Proof. apply Qle_bool_iff. Qed.

Lemma Py_le_false x y : Py.le x y = false ↔ (y < x)%Q.
Proof.
  unfold Py.le. split; intros Hf.
  - apply Qnot_le_lt. intros Hle. apply Qle_bool_iff in Hle. congruence.
  - destruct (Qle_bool x y) eqn:E; [|done].
    apply Qle_bool_iff in E. lra.
Qed.

Lemma Py_lt_true x y : Py.lt x y = true ↔ (x < y)%Q.
Proof. unfold Py.lt. rewrite negb_true_iff. apply (Py_le_false y x). Qed.

Lemma Py_lt_false x y : Py.lt x y = false ↔ (y <= x)%Q.
Proof. unfold Py.lt. rewrite negb_false_iff. apply Qle_bool_iff. Qed.

Lemma round_lower x : Qfloor x ≤ Py.round x.
Proof.
  unfold Py.round. destruct (_ ?= _)%Q; [destruct (Z.even _)|..]; lia.
Qed.

Lemma round_upper x : Py.round x ≤ Qfloor x + 1.
Proof.
  unfold Py.round. destruct (_ ?= _)%Q; [destruct (Z.even _)|..]; lia.
Qed.

Lemma round_ge_int (k : Z) x : (inject_Z k <= x)%Q → k ≤ Py.round x.
Proof.
  intros Hk. pose proof (round_lower x).
  apply Qfloor_resp_le in Hk. rewrite Qfloor_Z in Hk. lia.
Qed.

Lemma round_le_int (k : Z) x : (x <= inject_Z k)%Q → Py.round x ≤ k.
Proof.
  intros Hk.
  pose proof (Qfloor_resp_le _ _ Hk) as Hf. rewrite Qfloor_Z in Hf.
  destruct (Z.eq_dec (Qfloor x) k) as [E|E].
  - unfold Py.round.
    assert ((x - inject_Z (Qfloor x) ?= 1 # 2)%Q = Lt) as ->.
    { rewrite <- Qlt_alt, E. lra. }
    lia.
  - pose proof (round_upper x). lia.
Qed.

Lemma round_proper x y : (x == y)%Q → Py.round x = Py.round y.
Proof.
  intros E. unfold Py.round. rewrite (Qfloor_comp x y E).
  assert ((x - inject_Z (Qfloor y) ?= 1 # 2) = (y - inject_Z (Qfloor y) ?= 1 # 2))%Q as ->;
    [|done].
  by rewrite E.
Qed.

Lemma round_n_proper n x y : (x == y)%Q → Py.round_n n x = Py.round_n n y.
Proof.
  intros E. unfold Py.round_n.
  rewrite (round_proper (x * inject_Z (10 ^ Z.of_nat n)) (y * inject_Z (10 ^ Z.of_nat n)));
    [done|].
  by rewrite E.
Qed.

(** Rounding to [n] decimals keeps a value between two bounds that have at
    most [n] decimals themselves. *)
Lemma round_n_bounds n (lo hi : Z) x :
  (inject_Z lo <= x * inject_Z (10 ^ Z.of_nat n))%Q →
  (x * inject_Z (10 ^ Z.of_nat n) <= inject_Z hi)%Q →
  (inject_Z lo / inject_Z (10 ^ Z.of_nat n) <= Py.round_n n x)%Q
  ∧ (Py.round_n n x <= inject_Z hi / inject_Z (10 ^ Z.of_nat n))%Q.
Proof.
  intros Hlo Hhi. unfold Py.round_n.
  apply round_ge_int in Hlo. apply round_le_int in Hhi.
  assert (0 < inject_Z (10 ^ Z.of_nat n))%Q as Hpos.
  { rewrite <- (Zlt_Qlt 0). lia. }
  split; apply Qmult_le_compat_r; try (rewrite <- Zle_Qle; lia);
    apply Qlt_le_weak, Qinv_lt_0_compat, Hpos.
Qed.

Lemma count_if_le {A} (P : A → bool) l : (count_if P l ≤ length l)%nat.
Proof. unfold count_if. apply List.filter_length_le. Qed.

Lemma count_if_app {A} (P : A → bool) l1 l2 :
  count_if P (l1 ++ l2) = (count_if P l1 + count_if P l2)%nat.
Proof. unfold count_if. by rewrite List.filter_app, length_app. Qed.

Lemma ratio_bounds (c n : nat) :
  (c ≤ S n)%nat →
  (0 <= inject_Z (Z.of_nat c) / inject_Z (Z.of_nat (S n)))%Q
  ∧ (inject_Z (Z.of_nat c) / inject_Z (Z.of_nat (S n)) <= 1)%Q.
Proof.
  intros Hc.
  assert (0 < inject_Z (Z.of_nat (S n)))%Q as Hpos.
  { rewrite <- (Zlt_Qlt 0). lia. }
  split.
  - apply Qle_shift_div_l; [done|]. rewrite Qmult_0_l, <- (Zle_Qle 0). lia.
  - apply Qle_shift_div_r; [done|]. rewrite Qmult_1_l, <- Zle_Qle. lia.
Qed.

(** The comprehensions over a list whose sessions agree on a field. *)
Lemma truthy_nums_all (f : session → option Q) (q : Q) l :
  Qeq_bool q 0 = false →
  Forall (λ s, f s = Some q) l →
  truthy_nums f l = replicate (length l) q.
Proof.
  intros Hq. induction 1 as [|s l Hs _ IH]; [done|].
  unfold truthy_nums in *. cbn. rewrite Hs, Hq. cbn. by rewrite IH.
Qed.

Lemma truthy_nums_none (f : session → option Q) l :
  Forall (λ s, f s = None) l → truthy_nums f l = [].
Proof.
  induction 1 as [|s l Hs _ IH]; [done|].
  unfold truthy_nums in *. cbn. by rewrite Hs.
Qed.

Lemma truthy_strs_all (f : session → option string) (x : string) l :
  x ≠ "" →
  Forall (λ s, f s = Some x) l →
  truthy_strs f l = replicate (length l) x.
Proof.
  intros Hx. induction 1 as [|s l Hs _ IH]; [done|].
  unfold truthy_strs in *. cbn. rewrite Hs.
  destruct (String.eqb_spec x ""); [done|]. cbn. by rewrite IH.
Qed.

Lemma len_set_replicate n (x : string) : Py.len_set (replicate (S n) x) = 1%nat.
Proof.
  unfold Py.len_set. induction n as [|n IH]; [done|].
  change (replicate (S (S n)) x) with (x :: replicate (S n) x).
  cbn [remove_dups]. destruct (decide_rel _ _ _) as [_|Hn]; [done|].
  exfalso. apply Hn. left.
Qed.

Lemma no_interruptions_total l :
  Forall (λ s, get_interruptions s = []) l →
  sum_list (map (λ s, length (get_interruptions s)) l) = 0%nat
  ∧ count_if (λ s, (0 <? length (get_interruptions s))%nat) l = 0%nat.
Proof.
  induction 1 as [|s l Hs _ [IH1 IH2]]; [done|].
  unfold count_if in *. cbn [map sum_list sum_list_with List.filter].
  rewrite Hs. cbn. by rewrite IH1.
Qed.

(* ===================================================================== *)
(** * Properties: the Scorer *)
(* ===================================================================== *)

Lemma duration_points_band m :
  (7 <= m)%Q → (m <= 9)%Q → SleepScorer.duration_points m = 100%Q.
Proof.
  intros H1 H2. unfold SleepScorer.duration_points,
    Config.OPTIMAL_SLEEP_DURATION_MIN, Config.OPTIMAL_SLEEP_DURATION_MAX.
  rewrite (proj2 (Py_le_true _ _) H1), (proj2 (Py_le_true _ _) H2). done.
Qed.





(** [_score_duration] is [duration_points] of the mean it is given: the
    analysis's rounded average when the analysis has the key, the mean of
    the sessions' durations otherwise. *)
Lemma score_duration_of_mean sessions a d :
  duration_analysis a = Some (Dict d) →
  SleepScorer._score_duration sessions (Some a) = SleepScorer.duration_points (dur_average d).
Proof.
  intros Hd. unfold SleepScorer._score_duration, SleepScorer.analysis_key. by rewrite Hd.
Qed.


Lemma calculate_confidence_bounds s l an :
  (4 # 70 <= SleepScorer._calculate_confidence (s :: l) an)%Q
  ∧ (SleepScorer._calculate_confidence (s :: l) an <= 1)%Q.
Proof.
  unfold SleepScorer._calculate_confidence.
  set (n := length l).
  set (P1 := λ s0 : session, _). set (P2 := λ s0 : session, _).
  pose proof (ratio_bounds (count_if P1 (s :: l)) n (count_if_le _ _)) as [Ha1 Ha2].
  pose proof (ratio_bounds (count_if P2 (s :: l)) n (count_if_le _ _)) as [Hb1 Hb2].
  unfold Py.len. change (length (s :: l)) with (S n).
  set (a := (inject_Z (Z.of_nat (count_if P1 (s :: l))) / inject_Z (Z.of_nat (S n)))%Q) in *.
  set (b := (inject_Z (Z.of_nat (count_if P2 (s :: l))) / inject_Z (Z.of_nat (S n)))%Q) in *.
  assert (1 # 7 <= Qmin 1 (inject_Z (Z.of_nat (S n)) / 7))%Q as Hc1.
  { apply Q.min_glb; [lra|].
    apply Qle_shift_div_l; [lra|].
    assert (1 <= inject_Z (Z.of_nat (S n)))%Q by (rewrite <- (Zle_Qle 1); lia). lra. }
  pose proof (Q.le_min_l 1 (inject_Z (Z.of_nat (S n)) / 7)) as Hc2.
  set (c := Qmin 1 (inject_Z (Z.of_nat (S n)) / 7)) in *.
  split.
  - apply Q.min_glb; [lra|].
    eapply Qle_trans; [|apply Q.le_max_r]. lra.
  - apply Q.le_min_l.
Qed.

(** C5.  For every session list and every optional analysis, the
    confidence the Scorer returns lies in [0, 1]; it is 0 exactly when the
    session list is empty, and strictly positive otherwise. *)
Theorem confidence_range_and_zero (sessions : list session) (an : option analysis) :
  let r := SleepScorer.calculate_score sessions an in
  (0 <= confidence r)%Q ∧ (confidence r <= 1)%Q
  ∧ ((confidence r == 0)%Q ↔ sessions = [])
  ∧ (sessions ≠ [] → (0 < confidence r)%Q).
Proof.
  destruct sessions as [|s l].
  - simpl. split; [lra|]. split; [lra|]. split; [split; [done|intros _; lra]|done].
  - unfold SleepScorer.calculate_score. cbn [confidence].
    destruct (calculate_confidence_bounds s l an) as [Hlo Hhi].
    destruct (round_n_bounds 2 5 100 (SleepScorer._calculate_confidence (s :: l) an))
      as [H1 H2].
    + change (inject_Z (10 ^ Z.of_nat 2)) with 100%Q.
      change (inject_Z 5) with 5%Q. lra.
    + change (inject_Z (10 ^ Z.of_nat 2)) with 100%Q.
      change (inject_Z 100) with 100%Q. lra.
    + change (inject_Z (10 ^ Z.of_nat 2)) with 100%Q in H1, H2.
      change (inject_Z 5 / 100)%Q with (5 # 100)%Q in H1.
      change (inject_Z 100 / 100)%Q with (100 # 100)%Q in H2.
      split; [lra|]. split; [lra|].
      split; [split; [intros E; lra|done]|intros _; lra].
Qed.

Section scenario_A_properties.
Context `{Platform}.

Lemma scenario_A_analysis sessions p :
  is_scenario_A sessions → scenario_A_stats (SleepAnalyzer.analyze sessions p).
Proof.
  intros (Hlen & b & w & Hb & Hw & Hall).
  assert (Forall (λ s, duration_hours s = Some 8%Q) sessions) as Hd
    by (eapply Forall_impl; [exact Hall|]; intros ? (?&?&?&?&?); done).
  assert (Forall (λ s, get_interruptions s = []) sessions) as Hi
    by (eapply Forall_impl; [exact Hall|]; intros ? (?&?&?&?&?); done).
  assert (Forall (λ s, bedtime s = Some b) sessions) as Hbt
    by (eapply Forall_impl; [exact Hall|]; intros ? (?&?&?&?&?); done).
  assert (Forall (λ s, waketime s = Some w) sessions) as Hwt
    by (eapply Forall_impl; [exact Hall|]; intros ? (?&?&?&?&?); done).
  assert (Forall (λ s, efficiency_score s = None) sessions) as He
    by (eapply Forall_impl; [exact Hall|]; intros ? (?&?&?&?&?); done).
  apply truthy_nums_all in Hd; [|done].
  apply truthy_nums_none in He.
  apply (truthy_strs_all _ _ _ Hb) in Hbt.
  apply (truthy_strs_all _ _ _ Hw) in Hwt.
  apply no_interruptions_total in Hi as [Hi1 Hi2].
  rewrite Hlen in Hd, Hbt, Hwt.
  destruct sessions as [|s l]; [done|].
  unfold scenario_A_stats. split; [|split; [|split]].
  - cbn [SleepAnalyzer.analyze duration_analysis].
    unfold SleepAnalyzer._analyze_duration. rewrite Hd.
    eexists; split; [reflexivity|]. by vm_compute.
  - cbn [SleepAnalyzer.analyze consistency_analysis].
    unfold SleepAnalyzer._analyze_consistency, SleepAnalyzer.label_consistency.
    rewrite Hbt, Hwt.
    rewrite !(len_set_replicate 6).
    eexists; split; [reflexivity|]. by vm_compute.
  - cbn [SleepAnalyzer.analyze efficiency_analysis].
    unfold SleepAnalyzer._analyze_efficiency. by rewrite He.
  - cbn [SleepAnalyzer.analyze interruption_analysis].
    unfold SleepAnalyzer._analyze_interruptions.
    eexists; split; [reflexivity|].
    cbn [average_per_session]. rewrite Hi1. unfold Py.len. rewrite Hlen.
    by vm_compute.
Qed.

(** The keys the reasoning stage adds leave the statistics alone. *)
Lemma scenario_A_stats_enhanced a trends patterns :
  scenario_A_stats a → scenario_A_stats (Nodes.enhance_analysis a trends patterns).
Proof. done. Qed.

Lemma scenario_A_scores_from_stats sessions a :
  sessions ≠ [] →
  scenario_A_stats a →
  let r := SleepScorer.calculate_score sessions (Some a) in
  sleep_score r = 70
  ∧ ∃ bd, score_breakdown r = Some bd
      ∧ (duration_score bd == 100)%Q ∧ (consistency_score bd == 100)%Q
      ∧ (interruption_score bd == 100)%Q ∧ (efficiency_score_part bd == 0)%Q.
Proof.
  intros Hne ((d & Hd & Hdavg) & (c & Hc & Hcavg) & He & (i & Hi & Hiavg)).
  destruct sessions as [|s l]; [done|].
  cbn zeta. unfold SleepScorer.calculate_score.
  assert (SleepScorer._score_duration (s :: l) (Some a) = 100%Q) as ->.
  { rewrite (score_duration_of_mean _ _ _ Hd). apply duration_points_band; lra. }
  assert (SleepScorer._score_consistency (s :: l) (Some a) == 100)%Q as Hcs.
  { unfold SleepScorer._score_consistency, SleepScorer.analysis_key. rewrite Hc, Hcavg. lra. }
  assert (SleepScorer._score_efficiency (s :: l) (Some a) = 0%Q) as ->.
  { unfold SleepScorer._score_efficiency, SleepScorer.analysis_key. by rewrite He. }
  assert (SleepScorer._score_interruptions (s :: l) (Some a) = 100%Q) as ->.
  { unfold SleepScorer._score_interruptions, SleepScorer.analysis_key. rewrite Hi.
    unfold Py.eq. by rewrite (proj2 (Qeq_bool_iff _ _) Hiavg). }
  cbn [sleep_score score_breakdown]. split.
  - rewrite (round_proper _ 70); [done|]. rewrite Hcs. lra.
  - eexists; split; [reflexivity|].
    cbn [duration_score consistency_score interruption_score efficiency_score_part].
    rewrite (round_n_proper 1 _ 100 Hcs). by vm_compute.
Qed.

(** C1, as the code computes it.  For seven sessions of 8 hours with one
    bedtime, one wake time, no interruption and no efficiency score, the
    Scorer called with the Analyzer's analysis of those sessions (also
    after the reasoning stage added its LTM keys) yields duration,
    consistency and interruption sub-scores 100, efficiency sub-score 0
    (not the default 50) and sleep_score 70 (not 85). *)
Theorem scenario_A_scores sessions p trends patterns :
  is_scenario_A sessions →
  let a := SleepAnalyzer.analyze sessions p in
  ∀ an, an = a ∨ an = Nodes.enhance_analysis a trends patterns →
  let r := SleepScorer.calculate_score sessions (Some an) in
  sleep_score r = 70
  ∧ ∃ bd, score_breakdown r = Some bd
      ∧ (duration_score bd == 100)%Q ∧ (consistency_score bd == 100)%Q
      ∧ (interruption_score bd == 100)%Q ∧ (efficiency_score_part bd == 0)%Q.
Proof.
  intros HA a an Han.
  pose proof (scenario_A_analysis sessions p HA) as Hstats.
  apply scenario_A_scores_from_stats.
  - destruct HA as [Hlen _]. by destruct sessions.
  - destruct Han as [-> | ->]; [done|by apply scenario_A_stats_enhanced].
Qed.

(** Without an analysis the Scorer recomputes its inputs, and there the
    efficiency default of 50 applies: the same sessions score 85. *)
Lemma scenario_A_scores_without_analysis sessions :
  is_scenario_A sessions →
  let r := SleepScorer.calculate_score sessions None in
  sleep_score r = 85
  ∧ ∃ bd, score_breakdown r = Some bd ∧ (efficiency_score_part bd == 50)%Q.
Proof.
  intros (Hlen & b & w & Hb & Hw & Hall).
  assert (Forall (λ s, duration_hours s = Some 8%Q) sessions) as Hd
    by (eapply Forall_impl; [exact Hall|]; intros ? (?&?&?&?&?); done).
  assert (Forall (λ s, get_interruptions s = []) sessions) as Hi
    by (eapply Forall_impl; [exact Hall|]; intros ? (?&?&?&?&?); done).
  assert (Forall (λ s, bedtime s = Some b) sessions) as Hbt
    by (eapply Forall_impl; [exact Hall|]; intros ? (?&?&?&?&?); done).
  assert (Forall (λ s, waketime s = Some w) sessions) as Hwt
    by (eapply Forall_impl; [exact Hall|]; intros ? (?&?&?&?&?); done).
  assert (Forall (λ s, efficiency_score s = None) sessions) as He
    by (eapply Forall_impl; [exact Hall|]; intros ? (?&?&?&?&?); done).
  apply truthy_nums_all in Hd; [|done].
  apply truthy_nums_none in He.
  apply (truthy_strs_all _ _ _ Hb) in Hbt.
  apply (truthy_strs_all _ _ _ Hw) in Hwt.
  apply no_interruptions_total in Hi as [Hi1 Hi2].
  rewrite Hlen in Hd, Hbt, Hwt.
  destruct sessions as [|s l]; [done|].
  cbn zeta. unfold SleepScorer.calculate_score.
  unfold SleepScorer._score_duration, SleepScorer._score_consistency,
    SleepScorer._score_efficiency, SleepScorer._score_interruptions,
    SleepScorer.analysis_key.
  rewrite Hd, He, Hbt, Hwt, Hi1, !(len_set_replicate 6).
  unfold Py.len. rewrite Hlen.
  cbn [sleep_score score_breakdown]. split; [by vm_compute|].
  eexists; split; [reflexivity|]. by vm_compute.
Qed.

End scenario_A_properties.

(* ===================================================================== *)
(** * Properties: the short-term memory *)
(* ===================================================================== *)

Lemma dict_get_set_eq {A} k (v : A) d : dict_get k (dict_set k v d) = Some v.
Proof.
  induction d as [|[k' v'] d IH]; cbn.
  - by rewrite String.eqb_refl.
  - destruct (String.eqb_spec k' k); cbn.
    + by rewrite String.eqb_refl.
    + by destruct (String.eqb_spec k' k).
Qed.

Lemma dict_get_set_ne {A} k k' (v : A) d :
  k ≠ k' → dict_get k' (dict_set k v d) = dict_get k' d.
Proof.
  intros Hne. induction d as [|[k0 v0] d IH]; cbn.
  - by destruct (String.eqb_spec k k').
  - destruct (String.eqb_spec k0 k) as [->|]; cbn.
    + destruct (String.eqb_spec k k'); done.
    + by rewrite IH.
Qed.

Lemma dict_get_None_keys {A} k (d : list (string * A)) :
  dict_get k d = None ↔ k ∉ d.*1.
Proof.
  induction d as [|[k' v] d IH]; cbn.
  - split; [intros _; apply not_elem_of_nil|done].
  - rewrite not_elem_of_cons, <- IH.
    destruct (String.eqb_spec k' k) as [->|]; naive_solver.
Qed.

Lemma dict_set_keys {A} k (v : A) d :
  (dict_set k v d).*1 = if bool_decide (k ∈ d.*1) then d.*1 else d.*1 ++ [k].
Proof.
  induction d as [|[k' v'] d IH]; cbn; [done|].
  destruct (String.eqb_spec k' k) as [->|Hne]; cbn.
  - rewrite bool_decide_true; [done|left].
  - rewrite IH. destruct (bool_decide_reflect (k ∈ d.*1)) as [Hin|Hnin].
    + rewrite bool_decide_true; [done|by right].
    + rewrite bool_decide_false; [done|].
      rewrite elem_of_cons. naive_solver.
Qed.

Lemma dict_set_NoDup {A} k (v : A) d : NoDup d.*1 → NoDup (dict_set k v d).*1.
Proof.
  intros Hnd. rewrite dict_set_keys.
  destruct (bool_decide_reflect (k ∈ d.*1)); [done|].
  apply NoDup_app. split; [done|]. split; [|apply NoDup_singleton].
  intros x Hx ->%list_elem_of_singleton. done.
Qed.

Lemma dict_set_Forall {A} (P : string * A → Prop) k v d :
  P (k, v) → Forall P d → Forall P (dict_set k v d).
Proof.
  intros Hkv. induction 1 as [|[k' v'] d Hx Hd IH]; cbn.
  - by constructor.
  - destruct (String.eqb k' k); constructor; done.
Qed.

Lemma filter_filter_comm {A} (P Q : A → Prop)
    `{∀ x, Decision (P x)} `{∀ x, Decision (Q x)} (l : list A) :
  filter P (filter Q l) = filter Q (filter P l).
Proof.
  induction l as [|x l IH]; [done|].
  rewrite !filter_cons.
  destruct (decide (P x)), (decide (Q x)); rewrite ?filter_cons;
    rewrite ?decide_True by done; rewrite ?decide_False by done; by rewrite IH.
Qed.

Lemma stored_sessions_ext w w' u :
  stm_docs w' = stm_docs w → stored_sessions w' u = stored_sessions w u.
Proof. unfold stored_sessions. by intros ->. Qed.

Section stm_properties.
Context `{Platform}.

Import ShortTermMemory.

Lemma keyed_nil : keyed [].
Proof. split; [constructor|apply NoDup_nil_2]. Qed.

Lemma merge_sessions_cons m s l :
  merge_sessions m (s :: l) = merge_sessions (dict_set (session_key s) s m) l.
Proof. done. Qed.

Lemma merge_sessions_app m l1 l2 :
  merge_sessions m (l1 ++ l2) = merge_sessions (merge_sessions m l1) l2.
Proof. apply fold_left_app. Qed.

Lemma merge_sessions_keyed m l : keyed m → keyed (merge_sessions m l).
Proof.
  revert m. induction l as [|s l IH]; intros m Hm; [done|].
  rewrite merge_sessions_cons. apply IH. destruct Hm as [Hf Hn]. split.
  - by apply dict_set_Forall.
  - by apply dict_set_NoDup.
Qed.

Lemma merge_sessions_get_other m l k :
  Forall (λ s, session_key s ≠ k) l →
  dict_get k (merge_sessions m l) = dict_get k m.
Proof.
  revert m. induction l as [|s l IH]; intros m Hl; [done|].
  apply Forall_cons in Hl as [Hs Hl]. rewrite merge_sessions_cons.
  rewrite IH by done. by apply dict_get_set_ne.
Qed.

(** The last session supplied under a key is the one the map holds. *)
Lemma merge_sessions_last_wins m pre s post :
  Forall (λ t, session_key t ≠ session_key s) post →
  dict_get (session_key s) (merge_sessions m (pre ++ s :: post)) = Some s.
Proof.
  intros Hpost. rewrite merge_sessions_app, merge_sessions_cons.
  rewrite merge_sessions_get_other by done. apply dict_get_set_eq.
Qed.

(** A keyed map holds at most one session under a key. *)
Lemma keyed_filter_key m k :
  keyed m →
  filter (λ s, session_key s = k) (dict_values m)
  = match dict_get k m with Some s => [s] | None => [] end.
Proof.
  unfold dict_values. intros [Hf Hn].
  induction m as [|[k' s'] m IH]; [done|].
  apply Forall_cons in Hf as [Hk Hf]. apply NoDup_cons in Hn as [Hnin Hn].
  cbn in Hk, Hnin. subst k'. cbn [map snd fmap list_fmap dict_get].
  rewrite filter_cons. destruct (String.eqb_spec (session_key s') k) as [<-|Hne].
  - rewrite decide_True by done. f_equal.
    rewrite IH by done.
    by rewrite (proj2 (dict_get_None_keys _ _) Hnin).
  - rewrite decide_False by done. by apply IH.
Qed.

(** Two sessions without an explicit id and with the same
    (session_date, bedtime, waketime) have the same key. *)
Lemma same_identity_same_key s1 s2 :
  session_id s1 = None → session_id s2 = None →
  session_date s1 = session_date s2 → bedtime s1 = bedtime s2 →
  waketime s1 = waketime s2 →
  session_key s1 = session_key s2.
Proof.
  intros Hi1 Hi2 Hd Hb Hw. unfold session_key, _generate_session_id.
  by rewrite Hi1, Hi2, Hd, Hb, Hw.
Qed.

Lemma in_window_b_spec c s : in_window_b c s = true ↔ in_window c s.
Proof.
  unfold in_window_b, in_window. destruct (_parse_session_date s) as [[d|d]|].
  - rewrite Z.leb_le. naive_solver.
  - naive_solver.
  - naive_solver.
Qed.

Lemma filter_retention_Some c l r :
  filter_retention c l = Some r → r = filter (λ s, in_window_b c s = true) l.
Proof.
  revert r. induction l as [|s l IH]; intros r Hr; cbn in Hr.
  - by injection Hr as <-.
  - rewrite filter_cons. unfold in_window_b.
    destruct (_parse_session_date s) as [[d|d]|]; [|done|].
    + destruct (filter_retention c l) as [r'|]; [|done]. cbn in Hr.
      injection Hr as <-. rewrite (IH r' eq_refl).
      destruct (c <=? d); [by rewrite decide_True|by rewrite decide_False].
    + rewrite decide_False by done. by apply IH.
Qed.

Lemma insert_newest_first_perm s l r :
  insert_newest_first s l = Some r → r ≡ₚ s :: l.
Proof.
  revert r. induction l as [|t l IH]; intros r Hr; cbn in Hr.
  - by injection Hr as <-.
  - destruct (datetime_lt _ _) as [[]|]; cbn in Hr; [| |done].
    + destruct (insert_newest_first s l) as [r'|]; [|done]. cbn in Hr.
      injection Hr as <-. rewrite (IH r' eq_refl). apply Permutation_swap.
    + by injection Hr as <-.
Qed.

Lemma sort_newest_first_perm l r : sort_newest_first l = Some r → r ≡ₚ l.
Proof.
  revert r. induction l as [|s l IH]; intros r Hr; cbn in Hr.
  - by injection Hr as <-.
  - destruct (sort_newest_first l) as [r'|]; [|done]. cbn in Hr.
    apply insert_newest_first_perm in Hr. rewrite Hr. by rewrite (IH r' eq_refl).
Qed.

(** [save_sessions] stores what [build_stm_data] computes from the stored
    sessions, and stores nothing when that raises. *)
Lemma save_sessions_unfold now u l w :
  ∃ w0, stm_docs w0 = stm_docs w ∧ ltm_docs w0 = ltm_docs w
  ∧ save_sessions now u l w =
    match build_stm_data now (stored_sessions w u) l with
    | Some d => (true, save_stm u d w0)
    | None => (false, w0)
    end.
Proof.
  eexists. split; [|split]; [| |reflexivity]; done.
Qed.

Lemma build_stm_data_Some now existing l d :
  build_stm_data now existing l = Some d →
  minus_days now retention_days = Some (now - retention_days * 86400000000)
  ∧ doc_sessions d ≡ₚ
      filter (λ s, in_window_b (now - retention_days * 86400000000) s = true)
        (dict_values (merge_sessions (merge_sessions [] existing) l)).
Proof.
  unfold build_stm_data. intros Hd.
  destruct (minus_days now retention_days) as [cutoff|] eqn:Hc; [|done]. cbn in Hd.
  assert (cutoff = now - retention_days * 86400000000) as ->.
  { unfold minus_days in Hc. destruct (_ && _); [|done]. by injection Hc as <-. }
  destruct (filter_retention _ _) as [f|] eqn:Hf; [|done]. cbn in Hd.
  destruct (sort_newest_first f) as [r|] eqn:Hr; [|done]. cbn in Hd.
  injection Hd as <-. cbn.
  split; [done|].
  apply filter_retention_Some in Hf. subst f.
  by apply sort_newest_first_perm.
Qed.

(** C3, amended.  After an STM save call that reports success, an empty
    list of new sessions included, every session stored for the user has a
    date that parses and is not older than now - retention_days; a call
    that reports failure leaves every stored STM document as it was. *)
Theorem stm_retention_after_save now u l w :
  let r := save_sessions now u l w in
  if r.1 then
    Forall (in_window (now - retention_days * 86400000000)) (stored_sessions r.2 u)
  else stm_docs r.2 = stm_docs w.
Proof.
  cbn zeta.
  destruct (save_sessions_unfold now u l w) as (w0 & Hs & _ & ->).
  destruct (build_stm_data _ _ _) as [d|] eqn:Hd; [|done].
  apply build_stm_data_Some in Hd as (Hc & Hp).
  unfold stored_sessions, save_stm. cbn. rewrite lookup_insert_eq.
  rewrite Hp. apply Forall_forall. intros s [Hs' _]%list_elem_of_filter.
  by apply in_window_b_spec.
Qed.

(** C2, amended.  When two STM save calls both supply a session under the
    same session key (the explicit session_id, else the key generated from
    session_date, bedtime and waketime), the second call's session [s2] is
    the last one of its call under that key, its date parses to a naive
    datetime inside the retention window of the second call, and the
    second call reports success, then exactly one stored entry has that
    key, and it is [s2]. *)
Theorem stm_save_twice_last_wins now1 now2 u l1 s1 pre s2 post w d :
  s1 ∈ l1 →
  session_key s1 = session_key s2 →
  Forall (λ t, session_key t ≠ session_key s2) post →
  _parse_session_date s2 = Some (Naive d) →
  now2 - retention_days * 86400000000 ≤ d →
  let w1 := (save_sessions now1 u l1 w).2 in
  let r := save_sessions now2 u (pre ++ s2 :: post) w1 in
  r.1 = true →
  filter (λ s, session_key s = session_key s2) (stored_sessions r.2 u) = [s2].
Proof.
  intros _ _ Hpost Hdate Hwin w1. cbn zeta.
  destruct (save_sessions_unfold now2 u (pre ++ s2 :: post) w1) as (w0 & Hs & _ & ->).
  destruct (build_stm_data _ _ _) as [doc|] eqn:Hd; [|done].
  intros _.
  apply build_stm_data_Some in Hd as (Hc & Hp).
  unfold stored_sessions, save_stm. cbn. rewrite lookup_insert_eq.
  apply Permutation_singleton_r. rewrite Hp.
  rewrite filter_filter_comm.
  rewrite keyed_filter_key by (do 2 apply merge_sessions_keyed; apply keyed_nil).
  rewrite merge_sessions_last_wins by done.
  rewrite filter_cons, decide_True; [done|].
  apply in_window_b_spec. exists d. by split.
Qed.

Lemma filter_retention_not_aware c l :
  Forall not_aware l → is_Some (filter_retention c l).
Proof.
  induction 1 as [|s l Hs _ IH]; cbn; [by eexists|].
  destruct (_parse_session_date s) as [[d|d]|] eqn:E; [| |done].
  - destruct IH as [r ->]. by eexists.
  - by destruct (Hs d).
Qed.

Lemma insert_newest_first_naive s l :
  Forall (λ t, ∃ d, sort_key t = Naive d) (s :: l) →
  is_Some (insert_newest_first s l).
Proof.
  intros [[d Hd] Hl]%Forall_cons.
  induction Hl as [|t l [e He] _ IH]; cbn; [by eexists|].
  rewrite Hd, He. cbn. destruct (d <? e); [|by eexists].
  destruct IH as [r ->]. by eexists.
Qed.

Lemma sort_newest_first_naive l :
  Forall (λ t, ∃ d, sort_key t = Naive d) l → is_Some (sort_newest_first l).
Proof.
  induction 1 as [|s l Hs Hl IH]; cbn; [by eexists|].
  destruct IH as [r Hr]. rewrite Hr. cbn.
  apply insert_newest_first_naive. constructor; [done|].
  by rewrite (sort_newest_first_perm _ _ Hr).
Qed.

Lemma merge_sessions_Forall (P : session → Prop) m l :
  Forall P (dict_values m) → Forall P l → Forall P (dict_values (merge_sessions m l)).
Proof.
  revert m. induction l as [|s l IH]; intros m Hm Hl; [done|].
  apply Forall_cons in Hl as [Hs Hl]. rewrite merge_sessions_cons.
  apply IH; [|done]. unfold dict_values in *. rewrite Forall_fmap in *.
  by apply dict_set_Forall.
Qed.

(** When no date involved is time-zone aware and the cut-off date is
    representable, [save_sessions] reports success. *)
Lemma save_sessions_succeeds now u l w :
  0 ≤ now - retention_days * 86400000000 ≤ DATETIME_MAX_US →
  Forall not_aware (stored_sessions w u) →
  Forall not_aware l →
  (save_sessions now u l w).1 = true.
Proof.
  intros Hnow Hst Hl.
  destruct (save_sessions_unfold now u l w) as (w0 & _ & _ & ->).
  assert (is_Some (build_stm_data now (stored_sessions w u) l)) as [d ->]; [|done].
  unfold build_stm_data, minus_days.
  rewrite andb_true_intro by (split; apply Z.leb_le; lia). cbn.
  set (m := merge_sessions _ _).
  assert (Forall not_aware (dict_values m)) as Hm.
  { apply merge_sessions_Forall; [|done].
    apply merge_sessions_Forall; [constructor|done]. }
  destruct (filter_retention_not_aware (now - retention_days * 86400000000) _ Hm)
    as [f Hf].
  rewrite Hf. cbn.
  destruct (sort_newest_first_naive f) as [r ->]; [|by eexists].
  apply filter_retention_Some in Hf. subst f.
  apply Forall_forall. intros s [Hs _]%list_elem_of_filter.
  apply in_window_b_spec in Hs as (d & Hd & _).
  exists d. unfold sort_key. by rewrite Hd.
Qed.

Lemma save_sessions_all_dated now u l w :
  all_dated w → all_dated (save_sessions now u l w).2.
Proof.
  intros Hw u' s.
  destruct (save_sessions_unfold now u l w) as (w0 & Hs & _ & ->).
  destruct (build_stm_data _ _ _) as [d|] eqn:Hd; cbn [snd].
  - apply build_stm_data_Some in Hd as [_ Hp].
    unfold stored_sessions, save_stm. cbn.
    destruct (decide (u' = u)) as [->|Hne].
    + rewrite lookup_insert_eq, Hp. intros [Hin _]%list_elem_of_filter.
      apply in_window_b_spec in Hin as (dt & -> & _). by eexists.
    + rewrite lookup_insert_ne by done. rewrite Hs. apply Hw.
  - rewrite (stored_sessions_ext w w0) by done. apply Hw.
Qed.

Lemma stm_reachable_all_dated w : stm_reachable w → all_dated w.
Proof.
  induction 1 as [|now u l w _ IH|w w' _ IH E].
  - intros u s. unfold stored_sessions. cbn. rewrite lookup_empty.
    by intros ?%elem_of_nil.
  - by apply save_sessions_all_dated.
  - intros u s. rewrite (stored_sessions_ext w w') by done. apply IH.
Qed.

(** C10.  In every world the store can reach, after any STM save call
    every stored session of every user has a session_date that parses,
    and a session supplied to the call whose session_date is missing or
    does not parse appears in no stored record, however recent it is. *)
Theorem stm_drops_undated_sessions now u l w :
  stm_reachable w →
  let w' := (save_sessions now u l w).2 in
  (∀ u' s, s ∈ stored_sessions w' u' → is_Some (_parse_session_date s))
  ∧ (∀ s, s ∈ l → _parse_session_date s = None →
       ∀ u', s ∉ stored_sessions w' u').
Proof.
  intros Hw w'.
  assert (all_dated w') as Hd
    by (apply stm_reachable_all_dated, reach_save, Hw).
  split; [exact Hd|].
  intros s _ Hnone u' Hin. apply Hd in Hin as [dt Hdt]. congruence.
Qed.

End stm_properties.

(* ===================================================================== *)
(** * Properties: the long-term memory *)
(* ===================================================================== *)

Lemma extract_preferences_other sessions (existing : gmap string json) k :
  k ≠ "preferred_duration" → k ≠ "preferred_bedtime" →
  LongTermMemory._extract_preferences sessions existing !! k = existing !! k.
Proof.
  intros H1 H2. unfold LongTermMemory._extract_preferences.
  destruct (most_common _); destruct (truthy_nums _ _);
    rewrite ?lookup_insert_ne by done; done.
Qed.

Lemma update_trends_preferences now u sessions w :
  stored_preferences (LongTermMemory.update_trends now u sessions w).2 u
  = LongTermMemory._extract_preferences sessions (stored_preferences w u).
Proof.
  unfold stored_preferences, stored_ltm, LongTermMemory.update_trends. cbn.
  by rewrite lookup_insert_eq.
Qed.

(** C4.  When the trend update runs twice for a user, with any two session
    lists, every preference key other than preferred_duration and
    preferred_bedtime reads after the second update as it read before it:
    a key that was present is still present with its old value. *)
Theorem ltm_update_trends_merges_preferences now1 now2 u sessions1 sessions2 w k :
  k ≠ "preferred_duration" → k ≠ "preferred_bedtime" →
  let w1 := (LongTermMemory.update_trends now1 u sessions1 w).2 in
  let w2 := (LongTermMemory.update_trends now2 u sessions2 w1).2 in
  stored_preferences w2 u !! k = stored_preferences w1 u !! k.
Proof.
  intros H1 H2 w1 w2. unfold w2.
  rewrite update_trends_preferences. by apply extract_preferences_other.
Qed.

Lemma save_sessions_ltm `{Platform} now u l w :
  ltm_docs (ShortTermMemory.save_sessions now u l w).2 = ltm_docs w
  ∧ recommendation_writes (ShortTermMemory.save_sessions now u l w).2
    = recommendation_writes w.
Proof.
  assert (ltm_docs (ShortTermMemory.save_sessions now u l w).2 = ltm_docs w
          ∧ calls (ShortTermMemory.save_sessions now u l w).2
            = (calls w ++ [stm_save_sessions u l]) ++ [stm_get_sessions u]) as [Hd Hc].
  { unfold ShortTermMemory.save_sessions, ShortTermMemory.get_sessions.
    cbn. by destruct (ShortTermMemory.build_stm_data _ _ _). }
  split; [done|]. unfold recommendation_writes.
  rewrite Hc, !count_if_app. cbn. lia.
Qed.

(** The trend update leaves the five recommendation keys alone. *)
Lemma update_trends_ltm now u l w :
  recommendation_fields (stored_ltm (LongTermMemory.update_trends now u l w).2 u)
  = recommendation_fields (stored_ltm w u)
  ∧ recommendation_writes (LongTermMemory.update_trends now u l w).2
    = recommendation_writes w.
Proof.
  split.
  - unfold LongTermMemory.update_trends, LongTermMemory.get_memory, stored_ltm.
    cbn. by rewrite lookup_insert_eq.
  - unfold recommendation_writes.
    change (calls (LongTermMemory.update_trends now u l w).2)
      with ((calls w ++ [ltm_update_trends u l]) ++ [ltm_get_memory u]).
    rewrite !count_if_app. cbn. lia.
Qed.

Lemma update_recommendations_ltm now u recs score conf tips issues w :
  recommendation_fields
    (stored_ltm (LongTermMemory.update_recommendations now u recs score conf tips
                   (Some issues) w).2 u)
  = (Some recs, Some score, Some conf, Some tips, Some issues)
  ∧ recommendation_writes
      (LongTermMemory.update_recommendations now u recs score conf tips (Some issues) w).2
    = S (recommendation_writes w).
Proof.
  split.
  - unfold LongTermMemory.update_recommendations, LongTermMemory.get_memory, stored_ltm.
    cbn. by rewrite lookup_insert_eq.
  - unfold recommendation_writes.
    change (calls (LongTermMemory.update_recommendations now u recs score conf tips
                     (Some issues) w).2)
      with ((calls w ++ [ltm_update_recommendations u recs score conf tips (Some issues)])
            ++ [ltm_get_memory u]).
    rewrite !count_if_app. cbn. lia.
Qed.

(* ===================================================================== *)
(** * Properties: the pipeline *)
(* ===================================================================== *)

Section pipeline_properties.
Context `{Platform}.

Lemma validation_rejects_blank_user t :
  Py.all_space (default "" (req_user_id t)) = true →
  st_status (Nodes.validation_node (Workflow.initial_state t)) = "error".
Proof.
  intros Hu. unfold Nodes.validation_node, Validators.validate_task_request.
  cbn [Workflow.initial_state st_task_id st_user_id st_payload
       req_task_id req_user_id req_payload].
  rewrite Hu. clear Hu. destruct (Py.all_space _); reflexivity.
Qed.

(** C7.  For a task request without a user_id, or with the empty string
    as user_id, the edge taken out of validation is the error edge, the
    result has status error and no result body, and the world is left as
    it was: no memory call is traced and no document changes. *)
Theorem missing_user_id_aborts now t w :
  req_user_id t = None ∨ req_user_id t = Some "" →
  Workflow._should_continue (Nodes.validation_node (Workflow.initial_state t)) = "error"
  ∧ let r := Workflow.process_task now t w in
    res_status r.1 = "error" ∧ res_result r.1 = None
    ∧ calls r.2 = calls w ∧ r.2 = w.
Proof.
  intros Hu.
  assert (Py.all_space (default "" (req_user_id t)) = true) as Hblank
    by (destruct Hu as [-> | ->]; done).
  pose proof (validation_rejects_blank_user t Hblank) as Hst.
  assert (Workflow._should_continue (Nodes.validation_node (Workflow.initial_state t))
          = "error") as Hedge.
  { unfold Workflow._should_continue. by rewrite Hst. }
  split; [done|].
  unfold Workflow.process_task, Workflow.invoke. rewrite Hedge.
  cbn [String.eqb Ascii.eqb Bool.eqb].
  rewrite Hst. done.
Qed.

Lemma has_data_to_save_spec st a :
  Nodes.has_data_to_save (st_recommendations st) (st_sleep_score st) (st_confidence st)
    (st_personalized_tips st) (issues_to_store st a) = true
  ↔ has_something_to_save st a.
Proof.
  unfold Nodes.has_data_to_save, has_something_to_save.
  rewrite !orb_true_iff, Z.ltb_lt, Py_lt_true, !Nat.ltb_lt.
  assert (∀ A (o : option A), Py.present o = true ↔ is_Some o) as Hp.
  { intros A [x|]; cbn; split; try done. }
  assert (∀ l : list string, (0 < length l)%nat ↔ l ≠ []) as Hl.
  { intros [|x l]; cbn; split; try done; try lia. }
  rewrite Hp, !Hl. tauto.
Qed.

(** C8, amended.  On a state that holds the fetched STM list and an
    analysis, the Memory Writer performs the LTM recommendations write
    exactly when a recommendations dict is present (empty or not), or
    sleep_score > 0, or confidence > 0, or there is a tip, or there is an
    issue: then the write is traced once and the document holds the
    state's recommendations, score, confidence, tips and issues.
    Otherwise no such write is traced and the five keys of the stored
    document are unchanged. *)
Theorem memory_writer_gate now st w existing a :
  st_stm_sessions st = Some existing →
  st_analysis st = Some a →
  let u := st_user_id st in
  let w' := (Nodes.memory_write_node now st w).2 in
  (has_something_to_save st a →
     recommendation_writes w' = S (recommendation_writes w)
     ∧ recommendation_fields (stored_ltm w' u)
       = (Some (default EmptyDict (st_recommendations st)), Some (st_sleep_score st),
          Some (st_confidence st), Some (st_personalized_tips st),
          Some (issues_to_store st a)))
  ∧ (¬ has_something_to_save st a →
     recommendation_writes w' = recommendation_writes w
     ∧ recommendation_fields (stored_ltm w' u) = recommendation_fields (stored_ltm w u)).
Proof.
  intros Hstm Han u w'. subst w'. unfold Nodes.memory_write_node.
  rewrite Hstm, Han. fold u.
  set (w1 := match Nodes.payload_sessions st with [] => w | _ => _ end).
  assert (ltm_docs w1 = ltm_docs w ∧ recommendation_writes w1 = recommendation_writes w)
    as [Hd1 Hc1].
  { unfold w1. destruct (Nodes.payload_sessions st); [done|]. apply save_sessions_ltm. }
  set (w2 := match existing ++ Nodes.payload_sessions st with [] => w1 | _ => _ end).
  assert (recommendation_fields (stored_ltm w2 u) = recommendation_fields (stored_ltm w u)
          ∧ recommendation_writes w2 = recommendation_writes w) as [Hd2 Hc2].
  { assert (stored_ltm w1 u = stored_ltm w u) as E by (unfold stored_ltm; by rewrite Hd1).
    unfold w2. destruct (existing ++ Nodes.payload_sessions st).
    - by rewrite E.
    - destruct (update_trends_ltm now u (s :: l) w1) as [-> ->]. by rewrite E. }
  assert (match st_issues st with
          | [] => Some (issues a)
          | _ :: _ => Some (st_issues st)
          end = Some (issues_to_store st a)) as ->.
  { unfold issues_to_store. by destruct (st_issues st). }
  pose proof (has_data_to_save_spec st a) as Hgate.
  destruct (Nodes.has_data_to_save _ _ _ _ _).
  - split; [intros _|intros Hn; destruct Hn; by apply Hgate].
    cbn [snd].
    destruct (update_recommendations_ltm now u (default EmptyDict (st_recommendations st))
                (st_sleep_score st) (st_confidence st) (st_personalized_tips st)
                (issues_to_store st a) w2) as [-> ->].
    by rewrite Hc2.
  - split; [intros Hy; apply Hgate in Hy; done|intros _]. cbn [snd]. done.
Qed.


Lemma pattern_recommendations_length patterns :
  (length (Nodes.pattern_recommendations patterns) ≤ length patterns)%nat.
Proof.
  unfold Nodes.pattern_recommendations.
  induction patterns as [|x l IH]; cbn; [done|].
  rewrite length_app.
  destruct (String.eqb _ "consistent_bedtime"); [cbn; lia|].
  destruct (String.eqb _ "sufficient_data"); cbn; lia.
Qed.


End pipeline_properties.

(* ===================================================================== *)
(** * Properties: rounding, sums and extremes *)
(* ===================================================================== *)

Lemma round_mono x y : (x <= y)%Q → Py.round x ≤ Py.round y.
Proof.
  intros Hxy.
  assert (Hf : Qfloor x ≤ Qfloor y) by (by apply Qfloor_resp_le).
  destruct (Z.eq_dec (Qfloor x) (Qfloor y)) as [E|N].
  - unfold Py.round. rewrite <- E.
    assert (Hd : (x - inject_Z (Qfloor x) <= y - inject_Z (Qfloor x))%Q) by lra.
    destruct (Qcompare_spec (x - inject_Z (Qfloor x)) (1 # 2)) as [Ex|Lx|Gx];
      destruct (Qcompare_spec (y - inject_Z (Qfloor x)) (1 # 2)) as [Ey|Ly|Gy];
      try destruct (Z.even (Qfloor x)); try lia; try lra.
  - pose proof (round_upper x). pose proof (round_lower y). lia.
Qed.

Lemma round_n_mono n x y : (x <= y)%Q → (Py.round_n n x <= Py.round_n n y)%Q.
Proof.
  intros Hxy. unfold Py.round_n.
  assert (Hp : (0 < inject_Z (10 ^ Z.of_nat n))%Q).
  { change 0%Q with (inject_Z 0). rewrite <- Zlt_Qlt. lia. }
  apply Qmult_le_compat_r.
  - rewrite <- Zle_Qle. apply round_mono. by apply Qmult_le_compat_r; [|apply Qlt_le_weak].
  - apply Qlt_le_weak, Qinv_lt_0_compat, Hp.
Qed.

(** Sums, minima and maxima of lists of numbers. *)
Lemma fold_left_Qplus l a : (fold_left Qplus l a == a + fold_left Qplus l 0)%Q.
Proof.
  revert a. induction l as [|x l IH]; intros a; simpl; [lra|].
  rewrite (IH (a + x)%Q), (IH (0 + x)%Q). lra.
Qed.

Lemma sum_cons x l : (Py.sum (x :: l) == x + Py.sum l)%Q.
Proof. unfold Py.sum. simpl. rewrite fold_left_Qplus. lra. Qed.












(** The mean of a non-empty list lies between its minimum and maximum. *)
Lemma sum_bounds (lo hi : Q) l :
  Forall (λ y, (lo <= y)%Q ∧ (y <= hi)%Q) l →
  (lo * Py.len l <= Py.sum l)%Q ∧ (Py.sum l <= hi * Py.len l)%Q.
Proof.
  induction 1 as [|x l [Hlo Hhi] _ [IH1 IH2]].
  - unfold Py.len, Py.sum. cbn [length fold_left Z.of_nat]. change (inject_Z 0) with 0%Q.
    split; [rewrite Qmult_0_r|rewrite Qmult_0_r]; apply Qle_refl.
  - rewrite sum_cons. unfold Py.len in *. cbn [length].
    rewrite Nat2Z.inj_succ, <- Z.add_1_r, inject_Z_plus.
    set (n := inject_Z (Z.of_nat (length l))) in *. change (inject_Z 1) with 1%Q.
    split; nra.
Qed.

Lemma len_pos {A} (x : A) l : (0 < Py.len (x :: l))%Q.
Proof.
  unfold Py.len. change 0%Q with (inject_Z 0). rewrite <- Zlt_Qlt. simpl. lia.
Qed.

Lemma mean_bounds (lo hi : Q) x l :
  Forall (λ y, (lo <= y)%Q ∧ (y <= hi)%Q) (x :: l) →
  (lo <= Py.sum (x :: l) / Py.len (x :: l))%Q ∧ (Py.sum (x :: l) / Py.len (x :: l) <= hi)%Q.
Proof.
  intros Hall. destruct (sum_bounds _ _ _ Hall) as [H1 H2].
  pose proof (len_pos x l) as Hp. split.
  - apply Qle_shift_div_l; [done|lra].
  - apply Qle_shift_div_r; [done|lra].
Qed.


(* ===================================================================== *)
(** * Properties: the Analyzer *)
(* ===================================================================== *)

(** ** Distinct labels and the consistency of a list of labels *)

Lemma len_set_le l : (Py.len_set l ≤ length l)%nat.
Proof.
  unfold Py.len_set. induction l as [|x l IH]; simpl; [done|].
  destruct (decide_rel _ _ _); simpl; lia.
Qed.

Lemma len_set_pos x l : (1 ≤ Py.len_set (x :: l))%nat.
Proof.
  unfold Py.len_set.
  assert (Hx : x ∈ remove_dups (x :: l)) by (apply elem_of_remove_dups; set_solver).
  destruct (remove_dups (x :: l)); [by apply elem_of_nil in Hx|simpl; lia].
Qed.


Lemma len_set_one l : Py.len_set l = 1%nat ↔ l ≠ [] ∧ ∃ x, Forall (λ y, y = x) l.
Proof.
  split.
  - intros H1. unfold Py.len_set in H1.
    destruct (remove_dups l) as [|x [|]] eqn:E; simplify_eq/=.
    split; [by intros ->|]. exists x. apply Forall_forall. intros y Hy.
    apply elem_of_remove_dups in Hy. rewrite E in Hy. set_solver.
  - intros [Hne [x Hall]].
    assert (E : replicate (length l) x = l).
    { apply replicate_as_Forall. split; [done|]. eapply Forall_impl; [exact Hall|]. by intros. }
    rewrite <- E. destruct (length l) eqn:El; [by destruct l|]. apply len_set_replicate.
Qed.

(** The consistency of a list of labels. *)
Lemma label_consistency_bounds l :
  (0 <= SleepAnalyzer.label_consistency l)%Q ∧ (SleepAnalyzer.label_consistency l <= 1)%Q.
Proof.
  unfold SleepAnalyzer.label_consistency. destruct l as [|x l]; [lra|].
  split; [apply Q.le_max_l|]. apply Q.max_lub; [lra|].
  destruct (1 <? length (x :: l))%nat; [|lra].
  pose proof (len_set_pos x l) as Hu. pose proof (len_pos x l) as Hn.
  assert (0 <= (inject_Z (Z.of_nat (Py.len_set (x :: l))) - 1) / Py.len (x :: l))%Q; [|lra].
  apply Qle_shift_div_l; [done|].
  assert (inject_Z 1 <= inject_Z (Z.of_nat (Py.len_set (x :: l))))%Q
    by (rewrite <- Zle_Qle; lia).
  change (inject_Z 1) with 1%Q in *. lra.
Qed.

Lemma label_consistency_one l :
  l ≠ [] →
  (SleepAnalyzer.label_consistency l == 1)%Q ↔ ∃ x, Forall (λ y, y = x) l.
Proof.
  intros Hne. destruct l as [|x l]; [done|]. unfold SleepAnalyzer.label_consistency.
  pose proof (len_set_pos x l) as Hu. pose proof (len_set_le (x :: l)) as Hle.
  pose proof (len_pos x l) as Hn.
  assert (Hone : Py.len_set (x :: l) = 1%nat ↔ ∃ x0, Forall (λ y, y = x0) (x :: l)).
  { rewrite len_set_one. naive_solver. }
  rewrite <- Hone. clear Hone.
  destruct (1 <? length (x :: l))%nat eqn:E.
  - set (u := Py.len_set (x :: l)) in *.
    assert (Hq : ((inject_Z (Z.of_nat u) - 1) / Py.len (x :: l) == 0)%Q ↔ u = 1%nat).
    { split.
      - intros Hz. assert (Hz' : (inject_Z (Z.of_nat u) - 1 == 0)%Q).
        { rewrite <- (Qmult_div_r (inject_Z (Z.of_nat u) - 1) (Py.len (x :: l))) by lra.
          rewrite Hz. lra. }
        assert (inject_Z (Z.of_nat u) == inject_Z 1)%Q by (change (inject_Z 1) with 1%Q; lra).
        rewrite inject_Z_injective in H. lia.
      - intros Hu1. rewrite Hu1.
        assert (E1 : (inject_Z (Z.of_nat 1) - 1 == 0)%Q) by reflexivity.
        unfold Qdiv. rewrite E1. apply Qmult_0_l. }
    rewrite <- Hq.
    assert (Hnn : (0 <= (inject_Z (Z.of_nat u) - 1) / Py.len (x :: l))%Q).
    { apply Qle_shift_div_l; [done|].
      assert (inject_Z 1 <= inject_Z (Z.of_nat u))%Q by (rewrite <- Zle_Qle; lia).
      change (inject_Z 1) with 1%Q in *. lra. }
    assert (Hle1 : ((inject_Z (Z.of_nat u) - 1) / Py.len (x :: l) <= 1)%Q).
    { apply Qle_shift_div_r; [done|]. unfold Py.len.
      assert (inject_Z (Z.of_nat u) <= inject_Z (Z.of_nat (length (x :: l))))%Q
        by (rewrite <- Zle_Qle; lia). lra. }
    rewrite Q.max_r by lra. split; lra.
  - apply Nat.ltb_ge in E. rewrite Q.max_r by lra. split; [intros _; lia|reflexivity].
Qed.

(** ** Counting and rounding *)

Lemma round_inject_Z k : Py.round (inject_Z k) = k.
Proof.
  apply Z.le_antisymm; [apply round_le_int|apply round_ge_int]; apply Qle_refl.
Qed.

Lemma round_n_inject_Z n k : (Py.round_n n (inject_Z k) == inject_Z k)%Q.
Proof.
  unfold Py.round_n. rewrite <- inject_Z_mult, round_inject_Z, inject_Z_mult.
  assert (Hp : (0 < inject_Z (10 ^ Z.of_nat n))%Q).
  { change 0%Q with (inject_Z 0). rewrite <- Zlt_Qlt. lia. }
  field. lra.
Qed.

Lemma round_n_between n (lo hi : Z) x :
  (inject_Z lo <= x)%Q → (x <= inject_Z hi)%Q →
  (inject_Z lo <= Py.round_n n x)%Q ∧ (Py.round_n n x <= inject_Z hi)%Q.
Proof.
  intros Hlo Hhi. split.
  - rewrite <- (round_n_inject_Z n lo). by apply round_n_mono.
  - rewrite <- (round_n_inject_Z n hi). by apply round_n_mono.
Qed.





(** ** The Analyzer's statistics *)

(** X1.  The consistency analysis always yields its dict, and its three
    consistency values lie between 0 and 1.  Before rounding, the
    consistency of a non-empty list of labels is 1 exactly when all its
    labels are the same. *)
Theorem analyze_consistency_range :
  (∀ sessions,
     ∃ c, SleepAnalyzer._analyze_consistency sessions = Dict c
       ∧ (0 <= bedtime_consistency c <= 1)%Q
       ∧ (0 <= waketime_consistency c <= 1)%Q
       ∧ (0 <= overall_consistency c <= 1)%Q)
  ∧ (∀ labels, labels ≠ [] →
       (SleepAnalyzer.label_consistency labels == 1)%Q ↔ ∃ x, Forall (λ y, y = x) labels).
Proof.
  split; [|apply label_consistency_one]. intros sessions.
  eexists. split; [reflexivity|]. cbn.
  pose proof (label_consistency_bounds (truthy_strs bedtime sessions)) as [Hb0 Hb1].
  pose proof (label_consistency_bounds (truthy_strs waketime sessions)) as [Hw0 Hw1].
  split; [by apply (round_n_between 2 0 1)|].
  split; [by apply (round_n_between 2 0 1)|].
  destruct (truthy_strs bedtime sessions), (truthy_strs waketime sessions); try lra.
  apply (round_n_between 2 0 1).
  - change (inject_Z 0) with 0%Q. apply Qle_shift_div_l; lra.
  - change (inject_Z 1) with 1%Q. apply Qle_shift_div_r; lra.
Qed.



Lemma interrupted_le_total l :
  (count_if (λ s, (0 <? length (get_interruptions s))%nat) l
   ≤ sum_list (map (λ s, length (get_interruptions s)) l))%nat.
Proof.
  unfold count_if. induction l as [|s l IH]; [done|].
  cbn [map List.filter sum_list_with]. unfold id at 1.
  destruct (0 <? length (get_interruptions s))%nat eqn:E; cbn [length].
  - apply Nat.ltb_lt in E. lia.
  - lia.
Qed.

Lemma ratio_mono (a b : nat) (n : Q) :
  (a ≤ b)%nat → (0 < n)%Q →
  (inject_Z (Z.of_nat a) / n <= inject_Z (Z.of_nat b) / n)%Q.
Proof.
  intros Hab Hn. apply Qmult_le_compat_r.
  - rewrite <- Zle_Qle. lia.
  - by apply Qlt_le_weak, Qinv_lt_0_compat.
Qed.

(** X4.  The interruption analysis counts no more interrupted sessions
    than interruptions or sessions, its interruption rate lies between 0
    and 1, and the rate is at most the average number of interruptions per
    session. *)
Theorem analyze_interruptions_coherent sessions :
  ∃ i, SleepAnalyzer._analyze_interruptions sessions = Dict i
    ∧ (sessions_with_interruptions i ≤ total_interruptions i)%nat
    ∧ (sessions_with_interruptions i ≤ length sessions)%nat
    ∧ (0 <= interruption_rate i <= 1)%Q
    ∧ (interruption_rate i <= average_per_session i)%Q.
Proof.
  eexists. split; [reflexivity|].
  cbn [sessions_with_interruptions total_interruptions interruption_rate average_per_session].
  split; [apply interrupted_le_total|]. split; [apply count_if_le|].
  destruct sessions as [|s l]; [split; [lra|]; by vm_compute|].
  set (c := count_if _ _). set (t := sum_list _).
  assert (Hc : (c ≤ S (length l))%nat) by apply (count_if_le _ (s :: l)).
  destruct (ratio_bounds c (length l) Hc) as [H0 H1].
  split; [by apply (round_n_between 2 0 1)|].
  apply round_n_mono, ratio_mono; [apply interrupted_le_total|apply len_pos].
Qed.

(** ** The analysis does not depend on the order of the sessions *)














Section analysis_order.
Context `{Platform}.




End analysis_order.

(* ===================================================================== *)
(** * Properties: the Scorer, continued *)
(* ===================================================================== *)


Lemma duration_points_range m :
  (0 <= SleepScorer.duration_points m)%Q ∧ (SleepScorer.duration_points m <= 100)%Q.
Proof.
  unfold SleepScorer.duration_points, Config.OPTIMAL_SLEEP_DURATION_MIN,
    Config.OPTIMAL_SLEEP_DURATION_MAX, Config.MAX_SLEEP_DURATION.
  destruct (Py.le 7 m && Py.le m 9) eqn:E1; [lra|].
  destruct (Py.lt m 7) eqn:E2.
  - apply Py_lt_true in E2. split; [apply Q.le_max_l|]. apply Q.max_lub; [lra|].
    assert (Hx : (m / 7 * 100 == m * (100 # 7))%Q) by field. rewrite Hx. lra.
  - apply Py_lt_false in E2.
    assert (E3 : Py.le 7 m = true) by (by apply Py_le_true).
    rewrite E3 in E1. simpl in E1. apply Py_le_false in E1.
    change (Py.lt 0 (16 - 9)) with true. cbv iota.
    split; [apply Q.le_max_l|]. apply Q.max_lub; [lra|].
    assert (Hx : ((1 - (m - 9) / (16 - 9)) * 100 == (16 - m) * (100 # 7))%Q) by field.
    rewrite Hx. lra.
Qed.




Lemma interruption_points_range avg :
  (0 <= interruption_points avg)%Q ∧ (interruption_points avg <= 100)%Q.
Proof.
  unfold interruption_points.
  destruct (Py.eq avg 0); [lra|]. destruct (Py.le avg 1); [lra|].
  destruct (Py.le avg 2); [lra|]. destruct (Py.le avg 3) eqn:E; [lra|].
  apply Py_le_false in E. split; [apply Q.le_max_l|]. apply Q.max_lub; lra.
Qed.

Lemma Py_eq_true x y : Py.eq x y = true ↔ (x == y)%Q.
Proof. apply Qeq_bool_iff. Qed.



Lemma interruption_points_antitone a b :
  (0 <= a)%Q → (a <= b)%Q → (interruption_points b <= interruption_points a)%Q.
Proof.
  intros H0 Hab. unfold interruption_points.
  destruct (Py.eq a 0) eqn:Ea0.
  { destruct (interruption_points_range b) as [_ Hb]. exact Hb. }
  assert (Ha : ¬ (a == 0)%Q) by (rewrite <- Py_eq_true, Ea0; done).
  destruct (Py.eq b 0) eqn:Eb0.
  { apply Py_eq_true in Eb0. exfalso. apply Ha. lra. }
  destruct (Py.le a 1) eqn:Ea1, (Py.le b 1) eqn:Eb1,
           (Py.le a 2) eqn:Ea2, (Py.le b 2) eqn:Eb2,
           (Py.le a 3) eqn:Ea3, (Py.le b 3) eqn:Eb3;
    repeat match goal with
           | H : Py.le _ _ = true |- _ => apply Py_le_true in H
           | H : Py.le _ _ = false |- _ => apply Py_le_false in H
           end;
    try lra; try (apply Q.max_lub; lra).
  apply Q.max_le_compat_l. lra.
Qed.

Lemma score_interruptions_points sessions an :
  SleepScorer._score_interruptions sessions an
  = interruption_points
      match SleepScorer.analysis_key an interruption_analysis with
      | Some i => match i with Dict i => average_per_session i | EmptyDict => 0%Q end
      | None =>
        match sessions with
        | [] => 0%Q
        | _ => (inject_Z (Z.of_nat (sum_list (map (λ s, length (get_interruptions s))
                                                sessions)))
                / Py.len sessions)%Q
        end
      end.
Proof. reflexivity. Qed.

(** X6.  The interruption sub-score read from an analysis lies between 0
    and 100 and never rises with the average number of interruptions per
    session. *)
Theorem score_interruptions_antitone sessions a a' i i' :
  interruption_analysis a = Some (Dict i) →
  interruption_analysis a' = Some (Dict i') →
  (0 <= average_per_session i)%Q →
  (average_per_session i <= average_per_session i')%Q →
  (0 <= SleepScorer._score_interruptions sessions (Some a'))%Q
  ∧ (SleepScorer._score_interruptions sessions (Some a')
     <= SleepScorer._score_interruptions sessions (Some a))%Q
  ∧ (SleepScorer._score_interruptions sessions (Some a) <= 100)%Q.
Proof.
  intros E E' H0 Hle. rewrite !score_interruptions_points. cbn [SleepScorer.analysis_key].
  rewrite E, E'. split; [apply interruption_points_range|].
  split; [by apply interruption_points_antitone|apply interruption_points_range].
Qed.

(** ** The range of the score *)


Lemma truthy_nums_Forall (P : Q → Prop) f l :
  Forall (λ s, ∀ q, f s = Some q → P q) l → Forall P (truthy_nums f l).
Proof.
  unfold truthy_nums. induction 1 as [|s l Hs _ IH]; [constructor|].
  cbn [omap list_omap]. destruct (f s) as [q|] eqn:E; [|done].
  destruct (negb _); [|done]. constructor; auto.
Qed.

Lemma efficiency_mean_range sessions x l :
  Forall efficiency_in_range sessions →
  truthy_nums efficiency_score sessions = x :: l →
  (0 <= Py.sum (x :: l) / Py.len (x :: l))%Q ∧ (Py.sum (x :: l) / Py.len (x :: l) <= 100)%Q.
Proof.
  intros Hall E. apply (mean_bounds 0 100). rewrite <- E.
  by apply (truthy_nums_Forall (λ q, (0 <= q <= 100)%Q)).
Qed.

Lemma fallback_consistency_range (l : list string) x k :
  l = x :: k →
  let c := if (1 <? length l)%nat
           then (1 - (inject_Z (Z.of_nat (Py.len_set l)) - 1) / Py.len l)%Q else 1%Q in
  (0 <= c)%Q ∧ (c <= 1)%Q.
Proof.
  intros -> c. subst c. destruct (1 <? _)%nat; [|lra].
  pose proof (len_set_pos x k) as Hu. pose proof (len_set_le (x :: k)) as Hle.
  pose proof (len_pos x k) as Hn.
  assert (H1 : (0 <= (inject_Z (Z.of_nat (Py.len_set (x :: k))) - 1) / Py.len (x :: k))%Q).
  { apply Qle_shift_div_l; [done|].
    assert (inject_Z 1 <= inject_Z (Z.of_nat (Py.len_set (x :: k))))%Q
      by (rewrite <- Zle_Qle; lia).
    change (inject_Z 1) with 1%Q in *. lra. }
  assert (H2 : ((inject_Z (Z.of_nat (Py.len_set (x :: k))) - 1) / Py.len (x :: k) <= 1)%Q).
  { apply Qle_shift_div_r; [done|]. unfold Py.len.
    assert (inject_Z (Z.of_nat (Py.len_set (x :: k)))
            <= inject_Z (Z.of_nat (length (x :: k))))%Q by (rewrite <- Zle_Qle; lia).
    lra. }
  lra.
Qed.

Lemma sub_scores_range sessions an :
  Forall efficiency_in_range sessions →
  (∀ a, an = Some a → stats_in_range a) →
  (0 <= SleepScorer._score_duration sessions an <= 100)%Q
  ∧ (0 <= SleepScorer._score_consistency sessions an <= 100)%Q
  ∧ (0 <= SleepScorer._score_efficiency sessions an <= 100)%Q
  ∧ (0 <= SleepScorer._score_interruptions sessions an <= 100)%Q.
Proof.
  intros Hs Han. split; [|split; [|split]].
  - unfold SleepScorer._score_duration.
    destruct (SleepScorer.analysis_key _ _); [apply duration_points_range|].
    destruct (truthy_nums _ _); [lra|apply duration_points_range].
  - unfold SleepScorer._score_consistency.
    destruct (SleepScorer.analysis_key _ _) as [[|c]|] eqn:E.
    + lra.
    + destruct an as [a|]; [|done]. destruct (Han a eq_refl) as [Hc _].
      specialize (Hc c E). lra.
    + destruct (truthy_strs bedtime sessions) as [|b bs] eqn:Eb; [lra|].
      destruct (truthy_strs waketime sessions) as [|v vs] eqn:Ev; [lra|].
      pose proof (fallback_consistency_range (b :: bs) b bs eq_refl) as Hb.
      pose proof (fallback_consistency_range (v :: vs) v vs eq_refl) as Hv.
      cbv zeta in Hb, Hv.
      set (cb := if (1 <? length (b :: bs))%nat then _ else _) in *.
      set (cv := if (1 <? length (v :: vs))%nat then _ else _) in *.
      assert (E2 : ((cb + cv) / 2 * 100 == (cb + cv) * 50)%Q) by field.
      rewrite E2. lra.
  - unfold SleepScorer._score_efficiency.
    destruct (SleepScorer.analysis_key _ _) as [[|e]|] eqn:E.
    + lra.
    + destruct an as [a|]; [|done]. destruct (Han a eq_refl) as [_ He]. exact (He e E).
    + destruct (truthy_nums efficiency_score sessions) as [|x l] eqn:El; [lra|].
      by eapply efficiency_mean_range.
  - rewrite score_interruptions_points. apply interruption_points_range.
Qed.

Lemma overall_consistency_bounds sessions c :
  SleepAnalyzer._analyze_consistency sessions = Dict c →
  (0 <= overall_consistency c <= 1)%Q.
Proof.
  intros [= <-]. cbn [overall_consistency].
  pose proof (label_consistency_bounds (truthy_strs bedtime sessions)) as [Hb0 Hb1].
  pose proof (label_consistency_bounds (truthy_strs waketime sessions)) as [Hw0 Hw1].
  destruct (truthy_strs bedtime sessions), (truthy_strs waketime sessions); try lra.
  apply (round_n_between 2 0 1).
  - change (inject_Z 0) with 0%Q. apply Qle_shift_div_l; lra.
  - change (inject_Z 1) with 1%Q. apply Qle_shift_div_r; lra.
Qed.

Section score_range.
Context `{Platform}.

Lemma analyze_stats_in_range sessions p :
  Forall efficiency_in_range sessions → stats_in_range (SleepAnalyzer.analyze sessions p).
Proof.
  intros Hs. unfold SleepAnalyzer.analyze. destruct sessions as [|s0 l0]; [by split|].
  split; cbn [consistency_analysis efficiency_analysis].
  - intros c Hc. apply (overall_consistency_bounds (s0 :: l0)). congruence.
  - intros e. unfold SleepAnalyzer._analyze_efficiency.
    destruct (truthy_nums efficiency_score (s0 :: l0)) as [|x l] eqn:El; [done|].
    intros [= <-]. cbn [eff_average]. apply (round_n_between 2 0 100);
      by eapply efficiency_mean_range.
Qed.

Lemma enhance_stats_in_range a trends patterns :
  stats_in_range a → stats_in_range (Nodes.enhance_analysis a trends patterns).
Proof. intros [H1 H2]. split; [exact H1|exact H2]. Qed.

(** X7.  When every efficiency score involved is a percentage, the sleep
    score and the four parts of its breakdown lie between 0 and 100,
    whether the score is computed without an analysis, from the Analyzer's
    analysis, or from that analysis as the reasoning stage extends it. *)
Theorem sleep_score_range sessions analysed p trends patterns an :
  Forall efficiency_in_range sessions →
  Forall efficiency_in_range analysed →
  an = None ∨ an = Some (SleepAnalyzer.analyze analysed p)
  ∨ an = Some (Nodes.enhance_analysis (SleepAnalyzer.analyze analysed p) trends patterns) →
  let r := SleepScorer.calculate_score sessions an in
  0 ≤ sleep_score r ≤ 100
  ∧ ∀ bd, score_breakdown r = Some bd →
      (0 <= duration_score bd <= 100)%Q ∧ (0 <= consistency_score bd <= 100)%Q
      ∧ (0 <= efficiency_score_part bd <= 100)%Q ∧ (0 <= interruption_score bd <= 100)%Q.
Proof.
  intros Hs Ha Han r. subst r.
  assert (Hstats : ∀ a, an = Some a → stats_in_range a).
  { intros a ->. destruct Han as [?|[[= ->]|[= ->]]]; [done| |].
    - by apply analyze_stats_in_range.
    - by apply enhance_stats_in_range, analyze_stats_in_range. }
  destruct (sub_scores_range sessions an Hs Hstats) as (Hd & Hc & He & Hi).
  unfold SleepScorer.calculate_score. destruct sessions as [|s0 l0]; [by cbn|].
  cbn [sleep_score score_breakdown]. split.
  - split.
    + apply round_ge_int. change (inject_Z 0) with 0%Q. lra.
    + apply round_le_int. change (inject_Z 100) with 100%Q. lra.
  - intros bd [= <-].
    cbn [duration_score consistency_score efficiency_score_part interruption_score].
    repeat split; apply (round_n_between 1 0 100); tauto.
Qed.

End score_range.

(** ** The score does not depend on the order of the sessions *)







(** ** When the confidence is full *)

Lemma count_if_all {A} (P : A → bool) l :
  Forall (λ x, P x = true) l → count_if P l = length l.
Proof.
  unfold count_if. induction 1 as [|x l Hx _ IH]; [done|]. cbn [List.filter].
  rewrite Hx. cbn [length]. by rewrite IH.
Qed.

Lemma count_if_none {A} (P : A → bool) l :
  Forall (λ x, P x = false) l → count_if P l = 0%nat.
Proof.
  unfold count_if. induction 1 as [|x l Hx _ IH]; [done|]. cbn [List.filter].
  by rewrite Hx.
Qed.

Lemma Qeq_eq_round_n n x y : (x == y)%Q → (Py.round_n n x == Py.round_n n y)%Q.
Proof. intros E. by rewrite (round_n_proper n x y E). Qed.

(** X9.  Seven or more sessions that are all complete and all carry an
    efficiency score give confidence 1; sessions none of which carries an
    efficiency score give a confidence of at most 0.8. *)
Theorem confidence_saturation sessions an :
  (Forall (λ s, is_complete s = true) sessions →
   Forall (λ s, Py.truthy_num (efficiency_score s) = true) sessions →
   (7 ≤ length sessions)%nat →
   (confidence (SleepScorer.calculate_score sessions an) == 1)%Q)
  ∧ (Forall (λ s, Py.truthy_num (efficiency_score s) = false) sessions →
     (confidence (SleepScorer.calculate_score sessions an) <= 8 # 10)%Q).
Proof.
  unfold SleepScorer.calculate_score. destruct sessions as [|s0 l0].
  { split; [cbn; lia|intros _; by vm_compute]. }
  cbn [confidence]. unfold SleepScorer._calculate_confidence.
  pose proof (len_pos s0 l0) as Hn.
  set (n := Py.len (s0 :: l0)) in *.
  split.
  - intros Hc He H7.
    change (λ s, Py.truthy_num (duration_hours s) && Py.truthy_str (bedtime s)
                 && Py.truthy_str (waketime s)) with is_complete.
    rewrite (count_if_all _ _ Hc), (count_if_all _ _ He).
    change (inject_Z (Z.of_nat (length (s0 :: l0)))) with n.
    assert (H7' : (7 <= n)%Q).
    { unfold n, Py.len. change 7%Q with (inject_Z 7). rewrite <- Zle_Qle. lia. }
    assert (E1 : (n / n == 1)%Q) by (field; lra).
    assert (E2 : (Qmin 1 (n / 7) == 1)%Q).
    { apply Q.min_l. apply Qle_shift_div_l; lra. }
    eapply Qeq_trans; [apply Qeq_eq_round_n|exact (round_n_inject_Z 2 1)].
    rewrite E1, E2. change (inject_Z 1) with 1%Q.
    rewrite Q.max_r by lra. apply Q.min_l. lra.
  - intros He. rewrite (count_if_none _ _ He).
    set (c := count_if _ _).
    assert (Hc : (c ≤ S (length l0))%nat) by apply (count_if_le _ (s0 :: l0)).
    destruct (ratio_bounds c (length l0) Hc) as [H0 H1].
    change (inject_Z (Z.of_nat (S (length l0)))) with n in H0, H1.
    assert (Hm : (Qmin 1 (n / 7) <= 1)%Q) by apply Q.le_min_l.
    assert (E80 : (Py.round_n 2 (8 # 10) == 8 # 10)%Q) by reflexivity.
    rewrite <- E80. apply round_n_mono.
    eapply Qle_trans; [apply Q.le_min_r|]. apply Q.max_lub; [lra|].
    change (inject_Z (Z.of_nat 0)) with 0%Q.
    assert (E0 : (0 / n == 0)%Q) by (unfold Qdiv; apply Qmult_0_l).
    rewrite E0. lra.
Qed.

(* ===================================================================== *)
(** * Properties: the short-term memory, continued *)
(* ===================================================================== *)


Section stm_more.
Context `{Platform}.
Import ShortTermMemory.

Lemma datetime_lt_date_us s t b :
  datetime_lt (sort_key s) (sort_key t) = Some b →
  if b then date_us s < date_us t else date_us t ≤ date_us s.
Proof.
  unfold date_us. destruct (sort_key s), (sort_key t); cbn; intros [= <-];
    destruct (_ <? _) eqn:E; (apply Z.ltb_lt in E || apply Z.ltb_ge in E); lia.
Qed.

Lemma insert_newest_first_sorted s l r :
  insert_newest_first s l = Some r → newest_first l → newest_first r.
Proof.
  revert r. induction l as [|t rest IH]; intros r Hr Hl; cbn in Hr.
  - injection Hr as <-. by cbn.
  - destruct (datetime_lt (sort_key s) (sort_key t)) as [older|] eqn:Hlt; [|done].
    apply datetime_lt_date_us in Hlt. cbn in Hr. destruct Hl as [Ht Hrest].
    destruct older.
    + destruct (insert_newest_first s rest) as [rest'|] eqn:Hi; [|done]. cbn in Hr.
      injection Hr as <-. cbn. split; [|by apply IH].
      apply insert_newest_first_perm in Hi. rewrite Hi. constructor; [lia|done].
    + injection Hr as <-. cbn. split; [|done]. constructor; [done|].
      eapply Forall_impl; [exact Ht|]. cbn. intros; lia.
Qed.

Lemma sort_newest_first_sorted l r : sort_newest_first l = Some r → newest_first r.
Proof.
  revert r. induction l as [|s l IH]; intros r Hr; cbn in Hr.
  - by injection Hr as <-.
  - destruct (sort_newest_first l) as [r'|]; [|done]. cbn in Hr.
    eapply insert_newest_first_sorted; [exact Hr|by apply IH].
Qed.

Lemma naive_dated_sort_key s : naive_dated s → sort_key s = Naive (date_us s).
Proof. intros [d Hd]. unfold date_us, sort_key. by rewrite Hd. Qed.

Lemma sort_newest_first_fixed l :
  newest_first l → Forall naive_dated l → sort_newest_first l = Some l.
Proof.
  induction l as [|s l IH]; [done|]. intros [Hs Hl] [Hns Hnl]%Forall_cons. cbn.
  rewrite (IH Hl Hnl). cbn. destruct l as [|t rest]; [done|]. cbn.
  apply Forall_cons in Hs as [Hts _]. apply Forall_cons in Hnl as [Hnt _].
  rewrite (naive_dated_sort_key s), (naive_dated_sort_key t) by done. cbn.
  by rewrite (proj2 (Z.ltb_ge _ _)).
Qed.

Lemma newest_first_filter (P : session → Prop) `{∀ s, Decision (P s)} l :
  newest_first l → newest_first (filter P l).
Proof.
  induction l as [|s l IH]; [done|]. intros [Hs Hl]. rewrite filter_cons.
  destruct (decide (P s)); [|by apply IH]. cbn. split; [|by apply IH].
  apply Forall_forall. intros t [_ Ht]%list_elem_of_filter.
  rewrite Forall_forall in Hs. by apply Hs.
Qed.

Lemma filter_retention_cons c s rest :
  filter_retention c (s :: rest)
  = match _parse_session_date s with
    | None => filter_retention c rest
    | Some (Naive d) =>
      filtered ← filter_retention c rest;
      Some (if c <=? d then s :: filtered else filtered)
    | Some (Aware _) => None
    end.
Proof. reflexivity. Qed.

Lemma filter_retention_naive c l :
  Forall naive_dated l →
  filter_retention c l = Some (filter (λ s, in_window_b c s = true) l).
Proof.
  induction 1 as [|s l [d Hd] _ IH]; [done|]. rewrite filter_cons.
  rewrite filter_retention_cons, Hd, IH. cbn [mbind option_bind].
  destruct (decide (in_window_b c s = true)) as [E|E];
    unfold in_window_b in E; rewrite Hd in E; destruct (c <=? d); done.
Qed.

Lemma filter_in_window_all c l :
  Forall (in_window c) l → filter (λ s, in_window_b c s = true) l = l.
Proof.
  induction 1 as [|s l Hs _ IH]; [done|]. rewrite filter_cons.
  apply in_window_b_spec in Hs. destruct (decide _); [|done]. by rewrite IH.
Qed.

Lemma in_window_naive_dated c s : in_window c s → naive_dated s.
Proof. intros (d & Hd & _). by exists d. Qed.

(** A fresh key goes to the end of the dict. *)
Lemma dict_set_fresh {A} k (v : A) d : k ∉ d.*1 → dict_set k v d = d ++ [(k, v)].
Proof.
  induction d as [|[k' v'] d IH]; [done|]. cbn. intros Hk.
  apply not_elem_of_cons in Hk as [Hne Hk].
  destruct (String.eqb k' k) eqn:E; [apply String.eqb_eq in E; congruence|].
  by rewrite IH.
Qed.

Lemma merge_sessions_fresh m l :
  NoDup (session_key <$> l) →
  Forall (λ s, session_key s ∉ m.*1) l →
  merge_sessions m l = m ++ ((λ s, (session_key s, s)) <$> l).
Proof.
  revert m. induction l as [|s l IH]; intros m Hnd Hm.
  - cbn. by rewrite app_nil_r.
  - rewrite merge_sessions_cons. rewrite fmap_cons in Hnd.
    apply NoDup_cons in Hnd as [Hs Hnd]. apply Forall_cons in Hm as [Hsm Hm].
    rewrite dict_set_fresh by done. rewrite IH; [by rewrite <- app_assoc|done|].
    apply Forall_forall. intros t Ht. rewrite fmap_app. cbn.
    rewrite Forall_forall in Hm. intros [Hin|Hin%list_elem_of_singleton]%elem_of_app.
    + by apply (Hm t).
    + apply Hs. rewrite <- Hin. by apply list_elem_of_fmap_2.
Qed.

Lemma merge_sessions_distinct l :
  NoDup (session_key <$> l) → dict_values (merge_sessions [] l) = l.
Proof.
  intros Hnd. rewrite merge_sessions_fresh; [|done|].
  - cbn [app]. unfold dict_values. clear Hnd.
    induction l as [|s l IH]; [done|]. cbn. by rewrite IH.
  - apply Forall_forall. intros s _. cbn. apply not_elem_of_nil.
Qed.

Lemma build_stm_data_inv now existing l d :
  build_stm_data now existing l = Some d →
  ∃ f, minus_days now retention_days = Some (now - retention_days * 86400000000)
     ∧ filter_retention (now - retention_days * 86400000000)
         (dict_values (merge_sessions (merge_sessions [] existing) l)) = Some f
     ∧ sort_newest_first f = Some (doc_sessions d)
     ∧ doc_count d = length (doc_sessions d)
     ∧ doc_last_updated d = now.
Proof.
  unfold build_stm_data. intros Hd.
  destruct (minus_days now retention_days) as [cutoff|] eqn:Hc; [|done]. cbn in Hd.
  assert (cutoff = now - retention_days * 86400000000) as ->.
  { unfold minus_days in Hc. destruct (_ && _); [|done]. by injection Hc as <-. }
  destruct (filter_retention _ _) as [f|] eqn:Hf; [|done]. cbn in Hd.
  destruct (sort_newest_first f) as [r|] eqn:Hr; [|done]. cbn in Hd.
  injection Hd as <-. by exists f.
Qed.

Lemma keyed_values_NoDup m : keyed m → NoDup (session_key <$> dict_values m).
Proof.
  intros [Hk Hnd]. assert (session_key <$> dict_values m = m.*1) as ->; [|done].
  unfold dict_values. clear Hnd. induction Hk as [|[k s] m Hks _ IH]; [done|].
  cbn in *. by rewrite IH, Hks.
Qed.

Lemma NoDup_fmap_filter {A B} (f : A → B) (P : A → Prop) `{∀ x, Decision (P x)} l :
  NoDup (f <$> l) → NoDup (f <$> filter P l).
Proof.
  intros Hnd. eapply sublist_NoDup; [exact Hnd|]. by apply fmap_sublist, sublist_filter.
Qed.

Lemma build_stm_data_tidy now existing l d :
  build_stm_data now existing l = Some d → tidy (doc_sessions d).
Proof.
  intros Hd. pose proof (build_stm_data_Some _ _ _ _ Hd) as [_ Hp].
  apply build_stm_data_inv in Hd as (f & _ & _ & Hsort & _).
  split; [|split].
  - rewrite Hp. apply NoDup_fmap_filter, keyed_values_NoDup.
    apply merge_sessions_keyed, merge_sessions_keyed, keyed_nil.
  - by eapply sort_newest_first_sorted.
  - rewrite Hp. apply Forall_forall. intros s [Hs _]%list_elem_of_filter.
    apply in_window_b_spec in Hs. by eapply in_window_naive_dated.
Qed.


Lemma tidy_nil : tidy [].
Proof. split; [constructor|split; [done|constructor]]. Qed.

Lemma save_sessions_all_tidy now u l w :
  all_tidy w → all_tidy (save_sessions now u l w).2.
Proof.
  intros Hw u'.
  destruct (save_sessions_unfold now u l w) as (w0 & Hs & _ & ->).
  destruct (build_stm_data _ _ _) as [d|] eqn:Hd; cbn [snd].
  - unfold stored_sessions, save_stm. cbn.
    destruct (decide (u' = u)) as [->|Hne].
    + rewrite lookup_insert_eq. by eapply build_stm_data_tidy.
    + rewrite lookup_insert_ne by done. rewrite Hs. apply Hw.
  - rewrite (stored_sessions_ext w w0) by done. apply Hw.
Qed.

Lemma stm_reachable_all_tidy w : stm_reachable w → all_tidy w.
Proof.
  induction 1 as [|now u l w _ IH|w w' _ IH E].
  - intros u. unfold stored_sessions. cbn. rewrite lookup_empty. apply tidy_nil.
  - by apply save_sessions_all_tidy.
  - intros u. rewrite (stored_sessions_ext w w') by done. apply IH.
Qed.

(** X10.  A save that reports success stores a document whose sessions
    have pairwise distinct keys and are sorted newest first, whose count is
    the length of that list and whose last_updated is the time of the
    call. *)
Theorem save_sessions_stores_tidy_list now u l w :
  (save_sessions now u l w).1 = true →
  ∃ d, stm_docs (save_sessions now u l w).2 !! u = Some d
     ∧ NoDup (session_key <$> doc_sessions d)
     ∧ newest_first (doc_sessions d)
     ∧ doc_count d = length (doc_sessions d)
     ∧ doc_last_updated d = now.
Proof.
  destruct (save_sessions_unfold now u l w) as (w0 & Hs & _ & ->).
  destruct (build_stm_data _ _ _) as [d|] eqn:Hd; [|done]. intros _.
  exists d. cbn. rewrite lookup_insert_eq.
  destruct (build_stm_data_tidy _ _ _ _ Hd) as (Hnd & Hsorted & _).
  apply build_stm_data_inv in Hd as (f & _ & _ & _ & Hcount & Hnow). done.
Qed.

Lemma elem_of_dict_values_get m s :
  keyed m → dict_get (session_key s) m = Some s → s ∈ dict_values m.
Proof.
  intros _. unfold dict_values. induction m as [|[k t] m IH]; [done|]. cbn.
  destruct (String.eqb k (session_key s)); [intros [= ->]; by left|].
  intros Hg. right. by apply IH.
Qed.

Lemma merge_sessions_get_stored existing s :
  NoDup (session_key <$> existing) → s ∈ existing →
  dict_get (session_key s) (merge_sessions [] existing) = Some s.
Proof.
  intros Hnd (pre & post & ->)%list_elem_of_split.
  apply merge_sessions_last_wins.
  rewrite fmap_app, fmap_cons in Hnd. apply NoDup_app in Hnd as (_ & _ & Hnd).
  apply NoDup_cons in Hnd as [Hs _]. apply Forall_forall. intros t Ht E.
  apply Hs. rewrite <- E. by apply list_elem_of_fmap_2.
Qed.

Lemma save_sessions_keeps now u l w s :
  NoDup (session_key <$> stored_sessions w u) →
  s ∈ stored_sessions w u →
  in_window (now - retention_days * 86400000000) s →
  Forall (λ t, session_key t ≠ session_key s) l →
  (save_sessions now u l w).1 = true →
  s ∈ stored_sessions (save_sessions now u l w).2 u.
Proof.
  intros Hnd Hin Hwin Hl.
  destruct (save_sessions_unfold now u l w) as (w0 & Hs & _ & ->).
  destruct (build_stm_data _ _ _) as [d|] eqn:Hd; [|done]. intros _.
  apply build_stm_data_Some in Hd as [_ Hp].
  unfold stored_sessions at 1, save_stm. cbn. rewrite lookup_insert_eq, Hp.
  apply list_elem_of_filter. split; [by apply in_window_b_spec|].
  apply elem_of_dict_values_get.
  { apply merge_sessions_keyed, merge_sessions_keyed, keyed_nil. }
  rewrite merge_sessions_get_other by done. by apply merge_sessions_get_stored.
Qed.

(** X11.  In a world the store can reach, a successful save keeps every
    stored session of the user that is still inside the retention window
    and whose key none of the new sessions has. *)
Theorem save_sessions_keeps_unexpired now u l w s :
  stm_reachable w →
  s ∈ stored_sessions w u →
  in_window (now - retention_days * 86400000000) s →
  Forall (λ t, session_key t ≠ session_key s) l →
  (save_sessions now u l w).1 = true →
  s ∈ stored_sessions (save_sessions now u l w).2 u.
Proof.
  intros Hw. apply save_sessions_keeps. by destruct (stm_reachable_all_tidy w Hw u).
Qed.

(** X12.  A save invents nothing: whatever is stored for a user after it
    was stored for that user before, or is one of the sessions supplied for
    that very user. *)
Theorem save_sessions_origin now u l w u' s :
  s ∈ stored_sessions (save_sessions now u l w).2 u' →
  s ∈ stored_sessions w u' ∨ (u' = u ∧ s ∈ l).
Proof.
  destruct (save_sessions_unfold now u l w) as (w0 & Hs & _ & ->).
  destruct (build_stm_data _ _ _) as [d|] eqn:Hd; cbn [snd].
  - apply build_stm_data_Some in Hd as [_ Hp].
    unfold stored_sessions at 1, save_stm. cbn.
    destruct (decide (u' = u)) as [->|Hne].
    + rewrite lookup_insert_eq, Hp. intros [_ Hin]%list_elem_of_filter.
      assert (Hall : Forall (λ t, t ∈ stored_sessions w u ∨ (u = u ∧ t ∈ l))
                       (dict_values (merge_sessions (merge_sessions [] (stored_sessions w u)) l))).
      { apply merge_sessions_Forall.
        - apply merge_sessions_Forall; [constructor|]. apply Forall_forall. auto.
        - apply Forall_forall. auto. }
      rewrite Forall_forall in Hall. by apply Hall.
    + rewrite lookup_insert_ne by done. intros Hin. left. unfold stored_sessions.
      by rewrite <- Hs.
  - rewrite (stored_sessions_ext w w0) by done. auto.
Qed.

Lemma build_stm_data_tidy_nil now existing c :
  tidy existing →
  minus_days now retention_days = Some c →
  build_stm_data now existing []
  = Some {| doc_sessions := filter (λ s, in_window_b c s = true) existing;
            doc_last_updated := now;
            doc_count := length (filter (λ s, in_window_b c s = true) existing) |}.
Proof.
  intros (Hnd & Hsorted & Hnaive) Hc. unfold build_stm_data. rewrite Hc. cbn [mbind option_bind].
  change (merge_sessions (merge_sessions [] existing) []) with (merge_sessions [] existing).
  rewrite merge_sessions_distinct by done.
  rewrite filter_retention_naive by done. cbn [mbind option_bind].
  rewrite sort_newest_first_fixed; [done|by apply newest_first_filter|].
  apply Forall_forall. intros s [_ Hs]%list_elem_of_filter.
  rewrite Forall_forall in Hnaive. by apply Hnaive.
Qed.

(** X13.  In a world the store can reach, and when the cut-off date is
    representable, clear_old_sessions succeeds and leaves the user exactly
    the stored sessions that are inside the retention window, in their
    stored order; other users' lists are untouched. *)
Theorem clear_old_sessions_exact now u w c :
  stm_reachable w →
  minus_days now retention_days = Some c →
  let r := clear_old_sessions now u w in
  r.1 = true
  ∧ stored_sessions r.2 u = filter (λ s, in_window_b c s = true) (stored_sessions w u)
  ∧ ∀ u', u' ≠ u → stored_sessions r.2 u' = stored_sessions w u'.
Proof.
  intros Hw Hc r. subst r. unfold clear_old_sessions.
  destruct (save_sessions_unfold now u [] w) as (w0 & Hs & _ & ->).
  rewrite (build_stm_data_tidy_nil now _ c) by (done || apply (stm_reachable_all_tidy w Hw)).
  cbn [fst snd]. split; [done|]. unfold stored_sessions, save_stm. cbn. split.
  - by rewrite lookup_insert_eq.
  - intros u' Hne. rewrite lookup_insert_ne by done. by rewrite Hs.
Qed.

(** ** Reading the recent sessions *)

Lemma get_recent_sessions_unfold now u days w :
  ∃ w0, stm_docs w0 = stm_docs w ∧ ltm_docs w0 = ltm_docs w
  ∧ get_recent_sessions now u days w
    = (cutoff_date ← minus_days now days;
       filter_retention cutoff_date (stored_sessions w u), w0).
Proof. eexists. split; [|split]; [| |reflexivity]; done. Qed.

(** X14.  In a world the store can reach, get_recent_sessions raises no
    exception when the cut-off date is representable: it returns the stored
    sessions dated at or after the cut-off, in their stored order, and
    changes no document. *)
Theorem get_recent_sessions_of_reachable now u days w c :
  stm_reachable w →
  minus_days now days = Some c →
  let r := get_recent_sessions now u days w in
  r.1 = Some (filter (λ s, in_window_b c s = true) (stored_sessions w u))
  ∧ stm_docs r.2 = stm_docs w ∧ ltm_docs r.2 = ltm_docs w.
Proof.
  intros Hw Hc r. subst r.
  destruct (get_recent_sessions_unfold now u days w) as (w0 & Hs & Hl & ->).
  cbn [fst snd]. rewrite Hc. cbn [mbind option_bind]. split; [|done].
  apply filter_retention_naive. by destruct (stm_reachable_all_tidy w Hw u) as (_ & _ & ?).
Qed.

Lemma in_window_weaken c c' s : c' ≤ c → in_window c s → in_window c' s.
Proof. intros Hle (d & Hd & Hc). exists d. split; [done|lia]. Qed.

(** X15.  Right after a successful save, asking at the same time for the
    sessions of the last [days] days, with [days] at least the retention
    period, returns the whole stored list. *)
Theorem get_recent_sessions_after_save now u l w days c :
  (save_sessions now u l w).1 = true →
  retention_days ≤ days →
  minus_days now days = Some c →
  (get_recent_sessions now u days (save_sessions now u l w).2).1
  = Some (stored_sessions (save_sessions now u l w).2 u).
Proof.
  intros Hok Hdays Hc.
  destruct (get_recent_sessions_unfold now u days (save_sessions now u l w).2)
    as (w0 & _ & _ & ->).
  cbn [fst]. rewrite Hc. cbn [mbind option_bind].
  set (stored := stored_sessions _ u).
  assert (Hall : Forall (in_window c) stored).
  { subst stored. revert Hok.
    destruct (save_sessions_unfold now u l w) as (w1 & Hs & _ & ->).
    destruct (build_stm_data _ _ _) as [d|] eqn:Hd; [|done]. intros _.
    apply build_stm_data_Some in Hd as [_ Hp].
    unfold stored_sessions, save_stm. cbn. rewrite lookup_insert_eq, Hp.
    apply Forall_forall. intros s [Hin _]%list_elem_of_filter.
    apply in_window_b_spec in Hin. eapply in_window_weaken; [|exact Hin].
    unfold minus_days in Hc. destruct (_ && _); [|done]. injection Hc as <-. nia. }
  rewrite filter_retention_naive.
  - by rewrite filter_in_window_all.
  - eapply Forall_impl; [exact Hall|]. apply in_window_naive_dated.
Qed.

End stm_more.

(* ===================================================================== *)
(** * Properties: the long-term memory, continued *)
(* ===================================================================== *)


(** ** The most common label *)

Lemma elem_of_List_filter {A} (P : A → bool) l x : x ∈ List.filter P l ↔ P x = true ∧ x ∈ l.
Proof.
  rewrite !list_elem_of_In, List.filter_In. tauto.
Qed.

Lemma elem_of_first_seen l x : x ∈ first_seen l ↔ x ∈ l.
Proof.
  induction l as [|y l IH]; [done|]. cbn. rewrite !elem_of_cons, elem_of_List_filter, IH.
  destruct (String.eqb x y) eqn:E.
  - apply String.eqb_eq in E. tauto.
  - apply String.eqb_neq in E. rewrite negb_true_iff. split; [tauto|].
    intros [?|?]; [tauto|]. by right.
Qed.

Lemma occurrences_zero x l : x ∉ l → occurrences x l = 0%nat.
Proof.
  unfold occurrences. induction l as [|y l IH]; [done|]. intros [Hne Hx]%not_elem_of_cons.
  cbn. destruct (String.eqb x y) eqn:E; [apply String.eqb_eq in E; done|]. by apply IH.
Qed.

Lemma most_common_fold l seen best :
  (match best with
   | Some b => ∀ x, x ∈ seen → (occurrences x l ≤ occurrences b l)%nat
   | None => seen = []
   end) →
  (∀ b, best = Some b → b ∈ seen) →
  ∀ rest,
  match fold_left (λ best x,
                     match best with
                     | None => Some x
                     | Some b =>
                       if (occurrences b l <? occurrences x l)%nat then Some x else Some b
                     end) rest best with
  | Some b => b ∈ seen ++ rest ∧ ∀ x, x ∈ seen ++ rest → (occurrences x l ≤ occurrences b l)%nat
  | None => seen ++ rest = []
  end.
Proof.
  intros Hbest Hin rest. revert seen best Hbest Hin.
  induction rest as [|y rest IH]; intros seen best Hbest Hin.
  - cbn. rewrite app_nil_r. destruct best as [b|]; [|done]. split; [by apply Hin|done].
  - cbn [fold_left].
    replace (seen ++ y :: rest) with ((seen ++ [y]) ++ rest) by (by rewrite <- app_assoc).
    apply IH.
    + destruct best as [b|].
      * destruct (occurrences b l <? occurrences y l)%nat eqn:E.
        -- apply Nat.ltb_lt in E.
           intros x [Hx|Hx%list_elem_of_singleton]%elem_of_app; [|subst x; lia].
           specialize (Hbest x Hx). lia.
        -- apply Nat.ltb_ge in E.
           intros x [Hx|Hx%list_elem_of_singleton]%elem_of_app; [|subst x; lia].
           by apply Hbest.
      * subst seen. intros x Hx%list_elem_of_singleton. subst x. lia.
    + intros b Hb. destruct best as [b0|].
      * destruct (_ <? _)%nat; injection Hb as <-; set_solver.
      * injection Hb as <-. set_solver.
Qed.

Lemma most_common_spec l :
  match most_common l with
  | Some b => b ∈ l ∧ ∀ x, (occurrences x l ≤ occurrences b l)%nat
  | None => l = []
  end.
Proof.
  unfold most_common.
  pose proof (most_common_fold l [] None eq_refl ltac:(done) (first_seen l)) as Hf.
  cbn [app] in Hf. destruct (fold_left _ _ _) as [b|].
  - destruct Hf as [Hb Hmax]. split; [by apply elem_of_first_seen|].
    intros x. destruct (decide (x ∈ l)) as [Hx|Hx].
    + apply Hmax. by apply elem_of_first_seen.
    + rewrite (occurrences_zero x l Hx). lia.
  - destruct l; [done|]. cbn in Hf. done.
Qed.

(** X16.  When some session has a bedtime, the preferred_bedtime that
    _extract_preferences sets is one of the bedtimes and none occurs more
    often; when no session has one, the existing preferred_bedtime is left
    as it is. *)
Theorem preferred_bedtime_is_most_frequent sessions existing :
  let bedtimes := truthy_strs bedtime sessions in
  match bedtimes with
  | [] =>
    LongTermMemory._extract_preferences sessions existing !! "preferred_bedtime"
    = existing !! "preferred_bedtime"
  | _ =>
    ∃ b, LongTermMemory._extract_preferences sessions existing !! "preferred_bedtime"
         = Some (JStr b)
       ∧ b ∈ bedtimes
       ∧ ∀ x, (occurrences x bedtimes ≤ occurrences b bedtimes)%nat
  end.
Proof.
  intros bedtimes. unfold LongTermMemory._extract_preferences. fold bedtimes.
  pose proof (most_common_spec bedtimes) as Hm.
  destruct (most_common bedtimes) as [b|].
  - destruct bedtimes as [|b0 bs] eqn:E; [by destruct Hm as [?%elem_of_nil _]|].
    exists b. by rewrite lookup_insert_eq.
  - rewrite Hm. destruct (truthy_nums duration_hours sessions); [done|].
    by rewrite lookup_insert_ne.
Qed.

(** ** Trends *)

Lemma calculate_trends_keys sessions k :
  k ∉ TREND_KEYS → LongTermMemory._calculate_trends sessions !! k = None.
Proof.
  intros Hk. unfold TREND_KEYS in Hk. rewrite !not_elem_of_cons in Hk. destruct_and!.
  unfold LongTermMemory._calculate_trends.
  destruct sessions as [|s0 l0]; [done|].
  destruct (truthy_nums duration_hours (s0 :: l0)), (truthy_nums efficiency_score (s0 :: l0)),
    (truthy_nums morning_mood (s0 :: l0)), (7 <=? length (s0 :: l0))%nat;
    try destruct (truthy_nums duration_hours (take 7 (s0 :: l0)));
    rewrite ?lookup_insert_ne by congruence; done.
Qed.

Lemma stored_ltm_update_trends now u sessions w :
  stored_ltm (LongTermMemory.update_trends now u sessions w).2 u
  = {| lt_trends := Some (LongTermMemory._calculate_trends sessions ∪ stored_trends w u);
       lt_patterns := Some (LongTermMemory._identify_patterns sessions);
       lt_preferences :=
         Some (LongTermMemory._extract_preferences sessions (stored_preferences w u));
       lt_recommendations := lt_recommendations (stored_ltm w u);
       lt_sleep_score := lt_sleep_score (stored_ltm w u);
       lt_confidence := lt_confidence (stored_ltm w u);
       lt_personalized_tips := lt_personalized_tips (stored_ltm w u);
       lt_issues := lt_issues (stored_ltm w u);
       lt_last_updated := Some now;
       lt_total_sessions_analyzed :=
         Some (default 0%nat (lt_total_sessions_analyzed (stored_ltm w u))
               + length sessions)%nat |}.
Proof.
  unfold stored_ltm at 1, LongTermMemory.update_trends. cbn. by rewrite lookup_insert_eq.
Qed.

Lemma stored_ltm_update_recommendations now u recs score conf tips issues w :
  stored_ltm (LongTermMemory.update_recommendations now u recs score conf tips issues w).2 u
  = {| lt_trends :=
         Some (<["confidence" := conf]>
               (<["avg_sleep_score" := inject_Z score]> (stored_trends w u)));
       lt_patterns := lt_patterns (stored_ltm w u);
       lt_preferences := lt_preferences (stored_ltm w u);
       lt_recommendations := Some recs;
       lt_sleep_score := Some score;
       lt_confidence := Some conf;
       lt_personalized_tips := Some tips;
       lt_issues := match issues with Some l => Some l | None => lt_issues (stored_ltm w u) end;
       lt_last_updated := Some now;
       lt_total_sessions_analyzed := lt_total_sessions_analyzed (stored_ltm w u) |}.
Proof.
  unfold stored_ltm at 1, LongTermMemory.update_recommendations. cbn.
  by rewrite lookup_insert_eq.
Qed.

Lemma stored_trends_update_trends now u sessions w :
  stored_trends (LongTermMemory.update_trends now u sessions w).2 u
  = LongTermMemory._calculate_trends sessions ∪ stored_trends w u.
Proof. unfold stored_trends at 1. by rewrite stored_ltm_update_trends. Qed.

Lemma stored_trends_update_recommendations now u recs score conf tips issues w :
  stored_trends (LongTermMemory.update_recommendations now u recs score conf tips issues w).2 u
  = <["confidence" := conf]> (<["avg_sleep_score" := inject_Z score]> (stored_trends w u)).
Proof. unfold stored_trends at 1. by rewrite stored_ltm_update_recommendations. Qed.

Lemma score_keys_not_trend_keys :
  ("avg_sleep_score" ∉ TREND_KEYS) ∧ ("confidence" ∉ TREND_KEYS).
Proof. unfold TREND_KEYS. rewrite !not_elem_of_cons. repeat split; (done || apply not_elem_of_nil). Qed.

(** X17.  A trend update keeps every stored trend whose key it does not
    compute (the score keys written with the recommendations among them),
    stores each trend it computes, adds the number of sessions it was given
    to total_sessions_analyzed, and replaces the patterns by the ones it
    identifies. *)
Theorem update_trends_frame now u sessions w :
  let w' := (LongTermMemory.update_trends now u sessions w).2 in
  (∀ k, k ∉ TREND_KEYS → stored_trends w' u !! k = stored_trends w u !! k)
  ∧ (∀ k v, LongTermMemory._calculate_trends sessions !! k = Some v →
       stored_trends w' u !! k = Some v)
  ∧ lt_total_sessions_analyzed (stored_ltm w' u)
    = Some (default 0%nat (lt_total_sessions_analyzed (stored_ltm w u)) + length sessions)%nat
  ∧ lt_patterns (stored_ltm w' u) = Some (LongTermMemory._identify_patterns sessions).
Proof.
  intros w'. subst w'. unfold stored_trends at 1 3.
  rewrite stored_ltm_update_trends. cbn. split; [|split; [|done]].
  - intros k Hk. rewrite lookup_union_r; [done|]. by apply calculate_trends_keys.
  - intros k v Hv. by apply lookup_union_Some_l.
Qed.

(** X18.  A recommendations update sets the trends avg_sleep_score and
    confidence, leaves every other trend, the patterns, the preferences and
    total_sessions_analyzed as they are, and keeps the stored issues when it
    is given none. *)
Theorem update_recommendations_frame now u recs score conf tips issues w :
  let w' := (LongTermMemory.update_recommendations now u recs score conf tips issues w).2 in
  (∀ k, k ≠ "avg_sleep_score" → k ≠ "confidence" →
     stored_trends w' u !! k = stored_trends w u !! k)
  ∧ stored_trends w' u !! "avg_sleep_score" = Some (inject_Z score)
  ∧ stored_trends w' u !! "confidence" = Some conf
  ∧ lt_patterns (stored_ltm w' u) = lt_patterns (stored_ltm w u)
  ∧ lt_preferences (stored_ltm w' u) = lt_preferences (stored_ltm w u)
  ∧ lt_total_sessions_analyzed (stored_ltm w' u)
    = lt_total_sessions_analyzed (stored_ltm w u)
  ∧ (issues = None → lt_issues (stored_ltm w' u) = lt_issues (stored_ltm w u)).
Proof.
  intros w'. subst w'. unfold stored_trends at 1 3 4.
  rewrite stored_ltm_update_recommendations. cbn. repeat split.
  - intros k H1 H2. by rewrite !lookup_insert_ne.
  - rewrite lookup_insert_ne by done. by rewrite lookup_insert_eq.
  - by rewrite lookup_insert_eq.
  - by intros ->.
Qed.

(** X19.  What a recommendations update writes survives a later trend
    update: the score and the confidence, both as fields and as trends, the
    recommendations and the tips. *)
Theorem score_survives_trend_update now1 now2 u recs score conf tips issues sessions w :
  let w1 := (LongTermMemory.update_recommendations now1 u recs score conf tips issues w).2 in
  let w2 := (LongTermMemory.update_trends now2 u sessions w1).2 in
  stored_trends w2 u !! "avg_sleep_score" = Some (inject_Z score)
  ∧ stored_trends w2 u !! "confidence" = Some conf
  ∧ lt_sleep_score (stored_ltm w2 u) = Some score
  ∧ lt_confidence (stored_ltm w2 u) = Some conf
  ∧ lt_recommendations (stored_ltm w2 u) = Some recs
  ∧ lt_personalized_tips (stored_ltm w2 u) = Some tips.
Proof.
  intros w1 w2. subst w1 w2. destruct score_keys_not_trend_keys as [K1 K2].
  rewrite stored_trends_update_trends, stored_trends_update_recommendations.
  rewrite !lookup_union_r by (by apply calculate_trends_keys).
  rewrite stored_ltm_update_trends.
  cbn [lt_sleep_score lt_confidence lt_recommendations lt_personalized_tips].
  rewrite stored_ltm_update_recommendations.
  cbn [lt_sleep_score lt_confidence lt_recommendations lt_personalized_tips].
  repeat split.
  - rewrite lookup_insert_ne by done. by rewrite lookup_insert_eq.
  - by rewrite lookup_insert_eq.
Qed.




(** ** Patterns *)

Lemma identify_patterns_cases sessions :
  (length (LongTermMemory._identify_patterns sessions) ≤ 2)%nat
  ∧ Forall (λ p, pattern_type p = "consistent_bedtime" ∨ pattern_type p = "sufficient_data")
      (LongTermMemory._identify_patterns sessions)
  ∧ ((length sessions < 3)%nat → LongTermMemory._identify_patterns sessions = []).
Proof.
  unfold LongTermMemory._identify_patterns.
  destruct (length sessions <? 3)%nat eqn:E.
  { split; [cbn; lia|split; [constructor|done]]. }
  apply Nat.ltb_ge in E.
  destruct (truthy_strs bedtime sessions) as [|b bs].
  - destruct (7 <=? length sessions)%nat; cbn;
      (split; [lia|split; [repeat first [apply Forall_nil_2 | apply Forall_cons_2; [cbn; auto|]]|intros; exfalso; lia]]).
  - destruct (Py.len_set (b :: bs) <=? 2)%nat, (7 <=? length sessions)%nat; cbn;
      (split; [lia|split; [repeat first [apply Forall_nil_2 | apply Forall_cons_2; [cbn; auto|]]|intros; exfalso; lia]]).
Qed.

(* ===================================================================== *)
(** * Properties: the Recommender *)
(* ===================================================================== *)

Section recommender_more.
Context `{Platform}.



Lemma personalized_tips_length a p trends :
  ∃ n : nat,
    length (SleepRecommender._generate_personalized_tips a p trends)
    = Nat.min 6 (if (n <? 3)%nat then n + 3 else n)%nat
    ∧ (n ≤ 5)%nat.
Proof.
  unfold SleepRecommender._generate_personalized_tips.
  set (i3 := take 3 (issues a)).
  assert (Hi3 : (length i3 ≤ 3)%nat) by (unfold i3; rewrite length_take; lia).
  set (ex := if profile_truthy p then _ else i3).
  assert (∃ e, ex = i3 ++ e ∧ (length e ≤ 1)%nat) as (e & -> & He).
  { unfold ex. destruct (profile_truthy p);
      [|exists []; split; [by rewrite app_nil_r|cbn; lia]].
    destruct (String.eqb _ "rarely"); [eexists [_]; split; [done|cbn; lia]|].
    destruct (String.eqb _ "daily"); [eexists [_]; split; [done|cbn; lia]|].
    exists []. split; [by rewrite app_nil_r|cbn; lia]. }
  set (tr := if Py.dict_truthy trends then _ else i3 ++ e).
  assert (∃ t, tr = (i3 ++ e) ++ t ∧ (length t ≤ 1)%nat) as (t & -> & Ht).
  { unfold tr. destruct (Py.dict_truthy trends);
      [|exists []; split; [by rewrite app_nil_r|cbn; lia]].
    destruct (_ && _); [eexists [_]; split; [done|cbn; lia]|].
    exists []. split; [by rewrite app_nil_r|cbn; lia]. }
  exists (length ((i3 ++ e) ++ t)). split.
  - rewrite length_take. destruct (_ <? 3)%nat; [|done].
    rewrite length_app. cbn [length]. lia.
  - rewrite !length_app. lia.
Qed.



(* ==B10== *)






End recommender_more.

(* ===================================================================== *)
(** * Properties: validation and the pipeline, continued *)
(* ===================================================================== *)


Section pipeline_more.
Context `{Platform}.


Lemma int_between (lo hi : Z) x :
  1 ≤ lo →
  (Py.int x <? lo) || (hi <? Py.int x) = false
  ↔ (inject_Z lo <= x)%Q ∧ (x < inject_Z (hi + 1))%Q.
Proof.
  intros Hlo. rewrite orb_false_iff, !Z.ltb_ge. unfold Py.int.
  destruct (Qle_bool 0 x) eqn:E.
  - pose proof (Qfloor_le x) as Hf. pose proof (Qlt_floor x) as Hc. split.
    + intros [H1 H2]. split.
      * eapply Qle_trans; [|exact Hf]. by rewrite <- Zle_Qle.
      * eapply Qlt_le_trans; [exact Hc|]. rewrite <- Zle_Qle. lia.
    + intros [H1 H2]. split.
      * rewrite <- (Qfloor_Z lo). by apply Qfloor_resp_le.
      * assert (inject_Z (Qfloor x) < inject_Z (hi + 1))%Q by (eapply Qle_lt_trans; eauto).
        rewrite <- Zlt_Qlt in H0. lia.
  - assert (Hneg : (x < 0)%Q) by (by apply Py_le_false).
    assert (Hceil : Qceiling x ≤ 0).
    { change 0 with (Qceiling (inject_Z 0)). apply Qceiling_resp_le.
      change (inject_Z 0) with 0%Q. lra. }
    split; [lia|]. intros [H1 _].
    assert (inject_Z 1 <= inject_Z lo)%Q by (rewrite <- Zle_Qle; lia).
    change (inject_Z 1) with 1%Q in *. lra.
Qed.







(** X24.  A profile validates exactly when its age, if present, has an
    integer part from 1 to 120 and its stress level, if present, an integer
    part from 1 to 5. *)
Theorem validate_user_profile_accepts_iff p :
  Validators.validate_user_profile p = None
  ↔ (∀ a, age p = Some a → (1 <= a)%Q ∧ (a < 121)%Q)
    ∧ (∀ x, stress_level p = Some x → (1 <= x)%Q ∧ (x < 6)%Q).
Proof.
  unfold Validators.validate_user_profile.
  assert (Hage : ∀ a, (Py.int a <? 1) || (120 <? Py.int a) = false ↔ (1 <= a)%Q ∧ (a < 121)%Q)
    by (intros a; by rewrite (int_between 1 120)).
  assert (Hstress : ∀ x, (Py.int x <? 1) || (5 <? Py.int x) = false ↔ (1 <= x)%Q ∧ (x < 6)%Q)
    by (intros x; by rewrite (int_between 1 5)).
  destruct (age p) as [a|].
  - destruct (_ || _) eqn:Ea.
    + split; [done|]. intros [Ha _]. specialize (Ha a eq_refl). apply Hage in Ha. congruence.
    + apply Hage in Ea. destruct (stress_level p) as [x|].
      * destruct (_ || _) eqn:Ex.
        -- split; [done|]. intros [_ Hx]. specialize (Hx x eq_refl). apply Hstress in Hx.
           congruence.
        -- apply Hstress in Ex. split; [|done]. intros _. split; by intros ? [= <-].
      * split; [|done]. intros _. split; [by intros ? [= <-]|done].
  - destruct (stress_level p) as [x|].
    + destruct (_ || _) eqn:Ex.
      * split; [done|]. intros [_ Hx]. specialize (Hx x eq_refl). apply Hstress in Hx.
        congruence.
      * apply Hstress in Ex. split; [|done]. intros _. split; [done|by intros ? [= <-]].
    + split; [|done]. intros _. split; done.
Qed.

Lemma validation_node_cases t :
  (accepted t ∧ Nodes.validation_node (Workflow.initial_state t) = Workflow.initial_state t)
  ∨ (¬ accepted t
     ∧ st_status (Nodes.validation_node (Workflow.initial_state t)) = "error"
     ∧ st_errors (Nodes.validation_node (Workflow.initial_state t)) ≠ []
     ∧ st_task_id (Nodes.validation_node (Workflow.initial_state t))
       = default "" (req_task_id t)).
Proof.
  unfold accepted, Nodes.validation_node.
  destruct (Validators.validate_task_request _) as [e|].
  { right. cbn. done. }
  change (st_errors (Workflow.initial_state t)) with (@nil string).
  cbn [app st_errors set_errors].
  destruct (Nodes.session_errors 0 _) as [|e es].
  - left. by split.
  - right. cbn. by repeat split.
Qed.

Lemma invoke_accepted now t w :
  accepted t →
  Workflow.invoke now (Workflow.initial_state t) w
  = let '(state, w) := Nodes.memory_fetch_node (Workflow.initial_state t) w in
    let state := Nodes.reasoning_node state in
    let recommended := Nodes.recommendation_engine_node state in
    let scored := Nodes.scorer_node state in
    let state := merge_patches recommended scored state in
    let '(state, w) := Nodes.memory_write_node now state w in
    (Nodes.formatter_node state, w).
Proof.
  intros Ha. unfold Workflow.invoke.
  destruct (validation_node_cases t) as [[_ ->]|[Hn _]]; [reflexivity|done].
Qed.


Lemma process_task_accepted now t w :
  accepted t →
  Workflow.process_task now t w
  = ({| res_task_id := default "" (req_task_id t);
        res_status := "completed";
        res_error := None;
        res_result :=
          Some {| out_summary := summary (task_analysis t w);
                  out_issues := issues (task_analysis t w);
                  out_recommendations := Some (Dict (task_recommendations t w));
                  out_sleep_score := sleep_score (task_score t w);
                  out_confidence := confidence (task_score t w);
                  out_personalized_tips := personalized_tips (task_recommendations t w) |} |},
     task_world now t w).
Proof.
  intros Ha. unfold Workflow.process_task. rewrite invoke_accepted by done.
  reflexivity.
Qed.



(** ** Each write touches one user's documents only *)

Lemma save_sessions_docs now u l w :
  ltm_docs (ShortTermMemory.save_sessions now u l w).2 = ltm_docs w
  ∧ ∀ u', u' ≠ u →
      stm_docs (ShortTermMemory.save_sessions now u l w).2 !! u' = stm_docs w !! u'.
Proof.
  destruct (save_sessions_unfold now u l w) as (w0 & Hs & Hl & ->).
  destruct (ShortTermMemory.build_stm_data _ _ _); cbn; (split; [done|]); intros u' Hne.
  - by rewrite lookup_insert_ne, Hs.
  - by rewrite Hs.
Qed.

Lemma update_trends_docs now u l w :
  stm_docs (LongTermMemory.update_trends now u l w).2 = stm_docs w
  ∧ ∀ u', u' ≠ u →
      ltm_docs (LongTermMemory.update_trends now u l w).2 !! u' = ltm_docs w !! u'.
Proof.
  unfold LongTermMemory.update_trends, LongTermMemory.get_memory. cbn. split; [done|].
  intros u' Hne. by rewrite lookup_insert_ne.
Qed.

Lemma update_recommendations_docs now u recs score conf tips issues w :
  stm_docs (LongTermMemory.update_recommendations now u recs score conf tips issues w).2
  = stm_docs w
  ∧ ∀ u', u' ≠ u →
      ltm_docs (LongTermMemory.update_recommendations now u recs score conf tips issues w).2
        !! u' = ltm_docs w !! u'.
Proof.
  unfold LongTermMemory.update_recommendations, LongTermMemory.get_memory. cbn.
  split; [done|]. intros u' Hne. by rewrite lookup_insert_ne.
Qed.


Lemma task_world_docs now t w :
  let u := request_user t in
  let w1 := match request_sessions t with
            | [] => w
            | _ => (ShortTermMemory.save_sessions now u (request_sessions t) w).2
            end in
  stm_docs (task_world now t w) = stm_docs w1
  ∧ ∀ u', u' ≠ u → ltm_docs (task_world now t w) !! u' = ltm_docs w !! u'.
Proof.
  intros u w1. unfold task_world. fold u.
  set (w0 := record_call (ltm_get_memory u) (record_call (stm_get_sessions u) w)).
  set (wa := match request_sessions t with [] => w0 | _ => _ end).
  set (wb := match stored_sessions w u ++ request_sessions t with [] => wa | _ => _ end).
  destruct (update_recommendations_docs now u (Dict (task_recommendations t w))
              (sleep_score (task_score t w)) (confidence (task_score t w))
              (personalized_tips (task_recommendations t w))
              (Some (issues (task_analysis t w))) wb) as [Hs Hl].
  assert (Hb : stm_docs wb = stm_docs wa
               ∧ ∀ u', u' ≠ u → ltm_docs wb !! u' = ltm_docs wa !! u').
  { subst wb. destruct (_ ++ _); [done|]. apply update_trends_docs. }
  assert (Ha : stm_docs wa = stm_docs w1 ∧ ltm_docs wa = ltm_docs w).
  { subst wa w1. destruct (request_sessions t) as [|s0 l0]; [done|].
    destruct (save_sessions_unfold now u (s0 :: l0) w0) as (x0 & Hx0 & Hx0' & ->).
    destruct (save_sessions_unfold now u (s0 :: l0) w) as (x & Hx & Hx' & ->).
    rewrite (stored_sessions_ext w w0) by done.
    destruct (ShortTermMemory.build_stm_data _ _ _); cbn; by rewrite ?Hx0, ?Hx, ?Hx0'. }
  split.
  - rewrite Hs. destruct Hb as [-> _]. by destruct Ha.
  - intros u' Hne. rewrite Hl by done. destruct Hb as [_ ->]; [|done]. by destruct Ha as [_ ->].
Qed.

(** X27.  Whatever the request, process_task leaves the documents of every
    other user, in both memories, as they were. *)
Theorem process_task_isolation now t w u' :
  u' ≠ request_user t →
  let r := Workflow.process_task now t w in
  stm_docs r.2 !! u' = stm_docs w !! u' ∧ ltm_docs r.2 !! u' = ltm_docs w !! u'.
Proof.
  intros Hne r. subst r.
  destruct (validation_node_cases t) as [[Ha Hv]|(Hn & Hst & Herr & Hid)].
  - rewrite process_task_accepted by done. cbn [snd].
    destruct (task_world_docs now t w) as [Hs Hl]. rewrite Hs, Hl by done. split; [|done].
    destruct (request_sessions t); [done|]. by apply save_sessions_docs.
  - unfold Workflow.process_task, Workflow.invoke, Workflow._should_continue.
    rewrite Hst. cbn [String.eqb Ascii.eqb Bool.eqb orb fst snd]. rewrite Hst. done.
Qed.







(** X25.  The recommender returns three to five tips, so its cap of six
    never cuts; and when the stored patterns are ones the trend update
    identifies, the recommendation stage returns at most seven tips. *)
Theorem personalized_tips_bounds :
  (∀ a p trends,
     (3 ≤ length (SleepRecommender._generate_personalized_tips a p trends) ≤ 5)%nat)
  ∧ (∀ st a sessions,
       st_analysis st = Some a →
       Nodes.state_ltm_patterns st = LongTermMemory._identify_patterns sessions →
       (length (patch_personalized_tips (Nodes.recommendation_engine_node st)) ≤ 7)%nat).
Proof.
  split.
  - intros a p trends. destruct (personalized_tips_length a p trends) as (n & -> & Hn).
    destruct (Nat.ltb_spec n 3); lia.
  - intros st a sessions Ha Hp. unfold Nodes.recommendation_engine_node. rewrite Ha, Hp.
    destruct (identify_patterns_cases sessions) as (H2 & _ & _).
    pose proof (pattern_recommendations_length
                  (LongTermMemory._identify_patterns sessions)) as Hl.
    set (p := Nodes.enhance_profile _ _). set (tr := Nodes.state_ltm_trends st).
    destruct (personalized_tips_length a p tr) as (n & Hn & Hn5).
    assert (length (SleepRecommender._generate_personalized_tips a p tr) ≤ 5)%nat as H5.
    { rewrite Hn. destruct (Nat.ltb_spec n 3); lia. }
    destruct (Nodes.pattern_recommendations _) eqn:E.
    + cbn [patch_personalized_tips personalized_tips
           SleepRecommender.generate_recommendations]. lia.
    + cbn [patch_personalized_tips Nodes.with_tips personalized_tips
           SleepRecommender.generate_recommendations].
      rewrite length_app. lia.
Qed.

End pipeline_more.

(* ===================================================================== *)
(** * Concrete runs *)
(* ===================================================================== *)

(** The statements above, applied to the inputs of [Examples] on the
    reference platform, and the inputs on which a statement of the
    specification fails. *)
Section concrete_runs.
Local Existing Instance Reference.platform.
Import Examples.

Lemma scenario_A_is_scenario_A : is_scenario_A scenario_A.
Proof.
  split; [done|]. exists "22:30", "06:30". split; [done|]. split; [done|].
  repeat constructor.
Qed.

Lemma scenario_A_scores_witness :
  is_scenario_A scenario_A
  ∧ sleep_score (SleepScorer.calculate_score scenario_A
                   (Some (SleepAnalyzer.analyze scenario_A empty_profile))) = 70.
Proof.
  split; [exact scenario_A_is_scenario_A|].
  exact (proj1 (scenario_A_scores scenario_A empty_profile ∅ []
                  scenario_A_is_scenario_A _ (or_introl eq_refl))).
Defined.


Lemma confidence_range_and_zero_witness :
  (0 < confidence (SleepScorer.calculate_score [short_night] None))%Q.
Proof.
  by apply (confidence_range_and_zero [short_night] None).
Defined.

Lemma stm_save_twice_last_wins_witness :
  let w1 := (ShortTermMemory.save_sessions Reference.NOON_2024_06_15 USER [first_entry]
               empty_world).2 in
  let r := ShortTermMemory.save_sessions (Reference.NOON_2024_06_15 + DAY) USER
             [second_entry] w1 in
  filter (λ s, ShortTermMemory.session_key s = ShortTermMemory.session_key second_entry)
    (stored_sessions r.2 USER) = [second_entry].
Proof.
  apply (stm_save_twice_last_wins Reference.NOON_2024_06_15
           (Reference.NOON_2024_06_15 + DAY) USER [first_entry] first_entry []
           second_entry [] empty_world 63853920000000000).
  - left.
  - reflexivity.
  - constructor.
  - by vm_compute.
  - by vm_compute.
  - by vm_compute.
Defined.

(** C2 fails as stated: a session older than the retention window, saved
    twice under the same identity, leaves no stored entry at all. *)
Lemma stm_save_twice_counterexample :
  let w1 := (ShortTermMemory.save_sessions Reference.NOON_2024_06_15 USER [old_entry]
               empty_world).2 in
  let r := ShortTermMemory.save_sessions (Reference.NOON_2024_06_15 + DAY) USER
             [old_entry] w1 in
  r.1 = true
  ∧ filter (λ s, ShortTermMemory.session_key s = ShortTermMemory.session_key old_entry)
      (stored_sessions r.2 USER) = [].
Proof. by vm_compute. Qed.

(** C3 fails as stated: a session stored while recent; a month later a
    save call whose session carries a Z-suffixed ISO date raises inside
    (an aware datetime is compared with the naive cut-off), reports
    failure and leaves the expired session stored. *)
Lemma stm_retention_counterexample :
  let w1 := (ShortTermMemory.save_sessions Reference.NOON_2024_06_15 USER [first_entry]
               empty_world).2 in
  let now := Reference.NOON_2024_06_15 + 30 * DAY in
  let r := ShortTermMemory.save_sessions now USER [zulu_entry] w1 in
  r.1 = false
  ∧ stored_sessions r.2 USER = [first_entry]
  ∧ ¬ in_window (now - ShortTermMemory.retention_days * DAY) first_entry.
Proof.
  split; [by vm_compute|]. split; [by vm_compute|].
  intros (d & Hd & Hle). vm_compute in Hd. injection Hd as <-. by vm_compute in Hle.
Qed.

Lemma stm_retention_after_save_witness :
  Forall (in_window (Reference.NOON_2024_06_15 - ShortTermMemory.retention_days * DAY))
    (stored_sessions
       (ShortTermMemory.save_sessions Reference.NOON_2024_06_15 USER
          [first_entry; old_entry] empty_world).2 USER).
Proof.
  exact (stm_retention_after_save Reference.NOON_2024_06_15 USER
           [first_entry; old_entry] empty_world).
Defined.

Lemma ltm_update_trends_merges_preferences_witness :
  let w1 := (LongTermMemory.update_trends Reference.NOON_2024_06_15 USER
               week_of_short_nights world_with_profile_preference).2 in
  let w2 := (LongTermMemory.update_trends (Reference.NOON_2024_06_15 + DAY) USER
               scenario_A w1).2 in
  stored_preferences w2 USER !! "profile" = stored_preferences w1 USER !! "profile".
Proof.
  apply ltm_update_trends_merges_preferences; discriminate.
Defined.

Lemma missing_user_id_aborts_witness :
  let r := Workflow.process_task Reference.NOON_2024_06_15 anonymous_task empty_world in
  res_status r.1 = "error" ∧ res_result r.1 = None
  ∧ calls r.2 = calls empty_world ∧ r.2 = empty_world.
Proof.
  exact (proj2 (missing_user_id_aborts Reference.NOON_2024_06_15 anonymous_task
                  empty_world (or_introl eq_refl))).
Defined.

(** C8 fails as stated: with an empty recommendations dict, score 0,
    confidence 0, no tip and no issue, none of the claimed conditions
    holds, and the Memory Writer still writes to the LTM document. *)
Lemma memory_writer_gate_counterexample :
  let w' := (Nodes.memory_write_node Reference.NOON_2024_06_15 quiet_state empty_world).2 in
  st_recommendations quiet_state = Some EmptyDict
  ∧ st_sleep_score quiet_state = 0 ∧ (st_confidence quiet_state == 0)%Q
  ∧ st_personalized_tips quiet_state = []
  ∧ issues_to_store quiet_state quiet_analysis = []
  ∧ recommendation_writes empty_world = 0%nat
  ∧ recommendation_writes w' = 1%nat
  ∧ ltm_docs empty_world !! USER = None
  ∧ recommendation_fields (stored_ltm w' USER)
    = (Some EmptyDict, Some 0, Some 0%Q, Some [], Some []).
Proof. by vm_compute. Qed.

Lemma memory_writer_gate_witness :
  let w' := (Nodes.memory_write_node Reference.NOON_2024_06_15 quiet_state empty_world).2 in
  recommendation_writes w' = S (recommendation_writes empty_world).
Proof.
  refine (proj1 (proj1 (memory_writer_gate Reference.NOON_2024_06_15 quiet_state empty_world
                          [] quiet_analysis eq_refl eq_refl) _)).
  left. by eexists.
Defined.



Lemma stm_drops_undated_sessions_witness :
  let w' := (ShortTermMemory.save_sessions Reference.NOON_2024_06_15 USER
               [short_night; first_entry] empty_world).2 in
  short_night ∉ stored_sessions w' USER.
Proof.
  refine (proj2 (stm_drops_undated_sessions Reference.NOON_2024_06_15 USER
                   [short_night; first_entry] empty_world reach_empty)
            short_night _ eq_refl USER).
  left.
Defined.
End concrete_runs.

(* ===================================================================== *)
(** * Concrete runs, continued *)
(* ===================================================================== *)

(** The further statements, applied to the inputs of [Examples] on the
    reference platform. *)
Section more_concrete_runs.
Local Existing Instance Reference.platform.
Import Examples.





Lemma score_interruptions_antitone_witness :
  let quiet := SleepAnalyzer.analyze scenario_A empty_profile in
  let noisy := SleepAnalyzer.analyze week_of_short_nights sedentary in
  (0 <= SleepScorer._score_interruptions [] (Some noisy))%Q
  ∧ (SleepScorer._score_interruptions [] (Some noisy)
     <= SleepScorer._score_interruptions [] (Some quiet))%Q
  ∧ (SleepScorer._score_interruptions [] (Some quiet) <= 100)%Q.
Proof.
  eapply score_interruptions_antitone.
  - vm_compute. reflexivity.
  - vm_compute. reflexivity.
  - by vm_compute.
  - by vm_compute.
Defined.

Lemma week_of_short_nights_efficiency : Forall efficiency_in_range week_of_short_nights.
Proof.
  unfold week_of_short_nights. cbn [map].
  repeat (apply Forall_cons_2;
          [intros e He; vm_compute in He; injection He as <-; split; by vm_compute|]).
  apply Forall_nil_2.
Qed.

Lemma sleep_score_range_witness :
  0 ≤ sleep_score (SleepScorer.calculate_score week_of_short_nights
                     (Some (SleepAnalyzer.analyze week_of_short_nights sedentary))) ≤ 100.
Proof.
  exact (proj1 (sleep_score_range week_of_short_nights week_of_short_nights sedentary ∅ []
                  (Some (SleepAnalyzer.analyze week_of_short_nights sedentary))
                  week_of_short_nights_efficiency week_of_short_nights_efficiency
                  (or_intror (or_introl eq_refl)))).
Defined.

Lemma save_sessions_stores_tidy_list_witness :
  ∃ d, stm_docs (ShortTermMemory.save_sessions Reference.NOON_2024_06_15 USER
                   [first_entry; old_entry; next_entry] empty_world).2 !! USER = Some d
     ∧ NoDup (ShortTermMemory.session_key <$> doc_sessions d)
     ∧ newest_first (doc_sessions d)
     ∧ doc_count d = length (doc_sessions d)
     ∧ doc_last_updated d = Reference.NOON_2024_06_15.
Proof.
  apply save_sessions_stores_tidy_list. vm_compute. reflexivity.
Defined.

(** A world the store reaches with one save. *)
Lemma one_save_reachable :
  stm_reachable (ShortTermMemory.save_sessions Reference.NOON_2024_06_15 USER
                   [first_entry] empty_world).2.
Proof. apply reach_save, reach_empty. Qed.

Lemma save_sessions_keeps_unexpired_witness :
  let w := (ShortTermMemory.save_sessions Reference.NOON_2024_06_15 USER
              [first_entry] empty_world).2 in
  first_entry ∈ stored_sessions
                  (ShortTermMemory.save_sessions (Reference.NOON_2024_06_15 + DAY) USER
                     [next_entry] w).2 USER.
Proof.
  apply save_sessions_keeps_unexpired.
  - apply one_save_reachable.
  - vm_compute. left.
  - eexists. split; [vm_compute; reflexivity|by vm_compute].
  - apply Forall_cons_2; [by vm_compute|apply Forall_nil_2].
  - vm_compute. reflexivity.
Defined.

Lemma save_sessions_origin_witness :
  first_entry ∈ stored_sessions empty_world USER
  ∨ (USER = USER ∧ first_entry ∈ [first_entry; old_entry]).
Proof.
  apply (save_sessions_origin Reference.NOON_2024_06_15 USER [first_entry; old_entry]
           empty_world USER first_entry).
  vm_compute. left.
Defined.

Lemma clear_old_sessions_exact_witness :
  let w := (ShortTermMemory.save_sessions Reference.NOON_2024_06_15 USER
              [first_entry] empty_world).2 in
  let now := Reference.NOON_2024_06_15 + 30 * DAY in
  let r := ShortTermMemory.clear_old_sessions now USER w in
  r.1 = true ∧ stored_sessions r.2 USER = [].
Proof.
  intros w now r.
  destruct (clear_old_sessions_exact now USER w
              (now - ShortTermMemory.retention_days * DAY) one_save_reachable)
    as (Hok & Hst & _).
  - vm_compute. reflexivity.
  - split; [exact Hok|]. etransitivity; [exact Hst|]. vm_compute. reflexivity.
Defined.

Lemma get_recent_sessions_of_reachable_witness :
  let w := (ShortTermMemory.save_sessions Reference.NOON_2024_06_15 USER
              [first_entry] empty_world).2 in
  (ShortTermMemory.get_recent_sessions (Reference.NOON_2024_06_15 + DAY) USER 3 w).1
  = Some [first_entry].
Proof.
  intros w.
  destruct (get_recent_sessions_of_reachable (Reference.NOON_2024_06_15 + DAY) USER 3 w
              (Reference.NOON_2024_06_15 + DAY - 3 * DAY) one_save_reachable)
    as (Hr & _ & _).
  - vm_compute. reflexivity.
  - rewrite Hr. vm_compute. reflexivity.
Defined.

Lemma get_recent_sessions_after_save_witness :
  let w := (ShortTermMemory.save_sessions Reference.NOON_2024_06_15 USER
              [first_entry; old_entry] empty_world).2 in
  (ShortTermMemory.get_recent_sessions Reference.NOON_2024_06_15 USER 30 w).1
  = Some (stored_sessions w USER).
Proof.
  intros w.
  apply (get_recent_sessions_after_save Reference.NOON_2024_06_15 USER
           [first_entry; old_entry] empty_world 30 (Reference.NOON_2024_06_15 - 30 * DAY)).
  - vm_compute. reflexivity.
  - by vm_compute.
  - vm_compute. reflexivity.
Defined.


Lemma process_task_isolation_witness :
  let r := Workflow.process_task Reference.NOON_2024_06_15 first_task empty_world in
  stm_docs r.2 !! "U_202" = stm_docs empty_world !! "U_202"
  ∧ ltm_docs r.2 !! "U_202" = ltm_docs empty_world !! "U_202".
Proof.
  apply (process_task_isolation Reference.NOON_2024_06_15 first_task empty_world "U_202").
  by vm_compute.
Defined.




End more_concrete_runs.
